(** * Wardrobe catalog: persistence, outfit generation and response cleanup

    A shallow embedding of [app.py] (the Streamlit wardrobe application):
    the JSON-backed catalog store, the two outfit generators, the cleanup
    of the vision model's answers and the three catalog-mutating button
    handlers, with the properties the specification states about them.

    Conventions of the embedding.
    - A Python [str] is a [string]; its characters stand for the code
      points 0..255.  File contents are strings as well.
    - A Python [dict] with string keys is an association list kept in
      insertion order ([PyDict]); assignment to an existing key keeps the
      key's position, as in Python.
    - Catalog items and saved outfits, which the program builds as dict
      literals with a fixed key set, are records.
    - The file system is a finite map from paths to contents.
    - [random] is an explicit source of draws threaded through the
      generators; the clock is an explicit argument of the handlers. *)

From Stdlib Require Import String Ascii List ZArith NArith QArith Lia Bool.
From Stdlib Require Import DecimalFacts DecimalPos DecimalN DecimalZ.
From stdpp Require Import gmap strings list.
Import ListNotations.

#[local] Set Warnings "-register-all".

Abbreviation text := (list ascii).

(** ** Python dictionaries with string keys *)

Module PyDict.

Section Dict.
Context {A : Type}.

(** [d.get(k)] *)
Fixpoint get (k : string) (d : list (string * A)) : option A :=
  match d with
  | [] => None
  | (k', v) :: d' => if String.eqb k k' then Some v else get k d'
  end.

(** [d[k] = v]: overwrite in place, or append a new key *)
Fixpoint set (k : string) (v : A) (d : list (string * A)) : list (string * A) :=
  match d with
  | [] => [(k, v)]
  | (k', v') :: d' =>
      if String.eqb k k' then (k, v) :: d' else (k', v') :: set k v d'
  end.

Definition keys (d : list (string * A)) : list string := map fst d.
Definition values (d : list (string * A)) : list A := map snd d.

(** [dict(pairs)] *)
Definition of_pairs (ps : list (string * A)) : list (string * A) :=
  fold_left (fun d kv => set (fst kv) (snd kv) d) ps [].
End Dict.

End PyDict.

(** ** JSON values, [json.dump(.., indent=2)] and [json.load] *)

Module Json.

Inductive json : Type :=
| JNull
| JBool (b : bool)
| JInt (n : Z)
| JStr (s : string)
| JList (l : list json)
| JDict (d : list (string * json)).

Definition quote : ascii := "034"%char.
Definition backslash : ascii := "092"%char.
Definition newline : ascii := "010"%char.

Definition lit (s : string) : text := list_ascii_of_string s.

(** *** Encoder *)

Definition hexdigit (n : N) : ascii :=
  if (n <? 10)%N then ascii_of_N (48 + n) else ascii_of_N (87 + n).

(** [ESCAPE_ASCII] with [ESCAPE_DCT]: the named escapes, printable ASCII
    as it is, everything else as a four-digit [\u] escape. *)
Definition escape_char (c : ascii) : text :=
  let n := N_of_ascii c in
  if Ascii.eqb c quote then [backslash; quote]
  else if Ascii.eqb c backslash then [backslash; backslash]
  else if (n =? 10)%N then [backslash; "n"%char]
  else if (n =? 13)%N then [backslash; "r"%char]
  else if (n =? 9)%N then [backslash; "t"%char]
  else if (n =? 8)%N then [backslash; "b"%char]
  else if (n =? 12)%N then [backslash; "f"%char]
  else if (32 <=? n)%N && (n <=? 126)%N then [c]
  else [backslash; "u"%char; "0"%char; "0"%char;
        hexdigit (n / 16); hexdigit (n mod 16)].

Fixpoint escape (s : string) : text :=
  match s with
  | EmptyString => []
  | String c s' => escape_char c ++ escape s'
  end.

Definition encode_string (s : string) : text :=
  quote :: escape s ++ [quote].

Fixpoint uint_text (d : Decimal.uint) : text :=
  match d with
  | Decimal.Nil => []
  | Decimal.D0 d => "0"%char :: uint_text d
  | Decimal.D1 d => "1"%char :: uint_text d
  | Decimal.D2 d => "2"%char :: uint_text d
  | Decimal.D3 d => "3"%char :: uint_text d
  | Decimal.D4 d => "4"%char :: uint_text d
  | Decimal.D5 d => "5"%char :: uint_text d
  | Decimal.D6 d => "6"%char :: uint_text d
  | Decimal.D7 d => "7"%char :: uint_text d
  | Decimal.D8 d => "8"%char :: uint_text d
  | Decimal.D9 d => "9"%char :: uint_text d
  end.

Definition int_text (n : Z) : text :=
  match Z.to_int n with
  | Decimal.Pos d => uint_text d
  | Decimal.Neg d => "-"%char :: uint_text d
  end.

Definition newline_indent (level : nat) : text :=
  newline :: repeat " "%char (2 * level).

(** [_iterencode] with [indent=2], item separator [","] and key
    separator [": "]; empty containers print as [[]] and [{}]. *)
Fixpoint encode (level : nat) (v : json) : text :=
  match v with
  | JNull => lit "null"
  | JBool true => lit "true"
  | JBool false => lit "false"
  | JInt n => int_text n
  | JStr s => encode_string s
  | JList [] => lit "[]"
  | JList (x :: xs) =>
      "["%char :: newline_indent (S level) ++ encode (S level) x
      ++ (fix more (l : list json) : text :=
            match l with
            | [] => []
            | y :: l' =>
                ","%char :: newline_indent (S level) ++ encode (S level) y
                ++ more l'
            end) xs
      ++ newline_indent level ++ ["]"%char]
  | JDict [] => lit "{}"
  | JDict ((k, x) :: xs) =>
      "{"%char :: newline_indent (S level) ++ encode_string k ++ lit ": "
      ++ encode (S level) x
      ++ (fix more (l : list (string * json)) : text :=
            match l with
            | [] => []
            | (k', y) :: l' =>
                ","%char :: newline_indent (S level) ++ encode_string k'
                ++ lit ": " ++ encode (S level) y ++ more l'
            end) xs
      ++ newline_indent level ++ ["}"%char]
  end.

Definition dumps (v : json) : string := string_of_list_ascii (encode 0 v).

(** *** Decoder *)

(** [WHITESPACE = ' \t\n\r'] *)
Definition is_ws (c : ascii) : bool :=
  let n := N_of_ascii c in
  (n =? 32)%N || (n =? 9)%N || (n =? 10)%N || (n =? 13)%N.

Fixpoint skip_ws (s : text) : text :=
  match s with
  | [] => []
  | c :: r => if is_ws c then skip_ws r else s
  end.

Fixpoint strip_prefix (p s : text) : option text :=
  match p, s with
  | [], _ => Some s
  | a :: p', b :: s' => if Ascii.eqb a b then strip_prefix p' s' else None
  | _ :: _, [] => None
  end.

Definition hexval (c : ascii) : option N :=
  let n := N_of_ascii c in
  if (48 <=? n)%N && (n <=? 57)%N then Some (n - 48)%N
  else if (97 <=? n)%N && (n <=? 102)%N then Some (n - 87)%N
  else if (65 <=? n)%N && (n <=? 70)%N then Some (n - 55)%N
  else None.

Definition hex4 (a b c d : ascii) : option N :=
  match hexval a, hexval b, hexval c, hexval d with
  | Some x, Some y, Some z, Some w => Some (((x * 16 + y) * 16 + z) * 16 + w)%N
  | _, _, _, _ => None
  end.

(** The [BACKSLASH] table of the decoder. *)
Definition unescape (e : ascii) : option ascii :=
  if Ascii.eqb e quote then Some quote
  else if Ascii.eqb e backslash then Some backslash
  else if Ascii.eqb e "/"%char then Some "/"%char
  else if Ascii.eqb e "b"%char then Some "008"%char
  else if Ascii.eqb e "f"%char then Some "012"%char
  else if Ascii.eqb e "n"%char then Some "010"%char
  else if Ascii.eqb e "r"%char then Some "013"%char
  else if Ascii.eqb e "t"%char then Some "009"%char
  else None.

Definition push (c : ascii) (p : option (string * text)) : option (string * text) :=
  match p with
  | Some (s, r) => Some (String c s, r)
  | None => None
  end.

(** [scanstring] in strict mode, entered after the opening quote: raw
    control characters are refused; a [\u] escape above 255 is outside the
    modelled code points and refused as well. *)
Fixpoint scanstring (s : text) : option (string * text) :=
  match s with
  | [] => None
  | c :: r =>
      if Ascii.eqb c quote then Some (EmptyString, r)
      else if Ascii.eqb c backslash then
        match r with
        | [] => None
        | e :: r1 =>
            if Ascii.eqb e "u"%char then
              match r1 with
              | h1 :: h2 :: h3 :: h4 :: r2 =>
                  match hex4 h1 h2 h3 h4 with
                  | Some n =>
                      if (n <? 256)%N then push (ascii_of_N n) (scanstring r2)
                      else None
                  | None => None
                  end
              | _ => None
              end
            else
              match unescape e with
              | Some c' => push c' (scanstring r1)
              | None => None
              end
        end
      else if (N_of_ascii c <? 32)%N then None
      else push c (scanstring r)
  end.

Definition digit_of (c : ascii) : option (Decimal.uint -> Decimal.uint) :=
  match N_of_ascii c with
  | 48%N => Some Decimal.D0 | 49%N => Some Decimal.D1 | 50%N => Some Decimal.D2
  | 51%N => Some Decimal.D3 | 52%N => Some Decimal.D4 | 53%N => Some Decimal.D5
  | 54%N => Some Decimal.D6 | 55%N => Some Decimal.D7 | 56%N => Some Decimal.D8
  | 57%N => Some Decimal.D9
  | _ => None
  end.

Definition is_digit (c : ascii) : bool :=
  match digit_of c with Some _ => true | None => false end.

Fixpoint scan_digits (s : text) : Decimal.uint * text :=
  match s with
  | [] => (Decimal.Nil, [])
  | c :: r =>
      match digit_of c with
      | Some dc => let (d, r') := scan_digits r in (dc d, r')
      | None => (Decimal.Nil, s)
      end
  end.

(** [NUMBER_RE] restricted to its integer part: an optional sign and
    either a single zero or digits without a leading zero.  A fraction or
    an exponent is left in the input, where every caller refuses it. *)
Definition scan_uint (s : text) : option (Decimal.uint * text) :=
  match scan_digits s with
  | (Decimal.Nil, _) => None
  | (Decimal.D0 Decimal.Nil, r) => Some (Decimal.D0 Decimal.Nil, r)
  | (Decimal.D0 _, _) => None
  | (d, r) => Some (d, r)
  end.

Definition scan_number (s : text) : option (json * text) :=
  match s with
  | [] => None
  | c :: r =>
      if Ascii.eqb c "-"%char then
        match scan_uint r with
        | Some (d, r') => Some (JInt (Z.of_int (Decimal.Neg d)), r')
        | None => None
        end
      else
        match scan_uint s with
        | Some (d, r') => Some (JInt (Z.of_int (Decimal.Pos d)), r')
        | None => None
        end
  end.

(** [scan_once], [JSONArray] and [JSONObject].  The fuel bounds the number
    of nested calls; [loads] supplies more than any input can use. *)
Fixpoint scan_once (fuel : nat) (s : text) : option (json * text) :=
  match fuel with
  | O => None
  | S fuel =>
      match s with
      | [] => None
      | c :: r =>
          if Ascii.eqb c quote then
            match scanstring r with
            | Some (str, r') => Some (JStr str, r')
            | None => None
            end
          else if Ascii.eqb c "{"%char then
            match skip_ws r with
            | [] => None
            | c' :: r' =>
                if Ascii.eqb c' "}"%char then Some (JDict [], r')
                else
                  match scan_pairs fuel (c' :: r') with
                  | Some (ps, r'') => Some (JDict (PyDict.of_pairs ps), r'')
                  | None => None
                  end
            end
          else if Ascii.eqb c "["%char then
            match skip_ws r with
            | [] => None
            | c' :: r' =>
                if Ascii.eqb c' "]"%char then Some (JList [], r')
                else
                  match scan_items fuel (c' :: r') with
                  | Some (vs, r'') => Some (JList vs, r'')
                  | None => None
                  end
            end
          else if Ascii.eqb c "n"%char then
            match strip_prefix (lit "ull") r with
            | Some r' => Some (JNull, r')
            | None => None
            end
          else if Ascii.eqb c "t"%char then
            match strip_prefix (lit "rue") r with
            | Some r' => Some (JBool true, r')
            | None => None
            end
          else if Ascii.eqb c "f"%char then
            match strip_prefix (lit "alse") r with
            | Some r' => Some (JBool false, r')
            | None => None
            end
          else scan_number s
      end
  end
with scan_items (fuel : nat) (s : text) : option (list json * text) :=
  match fuel with
  | O => None
  | S fuel =>
      match scan_once fuel s with
      | Some (v, r) =>
          match skip_ws r with
          | [] => None
          | c :: r' =>
              if Ascii.eqb c "]"%char then Some ([v], r')
              else if Ascii.eqb c ","%char then
                match scan_items fuel (skip_ws r') with
                | Some (vs, r'') => Some (v :: vs, r'')
                | None => None
                end
              else None
          end
      | None => None
      end
  end
with scan_pairs (fuel : nat) (s : text) : option (list (string * json) * text) :=
  match fuel with
  | O => None
  | S fuel =>
      match s with
      | [] => None
      | q :: r =>
          if Ascii.eqb q quote then
            match scanstring r with
            | Some (k, r1) =>
                match skip_ws r1 with
                | [] => None
                | c1 :: r2 =>
                    if Ascii.eqb c1 ":"%char then
                      match scan_once fuel (skip_ws r2) with
                      | Some (v, r3) =>
                          match skip_ws r3 with
                          | [] => None
                          | c3 :: r4 =>
                              if Ascii.eqb c3 "}"%char then Some ([(k, v)], r4)
                              else if Ascii.eqb c3 ","%char then
                                match scan_pairs fuel (skip_ws r4) with
                                | Some (ps, r5) => Some ((k, v) :: ps, r5)
                                | None => None
                                end
                              else None
                          end
                      | None => None
                      end
                    else None
                end
            | None => None
            end
          else None
      end
  end.

(** [JSONDecoder.decode]: leading whitespace, one value, trailing
    whitespace, end of input.  [None] stands for [JSONDecodeError]. *)
Definition loads (s : string) : option json :=
  let t := skip_ws (list_ascii_of_string s) in
  match scan_once (S (length t)) t with
  | Some (v, r) =>
      match skip_ws r with
      | [] => Some v
      | _ :: _ => None
      end
  | None => None
  end.

(** *** Measures used to state the round trip *)

(** The tails printed after the first element of a list or dict. *)
Definition encode_more (level : nat) : list json -> text :=
  fix more (l : list json) : text :=
    match l with
    | [] => []
    | y :: l' =>
        ","%char :: newline_indent level ++ encode level y ++ more l'
    end.

Definition encode_more_pairs (level : nat) : list (string * json) -> text :=
  fix more (l : list (string * json)) : text :=
    match l with
    | [] => []
    | (k', y) :: l' =>
        ","%char :: newline_indent level ++ encode_string k'
        ++ lit ": " ++ encode level y ++ more l'
    end.

(** Fuel that [scan_once] needs to read a value back. *)
Fixpoint cost (v : json) : nat :=
  match v with
  | JList l =>
      S ((fix go (l : list json) : nat :=
            match l with [] => 0 | x :: l' => S (cost x + go l') end) l)
  | JDict d =>
      S ((fix go (l : list (string * json)) : nat :=
            match l with [] => 0 | kv :: l' => S (cost (snd kv) + go l') end) d)
  | _ => 1
  end.

Definition cost_items : list json -> nat :=
  fix go (l : list json) : nat :=
    match l with [] => 0 | x :: l' => S (cost x + go l') end.

Definition cost_pairs : list (string * json) -> nat :=
  fix go (l : list (string * json)) : nat :=
    match l with [] => 0 | kv :: l' => S (cost (snd kv) + go l') end.

Fixpoint nodupb (l : list string) : bool :=
  match l with
  | [] => true
  | k :: l' => negb (existsb (String.eqb k) l') && nodupb l'
  end.

(** A value is a Python object only if no dict repeats a key. *)
Fixpoint distinct_keys (v : json) : bool :=
  match v with
  | JList l => forallb distinct_keys l
  | JDict d =>
      nodupb (map fst d) && forallb (fun kv => distinct_keys (snd kv)) d
  | _ => true
  end.

(** What may follow a printed value: anything but a digit. *)
Definition no_digit_head (r : text) : Prop :=
  match r with
  | [] => True
  | c :: _ => is_digit c = false
  end.

(** How a printed value starts: with a character that is neither white
    space nor a closing bracket. *)
Definition starts_value (t : text) : Prop :=
  match t with
  | [] => False
  | c :: _ =>
      is_ws c = false /\ Ascii.eqb c "]" = false /\ Ascii.eqb c "}" = false
  end.

(** [reads_back v]: the decoder recovers [v] from its printed form,
    whatever the indentation level and whatever follows. *)
Definition reads_back (v : json) : Prop :=
  forall fuel level r,
    distinct_keys v = true -> cost v <= fuel -> no_digit_head r ->
    scan_once fuel (encode level v ++ r) = Some (v, r).

End Json.

(** ** Data model *)

(** The dict literal [new_item] of the add-item form. *)
Record Item : Type := mkItem {
  item_id : string;
  item_name : string;
  item_category : string;
  item_color : string;
  item_style : list string;
  item_occasions : list string;
  item_seasons : list string;
  item_image_path : string;
  item_tag_image_path : option string;
  item_brand : string;
  item_size : string;
  item_material : string;
  item_care_instructions : list string;
  item_pattern : option string;
  item_added_date : string
}.

(** The dict literal [saved_outfit] of the save-outfit button: the items
    are referenced by id. *)
Record SavedOutfit : Type := mkSavedOutfit {
  outfit_id : string;
  outfit_name : string;
  outfit_items : list string;
  outfit_created_date : string
}.

(** [{"items": [...], "outfits": [...]}] *)
Record Wardrobe : Type := mkWardrobe {
  items : list Item;
  outfits : list SavedOutfit
}.

(** A generated outfit: a dict from category name to the chosen item. *)
Abbreviation Outfit := (list (string * Item)).

Definition CATEGORIES : list string :=
  ["Top"; "Bottom"; "Shoes"; "Outerwear"; "Accessory"; "Dress/Jumpsuit"].
Definition OCCASIONS : list string :=
  ["Everyday"; "Work"; "Date Night"; "Party"; "Workout"; "Outdoor";
   "Formal Event"; "Loungewear"].
Definition SEASONS : list string :=
  ["Spring"; "Summer"; "Fall"; "Winter"; "All Season"].

(** [x in l] for a list of strings *)
Definition str_in (x : string) (l : list string) : bool :=
  existsb (String.eqb x) l.

(** ** The catalog as a JSON document *)

Module Document.
Import Json.

Definition of_strs (l : list string) : json := JList (map JStr l).

Definition of_opt (o : option string) : json :=
  match o with
  | Some s => JStr s
  | None => JNull
  end.

Definition item_to_json (i : Item) : json :=
  JDict [("id", JStr (item_id i));
         ("name", JStr (item_name i));
         ("category", JStr (item_category i));
         ("color", JStr (item_color i));
         ("style", of_strs (item_style i));
         ("occasions", of_strs (item_occasions i));
         ("seasons", of_strs (item_seasons i));
         ("image_path", JStr (item_image_path i));
         ("tag_image_path", of_opt (item_tag_image_path i));
         ("brand", JStr (item_brand i));
         ("size", JStr (item_size i));
         ("material", JStr (item_material i));
         ("care_instructions", of_strs (item_care_instructions i));
         ("pattern", of_opt (item_pattern i));
         ("added_date", JStr (item_added_date i))].

Definition outfit_to_json (o : SavedOutfit) : json :=
  JDict [("id", JStr (outfit_id o));
         ("name", JStr (outfit_name o));
         ("items", of_strs (outfit_items o));
         ("created_date", JStr (outfit_created_date o))].

Definition wardrobe_to_json (w : Wardrobe) : json :=
  JDict [("items", JList (map item_to_json (items w)));
         ("outfits", JList (map outfit_to_json (outfits w)))].

Definition as_str (v : json) : option string :=
  match v with
  | JStr s => Some s
  | _ => None
  end.

Definition as_opt (v : json) : option (option string) :=
  match v with
  | JStr s => Some (Some s)
  | JNull => Some None
  | _ => None
  end.

Fixpoint all_of {A B : Type} (f : A -> option B) (l : list A) : option (list B) :=
  match l with
  | [] => Some []
  | x :: l' =>
      match f x, all_of f l' with
      | Some y, Some ys => Some (y :: ys)
      | _, _ => None
      end
  end.

Definition as_list {B : Type} (f : json -> option B) (v : json) : option (list B) :=
  match v with
  | JList l => all_of f l
  | _ => None
  end.

(** [d[k]] read at the type the program uses it at. *)
Definition field {B : Type} (f : json -> option B) (k : string)
    (d : list (string * json)) : option B :=
  match PyDict.get k d with
  | Some v => f v
  | None => None
  end.

Definition item_of_json (v : json) : option Item :=
  match v with
  | JDict d =>
      i_id ← field as_str "id" d;
      i_name ← field as_str "name" d;
      i_category ← field as_str "category" d;
      i_color ← field as_str "color" d;
      i_style ← field (as_list as_str) "style" d;
      i_occasions ← field (as_list as_str) "occasions" d;
      i_seasons ← field (as_list as_str) "seasons" d;
      i_image_path ← field as_str "image_path" d;
      i_tag_image_path ← field as_opt "tag_image_path" d;
      i_brand ← field as_str "brand" d;
      i_size ← field as_str "size" d;
      i_material ← field as_str "material" d;
      i_care ← field (as_list as_str) "care_instructions" d;
      i_pattern ← field as_opt "pattern" d;
      i_added_date ← field as_str "added_date" d;
      Some (mkItem i_id i_name i_category i_color i_style i_occasions
              i_seasons i_image_path i_tag_image_path i_brand i_size
              i_material i_care i_pattern i_added_date)
  | _ => None
  end.

Definition outfit_of_json (v : json) : option SavedOutfit :=
  match v with
  | JDict d =>
      o_id ← field as_str "id" d;
      o_name ← field as_str "name" d;
      o_items ← field (as_list as_str) "items" d;
      o_created ← field as_str "created_date" d;
      Some (mkSavedOutfit o_id o_name o_items o_created)
  | _ => None
  end.

Definition wardrobe_of_json (v : json) : option Wardrobe :=
  match v with
  | JDict d =>
      w_items ← field (as_list item_of_json) "items" d;
      w_outfits ← field (as_list outfit_of_json) "outfits" d;
      Some (mkWardrobe w_items w_outfits)
  | _ => None
  end.

End Document.

(** ** CatalogStore: [load_wardrobe] and [save_wardrobe] *)

Definition DATA_FILE : string := "wardrobe_data.json".
Definition IMAGES_DIR : string := "clothing_images".

(** [os.path.join(IMAGES_DIR, filename)] *)
Definition image_file (filename : string) : string :=
  IMAGES_DIR +:+ "/" +:+ filename.

(** [None] stands for an exception: the stored text is not JSON, or not a
    catalog document. *)
Definition load_wardrobe (fs : gmap string string) : option Wardrobe :=
  match fs !! DATA_FILE with
  | Some content =>
      match Json.loads content with
      | Some v => Document.wardrobe_of_json v
      | None => None
      end
  | None => Some (mkWardrobe [] [])
  end.

Definition save_wardrobe (data : Wardrobe) (fs : gmap string string)
    : gmap string string :=
  <[DATA_FILE := Json.dumps (Document.wardrobe_to_json data)]> fs.

(** ** The random source *)

Module Random.

(** The generator is a tape of raw draws; each call consumes one cell and
    reduces it to the range the call asks for. *)
Definition rng : Type := nat -> N.

Definition advance (g : rng) : rng := fun i => g (S i).

(** A computation that draws from the generator. *)
Definition Rand (A : Type) : Type := rng -> A * rng.

Definition ret {A : Type} (x : A) : Rand A := fun g => (x, g).

Definition bind {A B : Type} (m : Rand A) (k : A -> Rand B) : Rand B :=
  fun g => let (x, g') := m g in k x g'.

(** [random.random()]: a multiple of 2^-53 in [0, 1) *)
Definition random : Rand Q :=
  fun g => (Z.of_N (g 0 mod 2 ^ 53) # 2 ^ 53, advance g).

(** [random._randbelow(n)], for [n > 0] *)
Definition randbelow (n : nat) : Rand nat :=
  fun g => (N.to_nat (g 0 mod N.of_nat n), advance g).

(** [random.choice(seq)] on a sequence whose first element is [first] *)
Definition choice {A : Type} (first : A) (seq : list A) : Rand A :=
  bind (randbelow (length seq)) (fun k => ret (nth k seq first)).

(** [x > y] on rationals *)
Definition gt (x y : Q) : bool := negb (Qle_bool x y).

End Random.

Notation "'let*' x ':=' m 'in' k" :=
  (Random.bind m (fun x => k))
  (at level 10, x name, m at level 100, k at level 200).

(** ** OutfitGenerator *)

(** [[item for item in items if item["category"] == category]] *)
Definition of_category (category : string) (items : list Item) : list Item :=
  List.filter (fun item => String.eqb (item_category item) category) items.

(** [if seq: outfit[key] = random.choice(seq)] *)
Definition choose_into (key : string) (seq : list Item) (outfit : Outfit)
    : Random.Rand Outfit :=
  match seq with
  | [] => Random.ret outfit
  | first :: _ =>
      let* item := Random.choice first seq in
      Random.ret (PyDict.set key item outfit)
  end.

(** The [for category in include_categories] loop. *)
Fixpoint fill_outfit (wardrobe : Wardrobe) (categories : list string)
    (outfit : Outfit) : Random.Rand Outfit :=
  match categories with
  | [] => Random.ret outfit
  | category :: rest =>
      let category_items := of_category category (items wardrobe) in
      let* outfit := choose_into category category_items outfit in
      fill_outfit wardrobe rest outfit
  end.

Definition generate_random_outfit (wardrobe : Wardrobe)
    (include_categories : list string) : Random.Rand Outfit :=
  let outfit := [] in
  fill_outfit wardrobe include_categories outfit.

(** The two filters of [generate_smart_outfit], before the fallback.
    [if occasion:] and [if season:] test the arguments for truth: [None]
    and the empty string both leave the list as it is. *)
Definition filter_items (all : list Item) (occasion season : option string)
    : list Item :=
  let items := all in
  let items :=
    match occasion with
    | Some (String _ _ as o) =>
        List.filter (fun item => str_in o (item_occasions item)) items
    | _ => items
    end in
  let items :=
    match season with
    | Some (String _ _ as s) =>
        List.filter (fun item => str_in s (item_seasons item)
                                 || str_in "All Season" (item_seasons item)) items
    | _ => items
    end in
  items.

(** [if len(items) < 3: items = wardrobe["items"]] *)
Definition candidate_pool (wardrobe : Wardrobe) (occasion season : option string)
    : list Item :=
  let filtered := filter_items (items wardrobe) occasion season in
  if length filtered <? 3 then items wardrobe else filtered.

(** [seq and random.random() > threshold]: the draw happens only when the
    sequence is not empty. *)
Definition flip (seq : list Item) (threshold : Q) : Random.Rand bool :=
  match seq with
  | [] => Random.ret false
  | _ :: _ =>
      let* r := Random.random in
      Random.ret (Random.gt r threshold)
  end.

(** Dress or top and bottom. *)
Definition choose_body (items : list Item) (outfit : Outfit) : Random.Rand Outfit :=
  let dresses := of_category "Dress/Jumpsuit" items in
  let* use_dress := flip dresses (1 # 2) in
  if use_dress then choose_into "Dress/Jumpsuit" dresses outfit
  else
    let tops := of_category "Top" items in
    let bottoms := of_category "Bottom" items in
    let* outfit := choose_into "Top" tops outfit in
    choose_into "Bottom" bottoms outfit.

(** [# Add shoes] *)
Definition add_shoes (items : list Item) (outfit : Outfit) : Random.Rand Outfit :=
  let shoes := of_category "Shoes" items in
  choose_into "Shoes" shoes outfit.

(** [# Maybe add outerwear] *)
Definition add_outerwear (items : list Item) (outfit : Outfit) : Random.Rand Outfit :=
  let outerwear := of_category "Outerwear" items in
  let* wear := flip outerwear (6 # 10) in
  if wear then choose_into "Outerwear" outerwear outfit else Random.ret outfit.

(** [# Maybe add accessory] *)
Definition add_accessory (items : list Item) (outfit : Outfit) : Random.Rand Outfit :=
  let accessories := of_category "Accessory" items in
  let* wear := flip accessories (1 # 2) in
  if wear then choose_into "Accessory" accessories outfit else Random.ret outfit.

Definition generate_smart_outfit (wardrobe : Wardrobe)
    (occasion season : option string) : Random.Rand Outfit :=
  let items := candidate_pool wardrobe occasion season in
  let outfit := [] in
  let* outfit := choose_body items outfit in
  let* outfit := add_shoes items outfit in
  let* outfit := add_outerwear items outfit in
  let* outfit := add_accessory items outfit in
  Random.ret outfit.

(** *** Vocabulary for the properties of the generators *)

(** The item that [random.choice(seq)] returns in state [g], if [seq] has
    any. *)
Definition drawn (seq : list Item) (g : Random.rng) : option Item :=
  match seq with
  | [] => None
  | first :: _ => Some (fst (Random.choice first seq g))
  end.

(** The state of the generator after [if seq: random.choice(seq)]. *)
Definition after_draw (seq : list Item) (g : Random.rng) : Random.rng :=
  match seq with
  | [] => g
  | _ :: _ => Random.advance g
  end.

(** Every entry is an item of the wardrobe filed under its own category. *)
Definition well_filed (w : Wardrobe) (outfit : Outfit) : Prop :=
  forall k item, PyDict.get k outfit = Some item ->
                 In item (items w) /\ item_category item = k.

(** The catalog has at least three items and covers top, bottom and
    shoes, or a dress and shoes. *)
Definition spans_outfit (all : list Item) : Prop :=
  3 <= length all
  /\ ((of_category "Top" all <> [] /\ of_category "Bottom" all <> []
       /\ of_category "Shoes" all <> [])
      \/ (of_category "Dress/Jumpsuit" all <> [] /\ of_category "Shoes" all <> [])).

(** ** Python string methods *)

Module Str.

(** [str.isspace] on the code points below 256 *)
Definition is_space (c : ascii) : bool :=
  let n := N_of_ascii c in
  ((9 <=? n)%N && (n <=? 13)%N) || ((28 <=? n)%N && (n <=? 32)%N)
  || (n =? 133)%N || (n =? 160)%N.

Fixpoint lstrip (s : string) : string :=
  match s with
  | EmptyString => EmptyString
  | String c s' => if is_space c then lstrip s' else s
  end.

Fixpoint rstrip (s : string) : string :=
  match s with
  | EmptyString => EmptyString
  | String c s' =>
      match rstrip s' with
      | EmptyString => if is_space c then EmptyString else String c EmptyString
      | r => String c r
      end
  end.

(** [s.strip()] *)
Definition strip (s : string) : string := rstrip (lstrip s).

(** [s.startswith(p)] *)
Definition startswith (s p : string) : bool := String.prefix p s.

(** [s.endswith(p)] *)
Definition endswith (s p : string) : bool :=
  let n := String.length s in
  let m := String.length p in
  (m <=? n) && String.eqb (String.substring (n - m) m s) p.

(** [s[n:]] *)
Definition from (n : nat) (s : string) : string :=
  String.substring n (String.length s - n) s.

(** [s[:-n]] for [n > 0] *)
Definition upto_last (n : nat) (s : string) : string :=
  String.substring 0 (String.length s - n) s.

End Str.

(** ** What the user interface shows *)

Inductive message : Type :=
| st_error (body : string)
| st_success (body : string).

(** ** GarmentAnalyzer and TagAnalyzer *)

Module Analyzer.
Import Json.

Inductive exn : Type :=
| TransportError
| JSONDecodeError
| KeyError
| IndexError
| TypeError
| AttributeError.

(** A call that returns or raises. *)
Definition result (A : Type) : Type := exn + A.

Definition and_then {A B : Type} (r : result A) (k : A -> result B) : result B :=
  match r with
  | inl e => inl e
  | inr x => k x
  end.

Record request : Type := mkRequest {
  url : string;
  authorization : string;
  model : string;
  prompt_text : string;
  image_url : string;
  max_tokens : Z;
  timeout_seconds : Z
}.

Record response : Type := mkResponse {
  status_code : Z;
  body : string
}.

Definition fence : string := "```".
Definition fence_json : string := "```json".

(** The cleanup between [response.json()] and [json.loads]: the text this
    returns is the argument of [json.loads]. *)
Definition clean_response (content : string) : string :=
  let content := Str.strip content in
  let content :=
    if Str.startswith content fence_json then Str.from 7 content else content in
  let content :=
    if Str.startswith content fence then Str.from 3 content else content in
  let content :=
    if Str.endswith content fence then Str.upto_last 3 content else content in
  Str.strip content.

(** The cleanup as the specification words it: one optional leading
    fence, with or without the [json] tag, and one optional trailing
    fence. *)
Definition strip_one_fence (content : string) : string :=
  let content := Str.strip content in
  let content :=
    if Str.startswith content fence_json then Str.from 7 content
    else if Str.startswith content fence then Str.from 3 content
    else content in
  let content :=
    if Str.endswith content fence then Str.upto_last 3 content else content in
  Str.strip content.

(** The last of the three steps alone: one optional trailing fence. *)
Definition strip_trailing (content : string) : string :=
  if Str.endswith content fence then Str.upto_last 3 content else content.

(** [v[k]] for a string key *)
Definition subscript (k : string) (v : json) : result json :=
  match v with
  | JDict d =>
      match PyDict.get k d with
      | Some x => inr x
      | None => inl KeyError
      end
  | _ => inl TypeError
  end.

(** [v[0]] *)
Definition first (v : json) : result json :=
  match v with
  | JList (x :: _) => inr x
  | JList [] => inl IndexError
  | JStr (String c _) => inr (JStr (String c EmptyString))
  | JStr EmptyString => inl IndexError
  | JDict _ => inl KeyError
  | _ => inl TypeError
  end.

(** The receiver of [.strip()] has to be a string. *)
Definition as_text (v : json) : result string :=
  match v with
  | JStr s => inr s
  | _ => inl AttributeError
  end.

(** [response.json()["choices"][0]["message"]["content"]], which has to
    be a string for [.strip()] to apply. *)
Definition completion_content (answer : json) : result string :=
  and_then (subscript "choices" answer) (fun choices =>
  and_then (first choices) (fun choice =>
  and_then (subscript "message" choice) (fun msg =>
  and_then (subscript "content" msg) (fun content =>
  as_text content)))).

(** The argument of [httpx.post]. *)
Definition chat_request (prompt : string) (limit : Z)
    (api_key image_base64 image_type : string) : request :=
  {| url := "https://api.openai.com/v1/chat/completions";
     authorization := "Bearer " +:+ api_key;
     model := "gpt-4o";
     prompt_text := prompt;
     image_url := "data:" +:+ image_type +:+ ";base64," +:+ image_base64;
     max_tokens := limit;
     timeout_seconds := 30 |}.

Section Service.

(** The decoder behind [json.loads] and [response.json()], the HTTP
    exchange, the two prompts and the text of an exception are supplied
    from outside. *)
Variable json_loads : string -> result json.
Variable httpx_post : request -> result response.
Variable garment_prompt tag_prompt : string.
Variable describe : exn -> string.

(** The [try] block shared by [analyze_garment_image] and
    [analyze_tag_image]. *)
Definition attempt (req : request) : result json :=
  and_then (httpx_post req) (fun response =>
    if (status_code response =? 200)%Z then
      and_then (json_loads (body response)) (fun answer =>
      and_then (completion_content answer) (fun content =>
      json_loads (clean_response content)))
    else inr JNull).

(** The two functions differ in the prompt, the token limit and the label
    of the error message.  The value returned is a Python object, [JNull]
    being [None]; the messages are those passed to [st.error] by the
    [except] clause. *)
Definition analyze (prompt : string) (limit : Z) (label : string)
    (api_key image_base64 image_type : string) : json * list message :=
  match attempt (chat_request prompt limit api_key image_base64 image_type) with
  | inr v => (v, [])
  | inl e => (JNull, [st_error (label +:+ describe e)])
  end.

Definition analyze_garment_image : string -> string -> string -> json * list message :=
  analyze garment_prompt 500 "Error analyzing image: ".

Definition analyze_tag_image : string -> string -> string -> json * list message :=
  analyze tag_prompt 300 "Error analyzing tag: ".

End Service.

End Analyzer.

(** ** The clock *)

Record datetime : Type := mkDatetime {
  year : nat;
  month : nat;
  day : nat;
  hour : nat;
  minute : nat;
  second : nat;
  microsecond : nat
}.

(** The last [width] decimal digits of [n], zero padded. *)
Fixpoint zfill (width n : nat) : string :=
  match width with
  | O => EmptyString
  | S w => zfill w (n / 10) +:+ String (ascii_of_nat (48 + n mod 10)) EmptyString
  end.

(** [strftime('%Y%m%d%H%M%S')] *)
Definition strftime_compact (t : datetime) : string :=
  zfill 4 (year t) +:+ zfill 2 (month t) +:+ zfill 2 (day t)
  +:+ zfill 2 (hour t) +:+ zfill 2 (minute t) +:+ zfill 2 (second t).

(** [isoformat()] *)
Definition isoformat (t : datetime) : string :=
  zfill 4 (year t) +:+ "-" +:+ zfill 2 (month t) +:+ "-" +:+ zfill 2 (day t)
  +:+ "T" +:+ zfill 2 (hour t) +:+ ":" +:+ zfill 2 (minute t)
  +:+ ":" +:+ zfill 2 (second t)
  +:+ (if microsecond t =? 0 then EmptyString else "." +:+ zfill 6 (microsecond t)).

(** ** The pages that change the catalog *)

(** The state a button handler runs in: the session's catalog and current
    outfit, the files on disk and the messages shown so far. *)
Record App : Type := mkApp {
  session_wardrobe : Wardrobe;
  current_outfit : option Outfit;
  disk : gmap string string;
  screen : list message
}.

(** [if os.path.exists(path): os.remove(path)] *)
Definition remove_if_exists (path : string) (fs : gmap string string)
    : gmap string string :=
  match fs !! path with
  | Some _ => delete path fs
  | None => fs
  end.

(** My Closet: the delete button of [item]. *)
Definition delete_item_button (item : Item) (app : App) : App :=
  let wardrobe := session_wardrobe app in
  let wardrobe :=
    {| items := List.filter (fun i => negb (String.eqb (item_id i) (item_id item)))
                            (items wardrobe);
       outfits := outfits wardrobe |} in
  let fs := remove_if_exists (item_image_path item) (disk app) in
  {| session_wardrobe := wardrobe;
     current_outfit := current_outfit app;
     disk := save_wardrobe wardrobe fs;
     screen := screen app |}.

(** Generate Outfit: the save button, pressed with [outfit_name] in the
    text field.  The button exists only while a non-empty outfit is
    displayed; the clock is read once for the id and once for the date. *)
Definition save_outfit_button (outfit_name : string) (now_id now_date : datetime)
    (app : App) : App :=
  match current_outfit app with
  | Some ((_ :: _) as outfit) =>
      match outfit_name with
      | String _ _ =>
          let wardrobe := session_wardrobe app in
          let saved_outfit :=
            {| outfit_id := "outfit_" +:+ strftime_compact now_id;
               outfit_name := outfit_name;
               outfit_items := map item_id (PyDict.values outfit);
               outfit_created_date := isoformat now_date |} in
          let wardrobe :=
            {| items := items wardrobe;
               outfits := outfits wardrobe ++ [saved_outfit] |} in
          {| session_wardrobe := wardrobe;
             current_outfit := current_outfit app;
             disk := save_wardrobe wardrobe (disk app);
             screen := screen app ++ [st_success ("Saved '" +:+ outfit_name +:+ "'!")] |}
      | EmptyString =>
          {| session_wardrobe := session_wardrobe app;
             current_outfit := current_outfit app;
             disk := disk app;
             screen := screen app
                       ++ [st_error "Please name your outfit before saving."] |}
      end
  | _ => app
  end.

(** Saved Outfits: the items shown for a saved outfit. *)
Definition shown_items (wardrobe : Wardrobe) (outfit_data : SavedOutfit) : list Item :=
  List.filter (fun item => str_in (item_id item) (outfit_items outfit_data))
              (items wardrobe).

(** Saved Outfits: the delete button of [outfit_data]. *)
Definition delete_outfit_button (outfit_data : SavedOutfit) (app : App) : App :=
  let wardrobe := session_wardrobe app in
  let wardrobe :=
    {| items := items wardrobe;
       outfits := List.filter
                    (fun o => negb (String.eqb (outfit_id o) (outfit_id outfit_data)))
                    (outfits wardrobe) |} in
  {| session_wardrobe := wardrobe;
     current_outfit := current_outfit app;
     disk := save_wardrobe wardrobe (disk app);
     screen := screen app |}.

(** ** Sample data *)

Module Sample.

(** An item with the given id, category and occasion and season tags, the
    image stored under the id, the other fields as the form leaves them. *)
Definition garment (id category : string) (occasions seasons : list string) : Item :=
  {| item_id := id;
     item_name := id;
     item_category := category;
     item_color := "Black";
     item_style := ["Casual"];
     item_occasions := occasions;
     item_seasons := seasons;
     item_image_path := image_file (id +:+ ".jpg");
     item_tag_image_path := None;
     item_brand := "";
     item_size := "";
     item_material := "";
     item_care_instructions := [];
     item_pattern := None;
     item_added_date := "2024-01-01T00:00:00" |}.

(** A generator whose every raw draw is [n]. *)
Definition constant (n : N) : Random.rng := fun _ => n.

(** Top, bottom and shoes for work, three accessories for parties. *)
Definition party_closet : Wardrobe :=
  {| items := [garment "a" "Top" ["Work"] ["All Season"];
               garment "b" "Bottom" ["Work"] ["All Season"];
               garment "c" "Shoes" ["Work"] ["All Season"];
               garment "d" "Accessory" ["Party"] ["All Season"];
               garment "e" "Accessory" ["Party"] ["All Season"];
               garment "f" "Accessory" ["Party"] ["All Season"]];
     outfits := [] |}.

(** One item of every category, all tagged for work and for summer. *)
Definition full_closet : Wardrobe :=
  {| items := [garment "t" "Top" ["Work"] ["Summer"];
               garment "b" "Bottom" ["Work"] ["Summer"];
               garment "s" "Shoes" ["Work"] ["Summer"];
               garment "o" "Outerwear" ["Work"] ["Summer"];
               garment "x" "Accessory" ["Work"] ["Summer"];
               garment "d" "Dress/Jumpsuit" ["Work"] ["Summer"]];
     outfits := [] |}.

(** A shirt photographed together with its tag. *)
Definition tagged_shirt : Item :=
  {| item_id := "s";
     item_name := "Oxford shirt";
     item_category := "Top";
     item_color := "Blue";
     item_style := ["Casual"];
     item_occasions := ["Work"];
     item_seasons := ["All Season"];
     item_image_path := image_file "s.jpg";
     item_tag_image_path := Some (image_file "s_tag.jpg");
     item_brand := "";
     item_size := "M";
     item_material := "";
     item_care_instructions := [];
     item_pattern := None;
     item_added_date := "2024-01-01T00:00:00" |}.

(** A session whose catalog holds the shirt alone, saved in one outfit,
    with its two image files and the catalog document on disk. *)
Definition shirt_session : App :=
  let wardrobe :=
    {| items := [tagged_shirt];
       outfits := [mkSavedOutfit "outfit_20240101000000" "Monday" ["s"]
                     "2024-01-01T00:00:00"] |} in
  {| session_wardrobe := wardrobe;
     current_outfit := Some [("Top", tagged_shirt)];
     disk := save_wardrobe wardrobe
               (<[image_file "s.jpg" := "garment photo"]>
                  (<[image_file "s_tag.jpg" := "tag photo"]> ∅));
     screen := [] |}.

(** The decoder of this development as a [json.loads] that raises. *)
Definition json_loads (s : string) : Analyzer.result Json.json :=
  match Json.loads s with
  | Some v => inr v
  | None => inl Analyzer.JSONDecodeError
  end.

(** A service that answers every request with status 200 and a chat
    completion whose message content is [content]. *)
Definition answering (content : string) (req : Analyzer.request)
    : Analyzer.result Analyzer.response :=
  inr {| Analyzer.status_code := 200;
         Analyzer.body :=
           Json.dumps
             (Json.JDict
                [("choices",
                  Json.JList
                    [Json.JDict
                       [("message",
                         Json.JDict [("content", Json.JStr content)])]])]) |}.

Definition low : Random.rng := constant 0.

End Sample.

(** ** More of the program: configuration, forms, image files, pages *)

#[local] Set Warnings "-abstract-large-number".

(** *** Further Python string methods *)

Module PyStr.

(** [s.split(sep)] for a one-character separator *)
Fixpoint split (sep : ascii) (s : string) : list string :=
  match s with
  | EmptyString => [EmptyString]
  | String c s' =>
      if Ascii.eqb c sep then EmptyString :: split sep s'
      else
        match split sep s' with
        | [] => [String c EmptyString]
        | piece :: pieces => String c piece :: pieces
        end
  end.

(** [s[:n]] *)
Definition upto (n : nat) (s : string) : string := String.substring 0 n s.

(** [s[-n:]] for [n > 0] *)
Definition last_n (n : nat) (s : string) : string :=
  String.substring (String.length s - n) n s.

(** [str(n)] for a natural number *)
Definition of_nat (n : nat) : string :=
  string_of_list_ascii (Json.int_text (Z.of_nat n)).

(** [sep in s] for a one-character [sep] *)
Fixpoint contains (sep : ascii) (s : string) : bool :=
  match s with
  | EmptyString => false
  | String c s' => Ascii.eqb c sep || contains sep s'
  end.

End PyStr.

(** *** ConfigStore and the API key *)

Definition CONFIG_FILE : string := "user_config.json".

Module Config.
Import Json.

(** Truth value of a Python object. *)
Definition truthy (v : json) : bool :=
  match v with
  | JNull => false
  | JBool b => b
  | JInt n => negb (n =? 0)%Z
  | JStr s => negb (String.eqb s EmptyString)
  | JList l => match l with [] => false | _ :: _ => true end
  | JDict d => match d with [] => false | _ :: _ => true end
  end.

(** [load_config]: the stored object, or [{}] when there is no file.
    [None] stands for an exception; a stored document that is not a JSON
    object, on which the pages are not modelled, counts as one. *)
Definition load_config (fs : gmap string string) : option (list (string * json)) :=
  match fs !! CONFIG_FILE with
  | Some content =>
      match Json.loads content with
      | Some (JDict d) => Some d
      | _ => None
      end
  | None => Some []
  end.

Definition save_config (config : list (string * json)) (fs : gmap string string)
    : gmap string string :=
  <[CONFIG_FILE := Json.dumps (JDict config)]> fs.

(** ["api_key" not in config or not config["api_key"]]: the test that
    sends the user to the Setup page. *)
Definition needs_setup (config : list (string * json)) : bool :=
  match PyDict.get "api_key" config with
  | None => true
  | Some v => negb (truthy v)
  end.

(** The body of the request of [validate_openai_key]; it carries no
    image. *)
Definition validation_request (api_key : string) : Analyzer.request :=
  {| Analyzer.url := "https://api.openai.com/v1/chat/completions";
     Analyzer.authorization := "Bearer " +:+ api_key;
     Analyzer.model := "gpt-4o-mini";
     Analyzer.prompt_text := "Hi";
     Analyzer.image_url := EmptyString;
     Analyzer.max_tokens := 5;
     Analyzer.timeout_seconds := 10 |}.

(** What a key form works on: the configuration loaded at the top of the
    script, the disk and the messages shown. *)
Record KeyForm : Type := mkKeyForm {
  form_config : list (string * json);
  form_disk : gmap string string;
  form_screen : list message
}.

Definition show (m : message) (f : KeyForm) : KeyForm :=
  {| form_config := form_config f;
     form_disk := form_disk f;
     form_screen := form_screen f ++ [m] |}.

(** [config["api_key"] = key; save_config(config)] and the success
    message. *)
Definition store_key (key : string) (success : string) (f : KeyForm) : KeyForm :=
  let config := PyDict.set "api_key" (JStr key) (form_config f) in
  {| form_config := config;
     form_disk := save_config config (form_disk f);
     form_screen := form_screen f ++ [st_success success] |}.

Section Service.
Variable httpx_post : Analyzer.request -> Analyzer.result Analyzer.response.

Definition validate_openai_key (api_key : string) : bool :=
  match httpx_post (validation_request api_key) with
  | inr response => (Analyzer.status_code response =? 200)%Z
  | inl _ => false
  end.

(** Setup page: the form submitted with [api_key_input]. *)
Definition submit_setup (api_key_input : string) (f : KeyForm) : KeyForm :=
  match api_key_input with
  | EmptyString => show (st_error "Please enter an API key.") f
  | String _ _ =>
      if negb (Str.startswith api_key_input "sk-") then
        show (st_error "Invalid API key format. It should start with 'sk-'") f
      else if validate_openai_key api_key_input then
        store_key api_key_input "API key saved successfully!" f
      else show (st_error "Invalid API key. Please check and try again.") f
  end.

(** Settings page: the update form submitted with [new_key]. *)
Definition submit_update (new_key : string) (f : KeyForm) : KeyForm :=
  match new_key with
  | EmptyString => f
  | String _ _ =>
      if negb (Str.startswith new_key "sk-") then
        show (st_error "Invalid API key format.") f
      else if validate_openai_key new_key then
        store_key new_key "API key updated!" f
      else show (st_error "Invalid API key.") f
  end.

End Service.

(** Settings page: [current_key[:7] + "..." + current_key[-4:]] *)
Definition masked_key (current_key : string) : string :=
  PyStr.upto 7 current_key +:+ "..." +:+ PyStr.last_n 4 current_key.

End Config.

(** *** ImageStore *)

(** An upload: the name the browser reports and the bytes. *)
Record UploadedFile : Type := mkUpload {
  upload_name : string;
  upload_bytes : string
}.

(** [os.path.join(a, b)] for a directory [a] written without a trailing
    separator: an absolute [b] replaces [a]. *)
Definition path_join (a b : string) : string :=
  if Str.startswith b "/" then b else a +:+ "/" +:+ b.

(** [uploaded_file.name.split(".")[-1]] *)
Definition extension_of (name : string) : string :=
  List.last (PyStr.split "." name) EmptyString.

(** [save_image]: the path written and the disk afterwards. *)
Definition save_image (uploaded_file : UploadedFile) (item_id : string)
    (fs : gmap string string) : string * gmap string string :=
  let extension := extension_of (upload_name uploaded_file) in
  let filename := item_id +:+ "." +:+ extension in
  let filepath := path_join IMAGES_DIR filename in
  (filepath, <[filepath := upload_bytes uploaded_file]> fs).

(** *** Add Clothes: what the form is pre-filled with *)

Module Prefill.
Import Json.

(** [st.session_state.ai_analysis or {}]: the dict whose [.get] the page
    calls.  [None] is the [AttributeError] of a true value that is not a
    dict. *)
Definition analysis_dict (analysis : json) : option (list (string * json)) :=
  match analysis with
  | JDict d => Some d
  | v => if Config.truthy v then None else Some []
  end.

(** What a [for] loop over a Python object yields; [None] is the
    [TypeError] of an object that is not iterable. *)
Definition iterate (v : json) : option (list json) :=
  match v with
  | JList l => Some l
  | JStr s => Some (map (fun c => JStr (String c EmptyString)) (list_ascii_of_string s))
  | JDict d => Some (map (fun kv => JStr (fst kv)) d)
  | _ => None
  end.

(** The members of [enum] among the elements of a list: [[s for s in l
    if s in enum]]. *)
Fixpoint members (enum : list string) (l : list json) : list string :=
  match l with
  | [] => []
  | JStr s :: l' => if str_in s enum then s :: members enum l' else members enum l'
  | _ :: l' => members enum l'
  end.

(** [[s for s in ai.get(key, fallback) if s in enum] or fallback] *)
Definition valid_choices (enum fallback : list string) (key : string)
    (ai : list (string * json)) : option (list string) :=
  let suggested :=
    match PyDict.get key ai with
    | Some v => v
    | None => JList (map JStr fallback)
    end in
  match iterate suggested with
  | Some l =>
      match members enum l with
      | [] => Some fallback
      | valid => Some valid
      end
  | None => None
  end.

(** [enum.index(s)] for a member, 0 otherwise. *)
Fixpoint index_of (s : string) (enum : list string) : nat :=
  match enum with
  | [] => 0
  | e :: enum' => if String.eqb s e then 0 else S (index_of s enum')
  end.

(** [category_default] and [color_default]: the position of the
    suggestion when it is in the list, 0 otherwise. *)
Definition default_index (enum : list string) (key : string)
    (ai : list (string * json)) : nat :=
  match PyDict.get key ai with
  | Some (JStr s) => if str_in s enum then index_of s enum else 0
  | _ => 0
  end.

Definition COLORS : list string :=
  ["Black"; "White"; "Gray"; "Navy"; "Blue"; "Red"; "Green"; "Brown"; "Beige";
   "Pink"; "Purple"; "Orange"; "Yellow"; "Multi"].
Definition STYLES : list string :=
  ["Casual"; "Formal"; "Business"; "Streetwear"; "Athleisure"; "Smart Casual";
   "Bohemian"; "Minimalist"].

Definition newline_string : string := String "010"%char EmptyString.

(** The text area of the care instructions:
    ["\n".join(tag.get("care_instructions", [])) if
    tag.get("care_instructions") else ""].  [None] is the [TypeError] of
    joining something that is not a sequence of strings. *)
Definition care_text (tag : list (string * json)) : option string :=
  match PyDict.get "care_instructions" tag with
  | None => Some EmptyString
  | Some v =>
      if Config.truthy v then
        match iterate v with
        | Some l =>
            match Document.all_of Document.as_str l with
            | Some lines => Some (String.concat newline_string lines)
            | None => None
            end
        | None => None
        end
      else Some EmptyString
  end.

(** [care.split("\n") if care else []] *)
Definition care_list (care : string) : list string :=
  match care with
  | EmptyString => []
  | String _ _ => PyStr.split "010"%char care
  end.

End Prefill.

(** *** Add Clothes: submitting the form *)

(** [random.randint(a, b)] *)
Definition randint (a b : nat) : Random.Rand nat :=
  let* k := Random.randbelow (b + 1 - a) in
  Random.ret (a + k).

(** The widgets of [add_item_form]. *)
Record ItemForm : Type := mkItemForm {
  field_name : string;
  field_category : string;
  field_color : string;
  field_brand : string;
  field_size : string;
  field_style : list string;
  field_occasions : list string;
  field_seasons : list string;
  field_material : string;
  field_care : string
}.

(** The session of the Add Clothes page: [App] and the two analyses
    ([JNull] is [None]). *)
Record AddPage : Type := mkAddPage {
  add_app : App;
  ai_analysis : Json.json;
  tag_analysis : Json.json
}.

(** [f"{datetime.now().strftime('%Y%m%d%H%M%S')}_{random.randint(1000, 9999)}"] *)
Definition new_item_id (now : datetime) (n : nat) : string :=
  strftime_compact now +:+ "_" +:+ PyStr.of_nat n.

(** [ai.get("pattern")] as the item record holds it.  The outer [None]
    is a suggestion that is neither a string nor null, which the record
    has no room for. *)
Definition suggested_pattern (ai : list (string * Json.json)) : option (option string) :=
  match PyDict.get "pattern" ai with
  | None => Some None
  | Some v => Document.as_opt v
  end.

(** The form submitted with a garment photo and possibly a tag photo.
    The result is [None] when the page raised before the form was drawn
    (an analysis that is not a dict) or the pattern cannot be held. *)
Definition submit_add_item (form : ItemForm) (garment_file : UploadedFile)
    (tag_file : option UploadedFile) (now_id now_date : datetime) (page : AddPage)
    : Random.Rand (option AddPage) :=
  match Prefill.analysis_dict (ai_analysis page),
        Prefill.analysis_dict (tag_analysis page) with
  | Some ai, Some _ =>
      let app := add_app page in
      match field_name form with
      | EmptyString =>
          Random.ret
            (Some {| add_app :=
                       {| session_wardrobe := session_wardrobe app;
                          current_outfit := current_outfit app;
                          disk := disk app;
                          screen := screen app
                                    ++ [st_error "Please enter a name for this item."] |};
                     ai_analysis := ai_analysis page;
                     tag_analysis := tag_analysis page |})
      | String _ _ =>
          let* n := randint 1000 9999 in
          let item_id := new_item_id now_id n in
          let (image_path, fs) := save_image garment_file item_id (disk app) in
          let (tag_image_path, fs) :=
            match tag_file with
            | Some file =>
                let (path, fs) := save_image file (item_id +:+ "_tag") fs in
                (Some path, fs)
            | None => (None, fs)
            end in
          match suggested_pattern ai with
          | Some pattern =>
              let new_item :=
                {| item_id := item_id;
                   item_name := field_name form;
                   item_category := field_category form;
                   item_color := field_color form;
                   item_style := field_style form;
                   item_occasions := field_occasions form;
                   item_seasons := field_seasons form;
                   item_image_path := image_path;
                   item_tag_image_path := tag_image_path;
                   item_brand := field_brand form;
                   item_size := field_size form;
                   item_material := field_material form;
                   item_care_instructions := Prefill.care_list (field_care form);
                   item_pattern := pattern;
                   item_added_date := isoformat now_date |} in
              let wardrobe :=
                {| items := items (session_wardrobe app) ++ [new_item];
                   outfits := outfits (session_wardrobe app) |} in
              Random.ret
                (Some {| add_app :=
                           {| session_wardrobe := wardrobe;
                              current_outfit := current_outfit app;
                              disk := save_wardrobe wardrobe fs;
                              screen := screen app
                                        ++ [st_success ("Added '" +:+ field_name form
                                                        +:+ "' to your wardrobe!")] |};
                         ai_analysis := Json.JNull;
                         tag_analysis := Json.JNull |})
          | None => Random.ret None
          end
      end
  | _, _ => Random.ret None
  end.

(** The item the form builds. *)
Definition built_item (form : ItemForm) (garment_file : UploadedFile)
    (tag_file : option UploadedFile) (now_id now_date : datetime)
    (pattern : option string) (g : Random.rng) : Item :=
  let id := new_item_id now_id (fst (randint 1000 9999 g)) in
  {| item_id := id;
     item_name := field_name form;
     item_category := field_category form;
     item_color := field_color form;
     item_style := field_style form;
     item_occasions := field_occasions form;
     item_seasons := field_seasons form;
     item_image_path := image_file (id +:+ "." +:+ extension_of (upload_name garment_file));
     item_tag_image_path :=
       option_map
         (fun file => image_file ((id +:+ "_tag") +:+ "."
                                  +:+ extension_of (upload_name file)))
         tag_file;
     item_brand := field_brand form;
     item_size := field_size form;
     item_material := field_material form;
     item_care_instructions := Prefill.care_list (field_care form);
     item_pattern := pattern;
     item_added_date := isoformat now_date |}.

(** *** Add Clothes: the analyze button *)

(** [file.type or "image/jpeg"]; the empty string stands for every false
    value of [type]. *)
Definition mime_type (type : string) : string :=
  match type with
  | EmptyString => "image/jpeg"
  | String _ _ => type
  end.

Definition analysis_complete : message :=
  st_success "Analysis complete! Review and edit below.".
Definition analysis_failed : message :=
  st_error "Analysis failed. Please try again or enter details manually.".

Section AnalyzeButton.

(** The decoder, the HTTP exchange, the prompts, the text of an exception
    and [base64.b64encode] are supplied from outside. *)
Variable json_loads : string -> Analyzer.result Json.json.
Variable httpx_post : Analyzer.request -> Analyzer.result Analyzer.response.
Variable garment_prompt tag_prompt : string.
Variable describe : Analyzer.exn -> string.
Variable b64encode : string -> string.

(** [image_to_base64] *)
Definition image_to_base64 (file : UploadedFile) : string :=
  b64encode (upload_bytes file).

(** The button pressed with a garment photo and possibly a tag photo,
    each with the type the browser reports. *)
Definition analyze_button (api_key : string)
    (garment_file : UploadedFile) (garment_file_type : string)
    (tag_file : option (UploadedFile * string)) (page : AddPage) : AddPage :=
  let app := add_app page in
  let garment_base64 := image_to_base64 garment_file in
  let garment_type := mime_type garment_file_type in
  let (ai, shown_garment) :=
    Analyzer.analyze_garment_image json_loads httpx_post garment_prompt describe
      api_key garment_base64 garment_type in
  let (tag, shown_tag) :=
    match tag_file with
    | Some (file, file_type) =>
        let tag_base64 := image_to_base64 file in
        let tag_type := mime_type file_type in
        Analyzer.analyze_tag_image json_loads httpx_post tag_prompt describe
          api_key tag_base64 tag_type
    | None => (tag_analysis page, [])
    end in
  let verdict := if Config.truthy ai then analysis_complete else analysis_failed in
  {| add_app :=
       {| session_wardrobe := session_wardrobe app;
          current_outfit := current_outfit app;
          disk := disk app;
          screen := screen app ++ shown_garment ++ shown_tag ++ [verdict] |};
     ai_analysis := ai;
     tag_analysis := tag |}.

End AnalyzeButton.

(** *** The sidebar *)

(** The per-category counts of the sidebar, for the categories that have
    items. *)
Definition category_counts (wardrobe : Wardrobe) : list (string * nat) :=
  List.filter (fun entry => 0 <? snd entry)
    (map (fun cat => (cat, length (of_category cat (items wardrobe)))) CATEGORIES).

(** *** Generate Outfit: the generate button *)

(** [None if occasion_filter == "Any" else occasion_filter] *)
Definition selected (choice : string) : option string :=
  if String.eqb choice "Any" then None else Some choice.

Definition generate_button (occasion_filter season_filter : string) (app : App)
    : Random.Rand App :=
  if length (items (session_wardrobe app)) <? 2 then Random.ret app
  else
    let occasion := selected occasion_filter in
    let season := selected season_filter in
    let* outfit := generate_smart_outfit (session_wardrobe app) occasion season in
    Random.ret {| session_wardrobe := session_wardrobe app;
                  current_outfit := Some outfit;
                  disk := disk app;
                  screen := screen app |}.

(** *** Settings: export and the danger zone *)


(** The name of a file directly inside the image directory, which is what
    [Path(IMAGES_DIR).glob("*")] lists.  The directory holds no
    sub-directories: the program creates none. *)
Definition image_name (path : string) : option string :=
  if Str.startswith path (IMAGES_DIR +:+ "/") then
    let name := Str.from 16 path in
    match name with
    | EmptyString => None
    | String _ _ => if PyStr.contains "/"%char name then None else Some name
    end
  else None.

(** [for f in Path(IMAGES_DIR).glob("*"): f.unlink()] *)
Definition clear_images (fs : gmap string string) : gmap string string :=
  filter (fun entry => image_name (fst entry) = None) fs.

(** The Settings page: [App] and the [confirm_delete] flag. *)
Record Settings : Type := mkSettings {
  settings_app : App;
  confirm_delete : bool
}.

Definition clear_all_button (s : Settings) : Settings :=
  {| settings_app := settings_app s; confirm_delete := true |}.

(** "Yes, delete everything": drawn only while [confirm_delete] is set. *)
Definition confirm_button (s : Settings) : Settings :=
  if confirm_delete s then
    let app := settings_app s in
    let wardrobe := {| items := []; outfits := [] |} in
    {| settings_app :=
         {| session_wardrobe := wardrobe;
            current_outfit := current_outfit app;
            disk := clear_images (save_wardrobe wardrobe (disk app));
            screen := screen app ++ [st_success "All data cleared."] |};
       confirm_delete := false |}
  else s.

(** "Cancel": drawn only while [confirm_delete] is set. *)
Definition cancel_button (s : Settings) : Settings :=
  if confirm_delete s then
    {| settings_app := settings_app s; confirm_delete := false |}
  else s.

(** *** A session as a sequence of button presses *)


(** One press of a button that can touch the catalog or the disk.  The
    delete buttons are drawn for the items and the outfits of the
    catalog. *)
Inductive press : App -> App -> Prop :=
| press_generate (occasion_filter season_filter : string) (g : Random.rng) (app : App) :
    press app (fst (generate_button occasion_filter season_filter app g))
| press_save_outfit (outfit_name : string) (now_id now_date : datetime) (app : App) :
    press app (save_outfit_button outfit_name now_id now_date app)
| press_delete_item (item : Item) (app : App) :
    In item (items (session_wardrobe app)) ->
    press app (delete_item_button item app)
| press_delete_outfit (outfit_data : SavedOutfit) (app : App) :
    In outfit_data (outfits (session_wardrobe app)) ->
    press app (delete_outfit_button outfit_data app)
| press_add_item (form : ItemForm) (garment_file : UploadedFile)
    (tag_file : option UploadedFile) (now_id now_date : datetime)
    (ai tag : Json.json) (g : Random.rng) (app : App) (page : AddPage) :
    fst (submit_add_item form garment_file tag_file now_id now_date
           (mkAddPage app ai tag) g) = Some page ->
    press app (add_app page)
| press_confirm_clear (app : App) :
    press app (settings_app (confirm_button (mkSettings app true))).


(** * Properties *)

(** ** The JSON codec *)

Module JsonFacts.
Import Json.

Lemma json_induction (P : json -> Prop) :
  P JNull -> (forall b, P (JBool b)) -> (forall n, P (JInt n)) ->
  (forall s, P (JStr s)) ->
  (forall l, Forall P l -> P (JList l)) ->
  (forall d, Forall (fun kv => P (snd kv)) d -> P (JDict d)) ->
  forall v, P v.
Proof.
  intros Hn Hb Hi Hs Hl Hd.
  fix IH 1. intros [ | b | n | s | l | d ].
  - exact Hn.
  - apply Hb.
  - apply Hi.
  - apply Hs.
  - apply Hl. induction l as [ | x l IHl ]; constructor; [ apply IH | exact IHl ].
  - apply Hd. induction d as [ | [k x] d IHd ]; constructor; [ apply IH | exact IHd ].
Qed.

Lemma scanstring_escape_char (c : ascii) (t : text) :
  scanstring (escape_char c ++ t) = push c (scanstring t).
Proof.
  destruct c as [[] [] [] [] [] [] [] []]; reflexivity.
Qed.

Lemma scanstring_escape (s : string) (r : text) :
  scanstring (escape s ++ quote :: r) = Some (s, r).
Proof.
  induction s as [ | c s IH ]; [ reflexivity | ].
  cbn [escape]. rewrite <- app_assoc, scanstring_escape_char, IH. reflexivity.
Qed.


Lemma scan_digits_stop (r : text) :
  no_digit_head r -> scan_digits r = (Decimal.Nil, r).
Proof.
  destruct r as [ | c r ]; [ reflexivity | ].
  unfold no_digit_head, is_digit. cbn [scan_digits].
  destruct (digit_of c); [ discriminate | reflexivity ].
Qed.

Lemma scan_digits_uint_text (d : Decimal.uint) (r : text) :
  no_digit_head r -> scan_digits (uint_text d ++ r) = (d, r).
Proof.
  intros Hr. induction d as [ | d IH | d IH | d IH | d IH | d IH | d IH
                            | d IH | d IH | d IH | d IH ];
    [ apply scan_digits_stop, Hr | .. ];
    cbn [uint_text app scan_digits]; 
    (change (digit_of _) with (Some Decimal.D0) || change (digit_of _) with (Some Decimal.D1)
     || change (digit_of _) with (Some Decimal.D2) || change (digit_of _) with (Some Decimal.D3)
     || change (digit_of _) with (Some Decimal.D4) || change (digit_of _) with (Some Decimal.D5)
     || change (digit_of _) with (Some Decimal.D6) || change (digit_of _) with (Some Decimal.D7)
     || change (digit_of _) with (Some Decimal.D8) || change (digit_of _) with (Some Decimal.D9));
    cbv beta iota; rewrite IH; reflexivity.
Qed.

Lemma to_uint_head (p : positive) :
  match Pos.to_uint p with
  | Decimal.Nil | Decimal.D0 _ => False
  | _ => True
  end.
Proof.
  pose proof (DecimalPos.Unsigned.to_of (Pos.to_uint p)) as H.
  rewrite DecimalPos.Unsigned.of_to in H. cbn [N.to_uint] in H.
  pose proof (nzhead_nonzero (Pos.to_uint p)) as Hz.
  pose proof (DecimalPos.Unsigned.to_uint_nonzero p) as Hnz.
  unfold Decimal.unorm in H.
  destruct (Decimal.nzhead (Pos.to_uint p)) eqn:E; rewrite H; try exact I.
  - rewrite H in Hnz. apply Hnz. reflexivity.
  - exact (Hz _ eq_refl).
Qed.

Lemma scan_uint_to_uint (p : positive) (r : text) :
  no_digit_head r ->
  scan_uint (uint_text (Pos.to_uint p) ++ r) = Some (Pos.to_uint p, r).
Proof.
  intros Hr. unfold scan_uint. rewrite scan_digits_uint_text by exact Hr.
  pose proof (to_uint_head p) as H.
  destruct (Pos.to_uint p); try contradiction; reflexivity.
Qed.

Lemma scan_number_int_text (n : Z) (r : text) :
  no_digit_head r -> scan_number (int_text n ++ r) = Some (JInt n, r).
Proof.
  intros Hr. pose proof (DecimalZ.of_to n) as Hn.
  unfold int_text. destruct n as [ | p | p ]; cbn [Z.to_int] in *.
  - destruct r as [ | c r ]; [ reflexivity | ].
    unfold scan_number, scan_uint. cbn [uint_text app Ascii.eqb].
    change (Ascii.eqb "0" "-") with false. cbv iota.
    change ("0"%char :: c :: r) with (uint_text (Decimal.D0 Decimal.Nil) ++ c :: r).
    rewrite scan_digits_uint_text by exact Hr. reflexivity.
  - pose proof (to_uint_head p) as Hh.
    unfold scan_number.
    destruct (uint_text (Pos.to_uint p) ++ r) as [ | c t ] eqn:E.
    + destruct (Pos.to_uint p); try contradiction; discriminate.
    + assert (Hc : Ascii.eqb c "-" = false).
      { destruct (Pos.to_uint p); try contradiction; cbn in E;
          injection E as <- _; reflexivity. }
      rewrite Hc, <- E, scan_uint_to_uint by exact Hr. rewrite Hn. reflexivity.
  - unfold scan_number. cbn [app]. change (Ascii.eqb "-" "-") with true. cbv iota.
    rewrite scan_uint_to_uint by exact Hr. rewrite Hn. reflexivity.
Qed.



Lemma skip_ws_newline_indent (k : nat) (r : text) :
  skip_ws (newline_indent k ++ r) = skip_ws r.
Proof.
  unfold newline_indent. cbn [app skip_ws].
  change (is_ws newline) with true. cbv iota.
  induction (2 * k) as [ | n IH ]; [ reflexivity | exact IH ].
Qed.

Lemma no_digit_head_newline_indent (k : nat) (r : text) :
  no_digit_head (newline_indent k ++ r).
Proof. reflexivity. Qed.

Lemma encode_list_cons (level : nat) (x : json) (xs : list json) :
  encode level (JList (x :: xs)) =
  "["%char :: newline_indent (S level) ++ encode (S level) x
  ++ encode_more (S level) xs ++ newline_indent level ++ ["]"%char].
Proof. reflexivity. Qed.

Lemma encode_dict_cons (level : nat) (k : string) (x : json) xs :
  encode level (JDict ((k, x) :: xs)) =
  "{"%char :: newline_indent (S level) ++ encode_string k ++ lit ": "
  ++ encode (S level) x
  ++ encode_more_pairs (S level) xs ++ newline_indent level ++ ["}"%char].
Proof. reflexivity. Qed.

Lemma int_text_head (n : Z) :
  match int_text n with
  | [] => False
  | c :: _ => (is_digit c || Ascii.eqb c "-") = true
  end.
Proof.
  unfold int_text. destruct n as [ | p | p ]; cbn [Z.to_int]; try reflexivity.
  pose proof (to_uint_head p) as H.
  destruct (Pos.to_uint p); try contradiction; reflexivity.
Qed.

Lemma number_start (c : ascii) :
  (is_digit c || Ascii.eqb c "-") = true ->
  is_ws c = false /\ Ascii.eqb c "]" = false /\ Ascii.eqb c "}" = false.
Proof.
  destruct c as [[] [] [] [] [] [] [] []]; intros H;
    solve [ discriminate H | repeat split ].
Qed.

Lemma scan_once_number (f : nat) (c : ascii) (t : text) :
  (is_digit c || Ascii.eqb c "-") = true ->
  scan_once (S f) (c :: t) = scan_number (c :: t).
Proof.
  destruct c as [[] [] [] [] [] [] [] []]; intros H;
    solve [ discriminate H | reflexivity ].
Qed.

Lemma encode_starts_value (level : nat) (v : json) :
  starts_value (encode level v).
Proof.
  destruct v as [ | [] | n | s | [ | x l ] | [ | [k x] d ] ];
    try (repeat split; fail).
  cbn [encode]. pose proof (int_text_head n) as H.
  destruct (int_text n) as [ | c t ]; [ contradiction | ].
  apply number_start, H.
Qed.

Lemma starts_value_app (t r : text) : starts_value t -> starts_value (t ++ r).
Proof. destruct t; [ contradiction | intros H; exact H ]. Qed.

Lemma skip_ws_starts_value (t : text) : starts_value t -> skip_ws t = t.
Proof.
  destruct t as [ | c t ]; [ contradiction | ].
  intros (Hw & _). cbn [skip_ws]. rewrite Hw. reflexivity.
Qed.


Lemma existsb_eqb_In (k : string) (l : list string) :
  existsb (String.eqb k) l = true <-> In k l.
Proof.
  rewrite existsb_exists. split.
  - intros (x & Hx & E). apply String.eqb_eq in E. subst. exact Hx.
  - intros H. exists k. split; [ exact H | apply String.eqb_refl ].
Qed.

Lemma set_fresh (k : string) (v : json) (d : list (string * json)) :
  existsb (String.eqb k) (map fst d) = false ->
  PyDict.set k v d = d ++ [(k, v)].
Proof.
  induction d as [ | [k' v'] d IH ]; [ reflexivity | ].
  cbn [map fst existsb PyDict.set app]. intros H.
  apply orb_false_iff in H as [H1 H2]. rewrite H1, IH by exact H2. reflexivity.
Qed.

Lemma fold_set_nodup (ps acc : list (string * json)) :
  nodupb (map fst (acc ++ ps)) = true ->
  fold_left (fun d kv => PyDict.set (fst kv) (snd kv) d) ps acc = acc ++ ps.
Proof.
  revert acc. induction ps as [ | [k v] ps IH ]; intros acc H.
  - rewrite app_nil_r. reflexivity.
  - cbn [fold_left fst snd].
    assert (Hk : existsb (String.eqb k) (map fst acc) = false).
    { clear IH. induction acc as [ | [k' v'] acc IHa ]; [ reflexivity | ].
      cbn [app map fst nodupb existsb] in *.
      apply andb_true_iff in H as [H1 H2].
      rewrite (IHa H2), orb_false_r.
      apply negb_true_iff in H1.
      rewrite String.eqb_sym.
      destruct (String.eqb k' k) eqn:E; [ | reflexivity ].
      apply String.eqb_eq in E. subst k'.
      assert (Hin : existsb (String.eqb k) (map fst (acc ++ (k, v) :: ps)) = true).
      { apply existsb_eqb_In. rewrite map_app. apply in_or_app. right. left. reflexivity. }
      congruence. }
    rewrite set_fresh by exact Hk.
    rewrite IH; rewrite <- app_assoc; [ reflexivity | exact H ].
Qed.

Lemma of_pairs_nodup (ps : list (string * json)) :
  nodupb (map fst ps) = true -> PyDict.of_pairs ps = ps.
Proof. intros H. unfold PyDict.of_pairs. apply (fold_set_nodup ps []), H. Qed.

Lemma scan_once_quote (f : nat) (t : text) :
  scan_once (S f) (quote :: t) =
  match scanstring t with
  | Some (str, r') => Some (JStr str, r')
  | None => None
  end.
Proof. reflexivity. Qed.

Lemma scan_once_bracket (f : nat) (t : text) :
  scan_once (S f) ("["%char :: t) =
  match skip_ws t with
  | [] => None
  | c' :: r' =>
      if Ascii.eqb c' "]"%char then Some (JList [], r')
      else match scan_items f (c' :: r') with
           | Some (vs, r'') => Some (JList vs, r'')
           | None => None
           end
  end.
Proof. reflexivity. Qed.

Lemma scan_once_brace (f : nat) (t : text) :
  scan_once (S f) ("{"%char :: t) =
  match skip_ws t with
  | [] => None
  | c' :: r' =>
      if Ascii.eqb c' "}"%char then Some (JDict [], r')
      else match scan_pairs f (c' :: r') with
           | Some (ps, r'') => Some (JDict (PyDict.of_pairs ps), r'')
           | None => None
           end
  end.
Proof. reflexivity. Qed.

Lemma scan_items_S (f : nat) (s : text) :
  scan_items (S f) s =
  match scan_once f s with
  | Some (v, r) =>
      match skip_ws r with
      | [] => None
      | c :: r' =>
          if Ascii.eqb c "]"%char then Some ([v], r')
          else if Ascii.eqb c ","%char then
            match scan_items f (skip_ws r') with
            | Some (vs, r'') => Some (v :: vs, r'')
            | None => None
            end
          else None
      end
  | None => None
  end.
Proof. reflexivity. Qed.

Lemma scan_pairs_key (f : nat) (k : string) (t : text) :
  scan_pairs (S f) (encode_string k ++ lit ": " ++ t) =
  match scan_once f (skip_ws t) with
  | Some (v, r3) =>
      match skip_ws r3 with
      | [] => None
      | c3 :: r4 =>
          if Ascii.eqb c3 "}"%char then Some ([(k, v)], r4)
          else if Ascii.eqb c3 ","%char then
            match scan_pairs f (skip_ws r4) with
            | Some (ps, r5) => Some ((k, v) :: ps, r5)
            | None => None
            end
          else None
      end
  | None => None
  end.
Proof.
  unfold encode_string. cbn [app scan_pairs].
  change (Ascii.eqb quote quote) with true. cbv iota.
  rewrite <- app_assoc. cbn [app]. rewrite scanstring_escape. reflexivity.
Qed.

Lemma scan_items_encode (xs : list json) :
  forall x fuel level k r,
    Forall reads_back (x :: xs) ->
    forallb distinct_keys (x :: xs) = true ->
    cost_items (x :: xs) <= fuel ->
    scan_items fuel (encode level x ++ encode_more level xs
                     ++ newline_indent k ++ "]"%char :: r)
    = Some (x :: xs, r).
Proof.
  induction xs as [ | y ys IH ]; intros x fuel level k r HP Hd Hc;
    apply Forall_cons_iff in HP as [Hx HP];
    cbn [forallb] in Hd; apply andb_true_iff in Hd as [Hdx Hd];
    cbn [cost_items] in Hc; fold cost_items in Hc;
    (destruct fuel as [ | f ]; [ lia | ]); rewrite scan_items_S.
  - cbn [encode_more app].
    rewrite (Hx f level) by (try assumption; try lia; apply no_digit_head_newline_indent).
    rewrite skip_ws_newline_indent. reflexivity.
  - change (encode_more level (y :: ys)) with
      (","%char :: newline_indent level ++ encode level y ++ encode_more level ys).
    cbn [app]. rewrite (Hx f level) by (try assumption; try lia; reflexivity).
    cbn [skip_ws]. change (is_ws ",") with false. cbv iota.
    change (Ascii.eqb "," "]") with false. change (Ascii.eqb "," ",") with true.
    cbv iota. rewrite <- !app_assoc, skip_ws_newline_indent.
    rewrite skip_ws_starts_value by apply starts_value_app, encode_starts_value.
    rewrite IH; [ reflexivity | assumption | .. ].
    + cbn [forallb]. exact Hd.
    + cbn [cost_items] in *. fold cost_items in *. lia.
Qed.


Lemma skip_ws_lit_tail (level : nat) (v : json) (t : text) :
  skip_ws (encode level v ++ t) = encode level v ++ t.
Proof. apply skip_ws_starts_value, starts_value_app, encode_starts_value. Qed.

Lemma scan_pairs_encode (xs : list (string * json)) :
  forall k x fuel level j r,
    Forall (fun kv => reads_back (snd kv)) ((k, x) :: xs) ->
    forallb (fun kv => distinct_keys (snd kv)) ((k, x) :: xs) = true ->
    cost_pairs ((k, x) :: xs) <= fuel ->
    scan_pairs fuel (encode_string k ++ lit ": " ++ encode level x
                     ++ encode_more_pairs level xs
                     ++ newline_indent j ++ "}"%char :: r)
    = Some ((k, x) :: xs, r).
Proof.
  induction xs as [ | [k' y] ys IH ]; intros k x fuel level j r HP Hd Hc;
    apply Forall_cons_iff in HP as [Hx HP]; cbn [snd] in Hx;
    cbn [forallb snd] in Hd; apply andb_true_iff in Hd as [Hdx Hd];
    cbn [cost_pairs snd] in Hc; fold cost_pairs in Hc;
    (destruct fuel as [ | f ]; [ lia | ]); rewrite scan_pairs_key, skip_ws_lit_tail.
  - cbn [encode_more_pairs app].
    rewrite (Hx f level) by (try assumption; try lia; apply no_digit_head_newline_indent).
    rewrite skip_ws_newline_indent. reflexivity.
  - change (encode_more_pairs level ((k', y) :: ys)) with
      (","%char :: newline_indent level ++ encode_string k' ++ lit ": "
       ++ encode level y ++ encode_more_pairs level ys).
    cbn [app]. rewrite (Hx f level) by (try assumption; try lia; reflexivity).
    cbn [skip_ws]. change (is_ws ",") with false. cbv iota.
    change (Ascii.eqb "," "}") with false. change (Ascii.eqb "," ",") with true.
    cbv iota. rewrite <- !app_assoc, skip_ws_newline_indent.
    replace (skip_ws (encode_string k' ++ lit ": " ++ encode level y
                      ++ encode_more_pairs level ys ++ newline_indent j ++ "}"%char :: r))
      with (encode_string k' ++ lit ": " ++ encode level y
            ++ encode_more_pairs level ys ++ newline_indent j ++ "}"%char :: r)
      by reflexivity.
    rewrite IH; [ reflexivity | assumption | .. ].
    + cbn [forallb]. exact Hd.
    + cbn [cost_pairs snd] in *. fold cost_pairs in *. lia.
Qed.

Lemma reads_back_all (v : json) : reads_back v.
Proof.
  induction v as [ | b | n | s | l IH | d IH ] using json_induction;
    intros fuel level r Hd Hc Hr;
    (destruct fuel as [ | f ]; [ cbn in Hc; lia | ]).
  - reflexivity.
  - destruct b; reflexivity.
  - cbn [encode]. pose proof (int_text_head n) as Hh.
    pose proof (scan_number_int_text n r Hr) as Hn.
    destruct (int_text n) as [ | c t ]; [ contradiction | ].
    cbn [app] in *. rewrite scan_once_number by exact Hh. exact Hn.
  - cbn [encode]. unfold encode_string. cbn [app].
    rewrite scan_once_quote, <- app_assoc. cbn [app].
    rewrite scanstring_escape. reflexivity.
  - destruct l as [ | x xs ]; [ reflexivity | ].
    rewrite encode_list_cons. cbn [app]. rewrite scan_once_bracket.
    rewrite <- !app_assoc, skip_ws_newline_indent, skip_ws_lit_tail.
    pose proof (encode_starts_value (S level) x) as Hs.
    pose proof (scan_items_encode xs x f (S level) level r IH) as Hi.
    destruct (encode (S level) x) as [ | c t ]; [ contradiction | ].
    destruct Hs as (_ & Hs & _). cbn [app] in *. rewrite Hs, Hi; [ reflexivity | .. ].
    + exact Hd.
    + change (cost (JList (x :: xs))) with (S (cost_items (x :: xs))) in Hc. lia.
  - destruct d as [ | [k x] xs ]; [ reflexivity | ].
    rewrite encode_dict_cons. cbn [app]. rewrite scan_once_brace.
    rewrite <- !app_assoc, skip_ws_newline_indent.
    cbn [distinct_keys] in Hd. apply andb_true_iff in Hd as [Hk Hd].
    pose proof (scan_pairs_encode xs k x f (S level) level r IH Hd) as Hp.
    unfold encode_string in *. cbn [app skip_ws] in *.
    change (is_ws quote) with false. cbv iota.
    change (Ascii.eqb quote "}") with false. cbv iota.
    rewrite Hp.
    + rewrite of_pairs_nodup by exact Hk. reflexivity.
    + change (cost (JDict ((k, x) :: xs))) with (S (cost_pairs ((k, x) :: xs))) in Hc. lia.
Qed.


Lemma cost_le_length (v : json) :
  forall level, cost v <= length (encode level v).
Proof.
  induction v as [ | b | n | s | l IH | d IH ] using json_induction; intros level.
  - cbn. lia.
  - destruct b; cbn; lia.
  - cbn [encode cost]. pose proof (int_text_head n) as H.
    destruct (int_text n); [ contradiction | cbn [length]; lia ].
  - cbn [encode cost]. unfold encode_string. cbn [length]. lia.
  - destruct l as [ | x xs ]; [ cbn; lia | ].
    rewrite encode_list_cons.
    change (cost (JList (x :: xs))) with (S (S (cost x + cost_items xs))).
    apply Forall_cons_iff in IH as [Hx IH]. specialize (Hx (S level)).
    assert (Hm : cost_items xs <= length (encode_more (S level) xs)).
    { induction IH as [ | y ys Hy _ IHys ]; [ cbn; lia | ].
      cbn [cost_items encode_more]. fold cost_items. fold (encode_more (S level)).
      specialize (Hy (S level)). cbn [length]. rewrite !length_app. lia. }
    cbn [length]. rewrite !length_app. cbn [length]. lia.
  - destruct d as [ | [k x] xs ]; [ cbn; lia | ].
    rewrite encode_dict_cons.
    change (cost (JDict ((k, x) :: xs))) with (S (S (cost x + cost_pairs xs))).
    apply Forall_cons_iff in IH as [Hx IH]. cbn [snd] in Hx. specialize (Hx (S level)).
    assert (Hm : cost_pairs xs <= length (encode_more_pairs (S level) xs)).
    { induction IH as [ | [k' y] ys Hy _ IHys ]; [ cbn; lia | ].
      cbn [cost_pairs encode_more_pairs snd]. fold cost_pairs.
      fold (encode_more_pairs (S level)).
      cbn [snd] in Hy. specialize (Hy (S level)). cbn [length]. rewrite !length_app. lia. }
    cbn [length]. rewrite !length_app. cbn [length]. lia.
Qed.

(** [json.loads(json.dumps(v, indent=2)) == v] for every value whose
    dicts have distinct keys. *)
Lemma loads_dumps (v : json) :
  distinct_keys v = true -> loads (dumps v) = Some v.
Proof.
  intros Hd. unfold loads, dumps.
  rewrite list_ascii_of_string_of_list_ascii.
  rewrite skip_ws_starts_value by apply encode_starts_value.
  rewrite <- (app_nil_r (encode 0 v)) at 2.
  rewrite (reads_back_all v) by
    (try exact Hd; try exact I; pose proof (cost_le_length v 0); lia).
  reflexivity.
Qed.

End JsonFacts.

(** ** The catalog document and the store *)

Module DocumentFacts.
Import Json Document.

Lemma all_of_map {A B : Type} (f : A -> option B) (g : B -> A) (l : list B) :
  (forall x, f (g x) = Some x) -> all_of f (map g l) = Some l.
Proof.
  intros H. induction l as [ | x l IH ]; [ reflexivity | ].
  cbn [map all_of]. rewrite H, IH. reflexivity.
Qed.

Lemma as_list_of_strs (l : list string) : as_list as_str (of_strs l) = Some l.
Proof. apply all_of_map. reflexivity. Qed.

Lemma as_opt_of_opt (o : option string) : as_opt (of_opt o) = Some o.
Proof. destruct o; reflexivity. Qed.

Lemma item_of_to_json (i : Item) : item_of_json (item_to_json i) = Some i.
Proof.
  destruct i. unfold item_of_json, item_to_json, field.
  cbn [PyDict.get String.eqb Ascii.eqb Bool.eqb item_id item_name item_category
       item_color item_style item_occasions item_seasons item_image_path
       item_tag_image_path item_brand item_size item_material
       item_care_instructions item_pattern item_added_date as_str].
  rewrite !as_list_of_strs, !as_opt_of_opt. reflexivity.
Qed.

Lemma outfit_of_to_json (o : SavedOutfit) : outfit_of_json (outfit_to_json o) = Some o.
Proof.
  destruct o. unfold outfit_of_json, outfit_to_json, field.
  cbn [PyDict.get String.eqb Ascii.eqb Bool.eqb outfit_id outfit_name
       outfit_items outfit_created_date as_str].
  rewrite !as_list_of_strs. reflexivity.
Qed.

Lemma wardrobe_of_to_json (w : Wardrobe) :
  wardrobe_of_json (wardrobe_to_json w) = Some w.
Proof.
  destruct w as [its outs]. unfold wardrobe_of_json, wardrobe_to_json, field.
  cbn [PyDict.get String.eqb Ascii.eqb Bool.eqb items outfits as_list].
  rewrite (all_of_map item_of_json item_to_json its item_of_to_json).
  rewrite (all_of_map outfit_of_json outfit_to_json outs outfit_of_to_json).
  reflexivity.
Qed.

Lemma distinct_keys_of_strs (l : list string) : distinct_keys (of_strs l) = true.
Proof. unfold of_strs. cbn [distinct_keys]. induction l; [ reflexivity | exact IHl ]. Qed.

Lemma distinct_keys_of_opt (o : option string) : distinct_keys (of_opt o) = true.
Proof. destruct o; reflexivity. Qed.

Lemma distinct_keys_item (i : Item) : distinct_keys (item_to_json i) = true.
Proof.
  unfold item_to_json. cbn [distinct_keys map fst snd forallb].
  rewrite !distinct_keys_of_strs, !distinct_keys_of_opt. reflexivity.
Qed.

Lemma distinct_keys_outfit (o : SavedOutfit) : distinct_keys (outfit_to_json o) = true.
Proof.
  unfold outfit_to_json. cbn [distinct_keys map fst snd forallb].
  rewrite !distinct_keys_of_strs. reflexivity.
Qed.

Lemma forallb_map_true {A B : Type} (p : B -> bool) (f : A -> B) (l : list A) :
  (forall x, p (f x) = true) -> forallb p (map f l) = true.
Proof.
  intros H. induction l as [ | x l IH ]; [ reflexivity | ].
  cbn [map forallb]. rewrite H, IH. reflexivity.
Qed.

Lemma distinct_keys_wardrobe (w : Wardrobe) :
  distinct_keys (wardrobe_to_json w) = true.
Proof.
  unfold wardrobe_to_json. cbn [distinct_keys map fst snd forallb].
  change (forallb distinct_keys (map item_to_json (items w))
          && (forallb distinct_keys (map outfit_to_json (outfits w)) && true) = true).
  rewrite !forallb_map_true by (apply distinct_keys_item || apply distinct_keys_outfit).
  reflexivity.
Qed.

End DocumentFacts.

(** The stored document reads back as the catalog that was saved. *)
Lemma load_after_save (data : Wardrobe) (fs : gmap string string) :
  load_wardrobe (save_wardrobe data fs) = Some data.
Proof.
  unfold load_wardrobe, save_wardrobe. rewrite lookup_insert_eq.
  rewrite JsonFacts.loads_dumps by apply DocumentFacts.distinct_keys_wardrobe.
  apply DocumentFacts.wardrobe_of_to_json.
Qed.

Lemma save_other_path (data : Wardrobe) (fs : gmap string string) (p : string) :
  p <> DATA_FILE -> save_wardrobe data fs !! p = fs !! p.
Proof. intros H. unfold save_wardrobe. apply lookup_insert_ne. congruence. Qed.

(** ** Dictionaries *)

Module PyDictFacts.
Import PyDict.

Section Facts.
Context {A : Type}.
Implicit Types (d : list (string * A)) (k : string) (v : A).

Lemma get_set_eq k v d : get k (set k v d) = Some v.
Proof.
  induction d as [ | [k' v'] d IH ]; cbn [set get].
  - rewrite String.eqb_refl. reflexivity.
  - destruct (String.eqb k k') eqn:E; cbn [get]; rewrite ?String.eqb_refl, ?E;
      [ reflexivity | exact IH ].
Qed.

Lemma get_set_ne k k' v d : k <> k' -> get k' (set k v d) = get k' d.
Proof.
  intros Hne. induction d as [ | [k0 v0] d IH ]; cbn [set get].
  - apply String.eqb_neq in Hne. rewrite String.eqb_sym, Hne. reflexivity.
  - destruct (String.eqb k k0) eqn:E; cbn [get].
    + apply String.eqb_eq in E. subst k0.
      assert (E' : String.eqb k' k = false) by (apply String.eqb_neq; congruence).
      rewrite E'. reflexivity.
    + destruct (String.eqb k' k0); [ reflexivity | exact IH ].
Qed.

Lemma in_keys_set k k' v d :
  In k' (keys (set k v d)) <-> k' = k \/ In k' (keys d).
Proof.
  unfold keys. induction d as [ | [k0 v0] d IH ]; cbn [set map fst In].
  - intuition congruence.
  - destruct (String.eqb k k0) eqn:E; cbn [map fst In].
    + apply String.eqb_eq in E. subst k0. intuition congruence.
    + rewrite IH. intuition congruence.
Qed.

Lemma nodup_keys_set k v d : NoDup (keys d) -> NoDup (keys (set k v d)).
Proof.
  unfold keys. induction d as [ | [k0 v0] d IH ]; cbn [set map fst]; intros H.
  - apply NoDup_singleton.
  - apply NoDup_cons in H as [Hn Hd]. rewrite list_elem_of_In in Hn.
    destruct (String.eqb k k0) eqn:E; cbn [map fst].
    + apply String.eqb_eq in E. subst k0.
      apply NoDup_cons. rewrite list_elem_of_In. split; assumption.
    + apply NoDup_cons. rewrite list_elem_of_In. split; [ | exact (IH Hd) ].
      intros Hin. apply (in_keys_set k k0 v d) in Hin as [ -> | Hin ].
      * rewrite String.eqb_refl in E. discriminate.
      * exact (Hn Hin).
Qed.

Lemma get_None_iff k d : get k d = None <-> ~ In k (keys d).
Proof.
  unfold keys. induction d as [ | [k0 v0] d IH ]; cbn [get map fst In].
  - intuition.
  - destruct (String.eqb k k0) eqn:E.
    + apply String.eqb_eq in E. subst k0. split; [ discriminate | intros H; exfalso; auto ].
    + apply String.eqb_neq in E. rewrite IH. intuition congruence.
Qed.

End Facts.

End PyDictFacts.

(** ** The random source *)

Module RandomFacts.
Import Random.

Lemma randbelow_lt (n : nat) (g : rng) : 0 < n -> fst (randbelow n g) < n.
Proof.
  intros Hn. cbn [randbelow fst].
  assert (H : (g O mod N.of_nat n < N.of_nat n)%N) by (apply N.mod_lt; lia).
  lia.
Qed.

Lemma choice_eq {A : Type} (first : A) (seq : list A) (g : rng) :
  choice first seq g
  = (nth (N.to_nat (g O mod N.of_nat (length seq))) seq first, advance g).
Proof. reflexivity. Qed.

Lemma choice_in {A : Type} (first : A) (rest : list A) (g : rng) :
  In (fst (choice first (first :: rest) g)) (first :: rest).
Proof.
  rewrite choice_eq. cbn [fst]. apply nth_In.
  apply (randbelow_lt (length (first :: rest)) g). cbn [length]. lia.
Qed.

(** Every position of the sequence is selected by exactly the raw draws
    congruent to it: the choice is as uniform as the raw draws are. *)
Lemma choice_position {A : Type} (first : A) (seq : list A) (g : rng) (k : nat) :
  k < length seq -> g 0 = N.of_nat k ->
  fst (choice first seq g) = nth k seq first.
Proof.
  intros Hk Hg. rewrite choice_eq. cbn [fst]. rewrite Hg, N.mod_small by lia.
  rewrite Nat2N.id. reflexivity.
Qed.

Lemma choice_singleton {A : Type} (x : A) (g : rng) : fst (choice x [x] g) = x.
Proof.
  rewrite choice_eq. cbn [fst length]. change (N.of_nat 1) with 1%N.
  rewrite N.mod_1_r. reflexivity.
Qed.

Lemma gt_iff (x y : Q) : gt x y = true <-> (y < x)%Q.
Proof.
  unfold gt. rewrite negb_true_iff. split.
  - intros H. apply Qnot_le_lt. intros Hle. apply Qle_bool_iff in Hle. congruence.
  - intros H. destruct (Qle_bool x y) eqn:E; [ | reflexivity ].
    apply Qle_bool_iff in E. exfalso. exact (Qlt_not_le _ _ H E).
Qed.

Lemma random_range (g : rng) : (0 <= fst (random g) < 1)%Q.
Proof.
  cbn [random fst]. unfold Qle, Qlt. cbn [Qnum Qden].
  assert (H : (g O mod 2 ^ 53 < 2 ^ 53)%N) by (apply N.mod_lt; discriminate).
  change (2 ^ 53)%positive with 9007199254740992%positive.
  remember (g O mod 2 ^ 53)%N as x eqn:Ex. clear Ex.
  assert (E : (2 ^ 53)%N = 9007199254740992%N) by reflexivity.
  rewrite E in H. lia.
Qed.

(** Which raw draws pass the two thresholds of the generator: of the
    [2^53] values [random()] can take, those above 0.5 and those above
    0.6 are the upper ends of the range, and their share differs from 0.5
    and 0.4 by less than one step of the grid. *)
Lemma above_half (k : N) :
  (k < 2 ^ 53)%N ->
  (gt (Z.of_N k # 2 ^ 53) (1 # 2) = true <-> (2 ^ 52 < k)%N).
Proof.
  intros Hk. rewrite gt_iff. unfold Qlt. cbn [Qnum Qden].
  change (2 ^ 53)%positive with 9007199254740992%positive.
  assert (E : (2 ^ 53)%N = 9007199254740992%N) by reflexivity.
  assert (E' : (2 ^ 52)%N = 4503599627370496%N) by reflexivity.
  rewrite E in Hk. rewrite E'. lia.
Qed.

Lemma above_six_tenths (k : N) :
  (k < 2 ^ 53)%N ->
  (gt (Z.of_N k # 2 ^ 53) (6 # 10) = true <-> (5404319552844596 <= k)%N).
Proof.
  intros Hk. rewrite gt_iff. unfold Qlt. cbn [Qnum Qden].
  change (2 ^ 53)%positive with 9007199254740992%positive.
  assert (E : (2 ^ 53)%N = 9007199254740992%N) by reflexivity.
  rewrite E in Hk. lia.
Qed.

Lemma share_above_six_tenths :
  let share := (Z.of_N (2 ^ 53 - 5404319552844596) # 2 ^ 53)%Q in
  ((4 # 10) - (1 # 2 ^ 53) < share)%Q /\ (share < 4 # 10)%Q.
Proof. split; reflexivity. Qed.

Lemma share_above_half :
  ((Z.of_N (2 ^ 53 - 2 ^ 52 - 1) # 2 ^ 53) == (1 # 2) - (1 # 2 ^ 53))%Q.
Proof. reflexivity. Qed.

End RandomFacts.

(** ** generate_random_outfit *)

Module GeneratorFacts.
Import PyDict PyDictFacts Random RandomFacts.

Lemma in_of_category (c : string) (all : list Item) (item : Item) :
  In item (of_category c all) <-> In item all /\ item_category item = c.
Proof.
  unfold of_category. rewrite filter_In, String.eqb_eq. reflexivity.
Qed.

Lemma choose_into_nil (key : string) (outfit : Outfit) (g : rng) :
  choose_into key [] outfit g = (outfit, g).
Proof. reflexivity. Qed.

Lemma choose_into_cons (key : string) (first : Item) (rest : list Item)
    (outfit : Outfit) (g : rng) :
  choose_into key (first :: rest) outfit g
  = (set key (fst (choice first (first :: rest) g)) outfit, advance g).
Proof. reflexivity. Qed.

(** One step of the loop leaves every other key as it was. *)
Lemma choose_into_other (key k : string) (seq : list Item) (outfit : Outfit) (g : rng) :
  key <> k -> get k (fst (choose_into key seq outfit g)) = get k outfit.
Proof.
  intros Hne. destruct seq as [ | first rest ]; [ reflexivity | ].
  rewrite choose_into_cons. cbn [fst]. apply get_set_ne, Hne.
Qed.

(** The generator left by [choose_into] does not depend on the outfit. *)
Lemma choose_into_rng (key : string) (seq : list Item) (o1 o2 : Outfit) (g : rng) :
  snd (choose_into key seq o1 g) = snd (choose_into key seq o2 g).
Proof. destruct seq; reflexivity. Qed.

Lemma fill_outfit_cons (w : Wardrobe) (c : string) (rest : list string)
    (outfit : Outfit) (g : rng) :
  fill_outfit w (c :: rest) outfit g
  = fill_outfit w rest
      (fst (choose_into c (of_category c (items w)) outfit g))
      (snd (choose_into c (of_category c (items w)) outfit g)).
Proof.
  cbn [fill_outfit]. unfold bind.
  destruct (choose_into c (of_category c (items w)) outfit g). reflexivity.
Qed.

Lemma fill_outfit_app (w : Wardrobe) (before after : list string) :
  forall outfit g,
    fill_outfit w (before ++ after) outfit g
    = fill_outfit w after (fst (fill_outfit w before outfit g))
                          (snd (fill_outfit w before outfit g)).
Proof.
  induction before as [ | c before IH ]; intros outfit g; [ reflexivity | ].
  cbn [app]. rewrite !fill_outfit_cons. apply IH.
Qed.

Lemma fill_outfit_rng (w : Wardrobe) (cats : list string) :
  forall o1 o2 g, snd (fill_outfit w cats o1 g) = snd (fill_outfit w cats o2 g).
Proof.
  induction cats as [ | c cats IH ]; intros o1 o2 g; [ reflexivity | ].
  rewrite !fill_outfit_cons.
  rewrite (choose_into_rng c _ o1 o2 g). apply IH.
Qed.

Lemma fill_outfit_other (w : Wardrobe) (cats : list string) (k : string) :
  ~ In k cats ->
  forall outfit g, get k (fst (fill_outfit w cats outfit g)) = get k outfit.
Proof.
  induction cats as [ | c cats IH ]; intros Hk outfit g; [ reflexivity | ].
  rewrite fill_outfit_cons, IH by (intros H; apply Hk; right; exact H).
  apply choose_into_other. intros ->. apply Hk. left. reflexivity.
Qed.

Lemma fill_outfit_keys (w : Wardrobe) (cats : list string) :
  forall outfit g k,
    In k (keys (fst (fill_outfit w cats outfit g))) ->
    In k (keys outfit) \/ In k cats.
Proof.
  induction cats as [ | c cats IH ]; intros outfit g k Hk; [ left; exact Hk | ].
  rewrite fill_outfit_cons in Hk. apply IH in Hk as [Hk | Hk].
  - destruct (of_category c (items w)) as [ | first rest ]; [ left; exact Hk | ].
    rewrite choose_into_cons in Hk. cbn [fst] in Hk.
    apply in_keys_set in Hk as [ -> | Hk ]; [ right; left; reflexivity | left; exact Hk ].
  - right. right. exact Hk.
Qed.

Lemma fill_outfit_nodup (w : Wardrobe) (cats : list string) :
  forall outfit g,
    NoDup (keys outfit) -> NoDup (keys (fst (fill_outfit w cats outfit g))).
Proof.
  induction cats as [ | c cats IH ]; intros outfit g Hn; [ exact Hn | ].
  rewrite fill_outfit_cons. apply IH.
  destruct (of_category c (items w)) as [ | first rest ]; [ exact Hn | ].
  rewrite choose_into_cons. cbn [fst]. apply nodup_keys_set, Hn.
Qed.

Lemma choose_into_well_filed (w : Wardrobe) (c : string) (outfit : Outfit) (g : rng) :
  well_filed w outfit ->
  well_filed w (fst (choose_into c (of_category c (items w)) outfit g)).
Proof.
  intros Hw. destruct (of_category c (items w)) as [ | first rest ] eqn:E;
    [ exact Hw | ].
  rewrite choose_into_cons. cbn [fst]. intros k item Hget.
  destruct (string_dec c k) as [ <- | Hne ].
  - rewrite get_set_eq in Hget. injection Hget as <-.
    apply in_of_category. rewrite E. apply choice_in.
  - rewrite get_set_ne in Hget by exact Hne. exact (Hw k item Hget).
Qed.

Lemma fill_outfit_well_filed (w : Wardrobe) (cats : list string) :
  forall outfit g,
    well_filed w outfit -> well_filed w (fst (fill_outfit w cats outfit g)).
Proof.
  induction cats as [ | c cats IH ]; intros outfit g Hw; [ exact Hw | ].
  rewrite fill_outfit_cons. apply IH, choose_into_well_filed, Hw.
Qed.

(** The entry of a category is the one written at its last occurrence in
    the request. *)
Lemma fill_outfit_last (w : Wardrobe) (before after : list string) (c : string)
    (outfit : Outfit) (g : rng) :
  ~ In c after ->
  get c (fst (fill_outfit w (before ++ c :: after) outfit g))
  = match of_category c (items w) with
    | [] => get c (fst (fill_outfit w before outfit g))
    | first :: rest =>
        Some (fst (choice first (first :: rest)
                     (snd (fill_outfit w before outfit g))))
    end.
Proof.
  intros Hc. rewrite fill_outfit_app, fill_outfit_cons.
  rewrite fill_outfit_other by exact Hc.
  destruct (of_category c (items w)) as [ | first rest ]; [ reflexivity | ].
  rewrite choose_into_cons. cbn [fst]. apply get_set_eq.
Qed.

Lemma fill_outfit_absent (w : Wardrobe) (cats : list string) (c : string) :
  forall outfit g,
    get c (fst (fill_outfit w cats outfit g)) = None <->
    get c outfit = None /\ (In c cats -> of_category c (items w) = []).
Proof.
  induction cats as [ | c0 cats IH ]; intros outfit g.
  - cbn [fill_outfit ret fst In]. tauto.
  - rewrite fill_outfit_cons, IH. cbn [In].
    destruct (string_dec c0 c) as [ -> | Hne ].
    + destruct (of_category c (items w)) as [ | first rest ] eqn:E.
      * rewrite choose_into_nil. cbn [fst]. tauto.
      * rewrite choose_into_cons. cbn [fst]. rewrite get_set_eq.
        split; [ intros [H _]; discriminate | ].
        intros [_ H]. specialize (H (or_introl eq_refl)). discriminate.
    + rewrite choose_into_other by exact Hne. intuition congruence.
Qed.

End GeneratorFacts.

(** C2. For every wardrobe, every list of requested categories and every
    state of the random source, the outfit returned by
    [generate_random_outfit] (1) has only requested categories as keys,
    (2) has no key twice, so one item per key, (3) maps each key to an
    item of the wardrobe of that very category, (4) lacks a requested
    category exactly when the wardrobe has no item of it, and (5) holds
    for each category the item that [random.choice] draws from the
    wardrobe's items of that category, namely the item at the position
    given by the raw draw reduced modulo their number, the draw being the
    one that follows the draws of the categories requested before it.
    (6) With exactly one Top [a], one Bottom [b] and one Shoes [c] in the
    catalog, requesting Top, Bottom and Shoes returns exactly
    [{Top: a, Bottom: b, Shoes: c}]. *)
Theorem C2_generate_random_outfit
    (wardrobe : Wardrobe) (include_categories : list string) (g : Random.rng) :
  let outfit := fst (generate_random_outfit wardrobe include_categories g) in
  (forall k, In k (PyDict.keys outfit) -> In k include_categories)
  /\ NoDup (PyDict.keys outfit)
  /\ (forall k item, PyDict.get k outfit = Some item ->
        In item (items wardrobe) /\ item_category item = k)
  /\ (forall c, In c include_categories ->
        (PyDict.get c outfit = None <-> of_category c (items wardrobe) = []))
  /\ (forall before c after first rest,
        include_categories = before ++ c :: after -> ~ In c after ->
        of_category c (items wardrobe) = first :: rest ->
        let g_c := snd (generate_random_outfit wardrobe before g) in
        let position := N.to_nat (g_c O mod N.of_nat (length (first :: rest))) in
        position < length (first :: rest)
        /\ PyDict.get c outfit = Some (nth position (first :: rest) first))
  /\ (forall a b c,
        items wardrobe = [a; b; c] ->
        item_category a = "Top" -> item_category b = "Bottom" ->
        item_category c = "Shoes" ->
        include_categories = ["Top"; "Bottom"; "Shoes"] ->
        outfit = [("Top", a); ("Bottom", b); ("Shoes", c)]).
Proof.
  cbv zeta. unfold generate_random_outfit.
  split; [ | split; [ | split; [ | split; [ | split ] ] ] ].
  - intros k Hk. apply GeneratorFacts.fill_outfit_keys in Hk as [ [] | Hk ]. exact Hk.
  - apply GeneratorFacts.fill_outfit_nodup. apply NoDup_nil_2.
  - apply GeneratorFacts.fill_outfit_well_filed. intros k item H. discriminate H.
  - intros c Hc. rewrite GeneratorFacts.fill_outfit_absent. cbn [PyDict.get]. tauto.
  - intros before c after first rest -> Hc E. split.
    + apply (RandomFacts.randbelow_lt (length (first :: rest))). cbn [length]. lia.
    + rewrite GeneratorFacts.fill_outfit_last by exact Hc. rewrite E. reflexivity.
  - intros a b c Ei Ha Hb Hc ->.
    rewrite !GeneratorFacts.fill_outfit_cons. unfold of_category. rewrite Ei.
    cbn [List.filter]. rewrite Ha, Hb, Hc.
    cbn [String.eqb Ascii.eqb Bool.eqb].
    rewrite !GeneratorFacts.choose_into_cons. cbn [fst snd].
    rewrite !RandomFacts.choice_singleton. reflexivity.
Qed.

Lemma C2_generate_random_outfit_witness :
  fst (generate_random_outfit
         {| items := [Sample.garment "a" "Top" [] []; Sample.garment "b" "Bottom" [] [];
                      Sample.garment "c" "Shoes" [] []];
            outfits := [] |}
         ["Top"; "Bottom"; "Shoes"] (Sample.constant 7))
  = [("Top", Sample.garment "a" "Top" [] []);
     ("Bottom", Sample.garment "b" "Bottom" [] []);
     ("Shoes", Sample.garment "c" "Shoes" [] [])]
  /\ PyDict.get "Accessory"
       (fst (generate_random_outfit Sample.party_closet ["Top"; "Accessory"]
               (Sample.constant 7)))
     = Some (Sample.garment "e" "Accessory" ["Party"] ["All Season"]).
Proof.
  split.
  - apply (C2_generate_random_outfit
             {| items := [Sample.garment "a" "Top" [] []; Sample.garment "b" "Bottom" [] [];
                          Sample.garment "c" "Shoes" [] []];
                outfits := [] |}
             ["Top"; "Bottom"; "Shoes"] (Sample.constant 7)); reflexivity.
  - destruct (C2_generate_random_outfit Sample.party_closet ["Top"; "Accessory"]
                (Sample.constant 7)) as (_ & _ & _ & _ & Hdraw & _).
    destruct (Hdraw ["Top"%string] "Accessory"%string []
                (Sample.garment "d" "Accessory" ["Party"] ["All Season"])
                [Sample.garment "e" "Accessory" ["Party"] ["All Season"];
                 Sample.garment "f" "Accessory" ["Party"] ["All Season"]])
      as [_ Hget]; [ reflexivity | intros [] | reflexivity | ].
    rewrite Hget. reflexivity.
Defined.

(** ** generate_smart_outfit *)

Module SmartFacts.
Import PyDict PyDictFacts Random RandomFacts GeneratorFacts.

Lemma drawn_in (seq : list Item) (g : rng) (item : Item) :
  drawn seq g = Some item -> In item seq.
Proof.
  destruct seq as [ | first rest ]; [ discriminate | ].
  cbn [drawn]. intros H. injection H as <-. apply choice_in.
Qed.

Lemma drawn_is_Some (seq : list Item) (g : rng) : seq <> [] -> drawn seq g <> None.
Proof. destruct seq; [ congruence | discriminate ]. Qed.

Lemma choose_into_eq (key : string) (seq : list Item) (outfit : Outfit) (g : rng) :
  choose_into key seq outfit g
  = (match drawn seq g with
     | Some item => set key item outfit
     | None => outfit
     end, after_draw seq g).
Proof. destruct seq; reflexivity. Qed.

Lemma get_choose_into (key : string) (seq : list Item) (outfit : Outfit) (g : rng) :
  get key outfit = None ->
  get key (fst (choose_into key seq outfit g)) = drawn seq g.
Proof.
  intros H. rewrite choose_into_eq. cbn [fst].
  destruct (drawn seq g); [ apply get_set_eq | exact H ].
Qed.

Lemma flip_eq (seq : list Item) (threshold : Q) (g : rng) :
  flip seq threshold g
  = match seq with
    | [] => (false, g)
    | _ :: _ => (gt (fst (random g)) threshold, advance g)
    end.
Proof. destruct seq; reflexivity. Qed.

(** The body block: a dress, or a top and a bottom. *)
Lemma choose_body_eq (pool : list Item) (outfit : Outfit) (g : rng) :
  choose_body pool outfit g
  = let dresses := of_category "Dress/Jumpsuit" pool in
    let coin := flip dresses (1 # 2) g in
    if fst coin then choose_into "Dress/Jumpsuit" dresses outfit (snd coin)
    else
      let top := choose_into "Top" (of_category "Top" pool) outfit (snd coin) in
      choose_into "Bottom" (of_category "Bottom" pool) (fst top) (snd top).
Proof.
  unfold choose_body, bind. cbv zeta.
  destruct (flip (of_category "Dress/Jumpsuit" pool) (1 # 2) g) as [[] g1];
    cbn [fst snd]; [ reflexivity | ].
  destruct (choose_into "Top" (of_category "Top" pool) outfit g1). reflexivity.
Qed.

Lemma maybe_eq (key : string) (seq : list Item) (threshold : Q)
    (outfit : Outfit) (g : rng) :
  (let* wear := flip seq threshold in
   if wear then choose_into key seq outfit else ret outfit) g
  = match seq with
    | [] => (outfit, g)
    | _ :: _ =>
        if gt (fst (random g)) threshold
        then choose_into key seq outfit (advance g)
        else (outfit, advance g)
    end.
Proof.
  unfold bind. rewrite flip_eq. destruct seq; [ reflexivity | ].
  destruct (gt (fst (random g)) threshold); reflexivity.
Qed.

Lemma add_outerwear_eq (pool : list Item) (outfit : Outfit) (g : rng) :
  add_outerwear pool outfit g
  = match of_category "Outerwear" pool with
    | [] => (outfit, g)
    | _ :: _ =>
        if gt (fst (random g)) (6 # 10)
        then choose_into "Outerwear" (of_category "Outerwear" pool) outfit (advance g)
        else (outfit, advance g)
    end.
Proof. apply maybe_eq. Qed.

Lemma add_accessory_eq (pool : list Item) (outfit : Outfit) (g : rng) :
  add_accessory pool outfit g
  = match of_category "Accessory" pool with
    | [] => (outfit, g)
    | _ :: _ =>
        if gt (fst (random g)) (1 # 2)
        then choose_into "Accessory" (of_category "Accessory" pool) outfit (advance g)
        else (outfit, advance g)
    end.
Proof. apply maybe_eq. Qed.

(** The four blocks in sequence. *)
Lemma stages (w : Wardrobe) (occasion season : option string) (g : rng) :
  generate_smart_outfit w occasion season g
  = let pool := candidate_pool w occasion season in
    let r1 := choose_body pool [] g in
    let r2 := add_shoes pool (fst r1) (snd r1) in
    let r3 := add_outerwear pool (fst r2) (snd r2) in
    add_accessory pool (fst r3) (snd r3).
Proof.
  unfold generate_smart_outfit, bind, ret. cbv zeta.
  destruct (choose_body _ [] g) as [o1 g1]. cbn [fst snd].
  destruct (add_shoes _ o1 g1) as [o2 g2]. cbn [fst snd].
  destruct (add_outerwear _ o2 g2) as [o3 g3]. cbn [fst snd].
  destruct (add_accessory _ o3 g3) as [o4 g4]. reflexivity.
Qed.

(** No block reads the outfit to decide its draws. *)
Lemma choose_body_rng (pool : list Item) (o1 o2 : Outfit) (g : rng) :
  snd (choose_body pool o1 g) = snd (choose_body pool o2 g).
Proof.
  rewrite !choose_body_eq. cbv zeta.
  destruct (fst (flip (of_category "Dress/Jumpsuit" pool) (1 # 2) g)).
  - apply choose_into_rng.
  - rewrite !choose_into_eq. reflexivity.
Qed.



(** Which keys a block can touch. *)
Lemma add_shoes_other (pool : list Item) (outfit : Outfit) (g : rng) (k : string) :
  "Shoes" <> k -> get k (fst (add_shoes pool outfit g)) = get k outfit.
Proof. apply choose_into_other. Qed.

Lemma add_outerwear_other (pool : list Item) (outfit : Outfit) (g : rng) (k : string) :
  "Outerwear" <> k -> get k (fst (add_outerwear pool outfit g)) = get k outfit.
Proof.
  intros H. rewrite add_outerwear_eq.
  destruct (of_category "Outerwear" pool); [ reflexivity | ].
  destruct (gt _ _); [ apply choose_into_other, H | reflexivity ].
Qed.

Lemma add_accessory_other (pool : list Item) (outfit : Outfit) (g : rng) (k : string) :
  "Accessory" <> k -> get k (fst (add_accessory pool outfit g)) = get k outfit.
Proof.
  intros H. rewrite add_accessory_eq.
  destruct (of_category "Accessory" pool); [ reflexivity | ].
  destruct (gt _ _); [ apply choose_into_other, H | reflexivity ].
Qed.

Lemma choose_body_other (pool : list Item) (outfit : Outfit) (g : rng) (k : string) :
  "Dress/Jumpsuit" <> k -> "Top" <> k -> "Bottom" <> k ->
  get k (fst (choose_body pool outfit g)) = get k outfit.
Proof.
  intros Hd Ht Hb. rewrite choose_body_eq. cbv zeta.
  destruct (fst (flip _ _ g)).
  - apply choose_into_other, Hd.
  - rewrite choose_into_other by exact Hb. apply choose_into_other, Ht.
Qed.

(** A key of the body block keeps, in the finished outfit, the value the
    body block gave it. *)
Lemma body_key_final (w : Wardrobe) (occasion season : option string) (g : rng)
    (k : string) :
  "Shoes" <> k -> "Outerwear" <> k -> "Accessory" <> k ->
  get k (fst (generate_smart_outfit w occasion season g))
  = get k (fst (choose_body (candidate_pool w occasion season) [] g)).
Proof.
  intros Hs Ho Ha. rewrite stages. cbv zeta.
  rewrite add_accessory_other, add_outerwear_other, add_shoes_other by assumption.
  reflexivity.
Qed.

Lemma shoes_final (w : Wardrobe) (occasion season : option string) (g : rng) :
  let pool := candidate_pool w occasion season in
  get "Shoes" (fst (generate_smart_outfit w occasion season g))
  = drawn (of_category "Shoes" pool) (snd (choose_body pool [] g)).
Proof.
  cbv zeta. rewrite stages. cbv zeta.
  rewrite add_accessory_other, add_outerwear_other by discriminate.
  unfold add_shoes. apply get_choose_into.
  rewrite choose_body_other by discriminate. reflexivity.
Qed.



End SmartFacts.






(** ** The filters and the fallback *)

Module FilterFacts.

Lemma str_in_In (x : string) (l : list string) : str_in x l = true <-> In x l.
Proof. apply JsonFacts.existsb_eqb_In. Qed.

Lemma filter_filter {A : Type} (p q : A -> bool) (l : list A) :
  List.filter q (List.filter p l) = List.filter (fun x => p x && q x) l.
Proof.
  induction l as [ | x l IH ]; [ reflexivity | ].
  cbn [List.filter]. destruct (p x); cbn [List.filter andb]; rewrite IH; reflexivity.
Qed.

Lemma pool_fallback (w : Wardrobe) (occasion season : option string) :
  length (filter_items (items w) occasion season) < 3 ->
  candidate_pool w occasion season = items w.
Proof.
  intros H. unfold candidate_pool. cbv zeta.
  destruct (Nat.ltb_spec (length (filter_items (items w) occasion season)) 3);
    [ reflexivity | lia ].
Qed.

Lemma pool_filtered (w : Wardrobe) (occasion season : option string) :
  3 <= length (filter_items (items w) occasion season) ->
  candidate_pool w occasion season = filter_items (items w) occasion season.
Proof.
  intros H. unfold candidate_pool. cbv zeta.
  destruct (Nat.ltb_spec (length (filter_items (items w) occasion season)) 3);
    [ lia | reflexivity ].
Qed.

Lemma filter_nothing {A : Type} (p : A -> bool) (l : list A) :
  (forall x, In x l -> p x = false) -> List.filter p l = [].
Proof.
  induction l as [ | x l IH ]; intros H; [ reflexivity | ].
  cbn [List.filter]. rewrite (H x) by (left; reflexivity).
  apply IH. intros y Hy. apply H. right. exact Hy.
Qed.

End FilterFacts.

(** C5. In [generate_smart_outfit], for a non-empty occasion string and a
    non-empty season string (each member of [OCCASIONS] and [SEASONS] is;
    the page passes [None] for "Any"): with only the occasion given the
    filtered list is the items whose occasions contain it; with only the
    season given it is the items whose seasons contain it or contain
    "All Season"; with both given it is the items that satisfy both
    conditions; with neither it is the whole list.  The filtered list is
    the candidate pool whenever it has at least three items. *)
Theorem C5_filters (all : list Item) (occasion season : string) :
  occasion <> EmptyString -> season <> EmptyString ->
  let by_occasion := fun item => str_in occasion (item_occasions item) in
  let by_season := fun item => str_in season (item_seasons item)
                               || str_in "All Season" (item_seasons item) in
  filter_items all (Some occasion) None = List.filter by_occasion all
  /\ filter_items all None (Some season) = List.filter by_season all
  /\ filter_items all (Some occasion) (Some season)
     = List.filter (fun item => by_occasion item && by_season item) all
  /\ filter_items all None None = all
  /\ (forall item,
        In item (filter_items all (Some occasion) None)
        <-> In item all /\ In occasion (item_occasions item))
  /\ (forall item,
        In item (filter_items all None (Some season))
        <-> In item all
            /\ (In season (item_seasons item) \/ In "All Season" (item_seasons item)))
  /\ (forall item,
        In item (filter_items all (Some occasion) (Some season))
        <-> In item all /\ In occasion (item_occasions item)
            /\ (In season (item_seasons item) \/ In "All Season" (item_seasons item)))
  /\ (forall stored o s,
        3 <= length (filter_items all o s) ->
        candidate_pool (mkWardrobe all stored) o s = filter_items all o s).
Proof.
  intros Ho Hs. cbv zeta.
  destruct occasion as [ | co occasion ]; [ congruence | ].
  destruct season as [ | cs season ]; [ congruence | ].
  unfold filter_items. cbv zeta.
  rewrite FilterFacts.filter_filter.
  repeat match goal with |- _ /\ _ => split end; try reflexivity.
  - intros item. rewrite filter_In, FilterFacts.str_in_In. reflexivity.
  - intros item. rewrite filter_In, orb_true_iff, !FilterFacts.str_in_In. reflexivity.
  - intros item.
    rewrite filter_In, andb_true_iff, orb_true_iff, !FilterFacts.str_in_In.
    reflexivity.
  - intros stored o s H. apply (FilterFacts.pool_filtered (mkWardrobe all stored)), H.
Qed.

Lemma C5_filters_witness :
  filter_items (items Sample.party_closet) (Some "Party") (Some "Winter")
  = List.filter
      (fun item => str_in "Party" (item_occasions item)
                   && (str_in "Winter" (item_seasons item)
                       || str_in "All Season" (item_seasons item)))
      (items Sample.party_closet).
Proof.
  apply (C5_filters (items Sample.party_closet) "Party" "Winter"); discriminate.
Defined.

(** C6, as the code has it. In [generate_smart_outfit], if the list left
    by the occasion and season filters has fewer than 3 items, the
    filters are discarded and the full item list is the pool (with 3 or
    more it is the filtered list).  Consequently, for filter arguments
    that leave fewer than 3 items, among them every non-empty occasion
    that matches no item, the result is non-empty, holding a "Shoes" key,
    whenever the full catalog has at least 3 items spanning Top, Bottom
    and Shoes or a Dress and Shoes. *)
Theorem C6_fallback
    (wardrobe : Wardrobe) (occasion season : option string) (g : Random.rng) :
  let filtered := filter_items (items wardrobe) occasion season in
  let outfit := fst (generate_smart_outfit wardrobe occasion season g) in
  (length filtered < 3 -> candidate_pool wardrobe occasion season = items wardrobe)
  /\ (3 <= length filtered -> candidate_pool wardrobe occasion season = filtered)
  /\ (length filtered < 3 -> spans_outfit (items wardrobe) ->
      PyDict.get "Shoes" outfit <> None /\ outfit <> [])
  /\ (forall o,
        occasion = Some o -> o <> EmptyString ->
        (forall item, In item (items wardrobe) -> ~ In o (item_occasions item)) ->
        spans_outfit (items wardrobe) ->
        candidate_pool wardrobe occasion season = items wardrobe
        /\ PyDict.get "Shoes" outfit <> None /\ outfit <> []).
Proof.
  cbv zeta.
  assert (Hmain : length (filter_items (items wardrobe) occasion season) < 3 ->
                  spans_outfit (items wardrobe) ->
                  PyDict.get "Shoes"
                    (fst (generate_smart_outfit wardrobe occasion season g)) <> None
                  /\ fst (generate_smart_outfit wardrobe occasion season g) <> []).
  { intros Hlt (_ & Hspan).
    assert (Hshoes : of_category "Shoes" (items wardrobe) <> []) by tauto.
    assert (Hget : PyDict.get "Shoes"
                     (fst (generate_smart_outfit wardrobe occasion season g)) <> None).
    { rewrite SmartFacts.shoes_final. cbv zeta.
      rewrite FilterFacts.pool_fallback by exact Hlt.
      apply SmartFacts.drawn_is_Some, Hshoes. }
    split; [ exact Hget | ]. intros E. rewrite E in Hget. apply Hget. reflexivity. }
  split; [ apply FilterFacts.pool_fallback | ].
  split; [ apply FilterFacts.pool_filtered | ].
  split; [ exact Hmain | ].
  intros o -> Ho Hnone Hspan.
  assert (Hlt : length (filter_items (items wardrobe) (Some o) season) < 3).
  { destruct o as [ | c o ]; [ congruence | ].
    unfold filter_items. cbv zeta.
    rewrite (FilterFacts.filter_nothing
               (fun item => str_in (String c o) (item_occasions item))).
    - destruct season as [ [ | ? ? ] | ]; cbn [List.filter length]; lia.
    - intros item Hin. destruct (str_in (String c o) (item_occasions item)) eqn:E;
        [ | reflexivity ].
      apply FilterFacts.str_in_In in E. exfalso. exact (Hnone item Hin E). }
  split; [ apply FilterFacts.pool_fallback, Hlt | apply Hmain; assumption ].
Qed.

Lemma C6_fallback_witness :
  let outfit :=
    fst (generate_smart_outfit Sample.party_closet (Some "Formal Event") None Sample.low) in
  candidate_pool Sample.party_closet (Some "Formal Event") None
  = items Sample.party_closet
  /\ PyDict.get "Shoes" outfit <> None /\ outfit <> [].
Proof.
  apply (C6_fallback Sample.party_closet (Some "Formal Event") None Sample.low)
    with (o := "Formal Event"%string).
  - reflexivity.
  - discriminate.
  - intros item Hin Ho. cbn in Hin.
    repeat (destruct Hin as [ <- | Hin ];
            [ cbn in Ho; repeat (destruct Ho as [ Ho | Ho ]; [ discriminate Ho | ]);
              exact Ho | ]).
    exact Hin.
  - split; [ cbn; lia | left; repeat split; discriminate ].
Defined.

(** The claim as the specification states it ("for any filter
    arguments") fails: a catalog with a top, a bottom and shoes for work
    and three accessories for parties spans an outfit, yet asked for a
    party the filter keeps the three accessories, no fallback happens,
    and a low draw leaves the outfit empty. *)
Lemma C6_counterexample :
  spans_outfit (items Sample.party_closet)
  /\ length (filter_items (items Sample.party_closet) (Some "Party") None) = 3
  /\ fst (generate_smart_outfit Sample.party_closet (Some "Party") None Sample.low) = [].
Proof.
  split; [ | split; reflexivity ].
  split; [ cbn; lia | left; repeat split; discriminate ].
Qed.

(** ** The analyzers *)

Module AnalyzerFacts.
Import Json Analyzer.

Lemma clean_response_single (content : string) :
  Str.startswith (Str.strip content) fence_json
  && Str.startswith (Str.from 7 (Str.strip content)) fence = false ->
  clean_response content = strip_one_fence content.
Proof.
  unfold clean_response, strip_one_fence. cbv zeta.
  destruct (Str.startswith (Str.strip content) fence_json) eqn:E;
    cbn [andb]; [ | reflexivity ].
  intros ->. reflexivity.
Qed.

Lemma clean_response_double (content : string) :
  Str.startswith (Str.strip content) fence_json
  && Str.startswith (Str.from 7 (Str.strip content)) fence = true ->
  clean_response content
  = Str.strip (strip_trailing (Str.from 3 (Str.from 7 (Str.strip content)))).
Proof.
  unfold clean_response, strip_trailing. cbv zeta.
  intros H. apply andb_true_iff in H as [-> ->]. reflexivity.
Qed.

Section Service.
Variable json_loads : string -> result json.
Variable httpx_post : request -> result response.
Variable describe : exn -> string.

(** The [try] block raises in each of the failure cases, and the
    [except] clause turns every exception into [None]. *)
Lemma analyze_value (prompt : string) (limit : Z) (label : string)
    (api_key image_base64 image_type : string) :
  fst (analyze json_loads httpx_post describe prompt limit label
         api_key image_base64 image_type)
  = match attempt json_loads httpx_post
            (chat_request prompt limit api_key image_base64 image_type) with
    | inr v => v
    | inl _ => JNull
    end.
Proof. unfold analyze. destruct (attempt _ _ _); reflexivity. Qed.

Lemma attempt_transport (req : request) (e : exn) :
  httpx_post req = inl e -> attempt json_loads httpx_post req = inl e.
Proof. unfold attempt. intros ->. reflexivity. Qed.

Lemma attempt_status (req : request) (r : response) :
  httpx_post req = inr r -> status_code r <> 200%Z ->
  attempt json_loads httpx_post req = inr JNull.
Proof.
  unfold attempt. intros -> H. cbn [and_then].
  destruct (Z.eqb_spec (status_code r) 200); [ contradiction | reflexivity ].
Qed.

Lemma attempt_ok (req : request) (r : response) (answer : json) (content : string) :
  httpx_post req = inr r -> status_code r = 200%Z ->
  json_loads (body r) = inr answer ->
  completion_content answer = inr content ->
  attempt json_loads httpx_post req = json_loads (clean_response content).
Proof.
  unfold attempt. intros -> Hs Ha Hc. cbn [and_then].
  rewrite Hs, Ha. cbn [Z.eqb Pos.eqb and_then]. rewrite Hc. reflexivity.
Qed.

Lemma attempt_no_content (req : request) (r : response) (e : exn) :
  httpx_post req = inr r -> status_code r = 200%Z ->
  and_then (json_loads (body r)) completion_content = inl e ->
  attempt json_loads httpx_post req = inl e.
Proof.
  unfold attempt. intros -> Hs Ha. cbn [and_then].
  rewrite Hs. cbn [Z.eqb Pos.eqb].
  destruct (json_loads (body r)) as [e' | answer]; cbn [and_then] in *;
    [ injection Ha as ->; reflexivity | ].
  rewrite Ha. reflexivity.
Qed.

(** The four outcomes of one analysis call. *)
Lemma analyze_outcomes (prompt : string) (limit : Z) (label : string)
    (api_key image_base64 image_type : string) :
  let req := chat_request prompt limit api_key image_base64 image_type in
  let value := fst (analyze json_loads httpx_post describe prompt limit label
                      api_key image_base64 image_type) in
  (forall e, httpx_post req = inl e -> value = JNull)
  /\ (forall r, httpx_post req = inr r -> status_code r <> 200%Z -> value = JNull)
  /\ (forall r e, httpx_post req = inr r -> status_code r = 200%Z ->
        and_then (json_loads (body r)) completion_content = inl e -> value = JNull)
  /\ (forall r answer content,
        httpx_post req = inr r -> status_code r = 200%Z ->
        json_loads (body r) = inr answer ->
        completion_content answer = inr content ->
        (forall e, json_loads (clean_response content) = inl e -> value = JNull)
        /\ (forall v, json_loads (clean_response content) = inr v -> value = v)).
Proof.
  cbv zeta. rewrite analyze_value.
  split; [ | split; [ | split ] ].
  - intros e H. rewrite (attempt_transport _ e H). reflexivity.
  - intros r H Hs. rewrite (attempt_status _ r H Hs). reflexivity.
  - intros r e H Hs Hc. rewrite (attempt_no_content _ r e H Hs Hc). reflexivity.
  - intros r answer content H Hs Ha Hc.
    rewrite (attempt_ok _ r answer content H Hs Ha Hc).
    split; [ intros e -> | intros v -> ]; reflexivity.
Qed.

End Service.

End AnalyzerFacts.

(** C7, as the code has it.  The cleanup applied to the model's answer in
    [analyze_garment_image] and [analyze_tag_image] strips surrounding
    white space, then a leading fence tagged [json], then a leading bare
    fence, then one trailing fence, then white space again.  It therefore
    strips exactly one optional leading fence (tagged or bare) and one
    optional trailing fence, except when a bare fence directly follows a
    leading tagged fence, in which case both leading fences go.  Whatever
    the decoder and the service do, each of the two functions returns
    [None] when the request fails, when the status is not 200, when the
    answer carries no message content, and when the cleaned text is not
    valid JSON; it returns the decoded value otherwise. *)
Theorem C7_response_cleanup :
  (forall content,
     let stripped := Str.strip content in
     let doubled := Str.startswith stripped Analyzer.fence_json
                    && Str.startswith (Str.from 7 stripped) Analyzer.fence in
     (doubled = false ->
      Analyzer.clean_response content = Analyzer.strip_one_fence content)
     /\ (doubled = true ->
         Analyzer.clean_response content
         = Str.strip (Analyzer.strip_trailing
                        (Str.from 3 (Str.from 7 stripped)))))
  /\ (forall json_loads httpx_post garment_prompt tag_prompt describe
             api_key image_base64 image_type,
        let outcomes := fun prompt limit value =>
          let req := Analyzer.chat_request prompt limit api_key image_base64 image_type in
          (forall e, httpx_post req = inl e -> value = Json.JNull)
          /\ (forall r, httpx_post req = inr r ->
                Analyzer.status_code r <> 200%Z -> value = Json.JNull)
          /\ (forall r e, httpx_post req = inr r -> Analyzer.status_code r = 200%Z ->
                Analyzer.and_then (json_loads (Analyzer.body r))
                  Analyzer.completion_content = inl e ->
                value = Json.JNull)
          /\ (forall r answer content,
                httpx_post req = inr r -> Analyzer.status_code r = 200%Z ->
                json_loads (Analyzer.body r) = inr answer ->
                Analyzer.completion_content answer = inr content ->
                (forall e, json_loads (Analyzer.clean_response content) = inl e ->
                           value = Json.JNull)
                /\ (forall v, json_loads (Analyzer.clean_response content) = inr v ->
                              value = v)) in
        outcomes garment_prompt 500%Z
          (fst (Analyzer.analyze_garment_image json_loads httpx_post garment_prompt
                  describe api_key image_base64 image_type))
        /\ outcomes tag_prompt 300%Z
             (fst (Analyzer.analyze_tag_image json_loads httpx_post tag_prompt
                     describe api_key image_base64 image_type))).
Proof.
  split.
  - intros content. cbv zeta. split.
    + apply AnalyzerFacts.clean_response_single.
    + apply AnalyzerFacts.clean_response_double.
  - intros json_loads httpx_post garment_prompt tag_prompt describe
      api_key image_base64 image_type. cbv zeta beta.
    split; apply AnalyzerFacts.analyze_outcomes.
Qed.

Lemma C7_response_cleanup_witness :
  Analyzer.clean_response "  ```json {} ```  "
  = Analyzer.strip_one_fence "  ```json {} ```  "
  /\ fst (Analyzer.analyze_garment_image Sample.json_loads
            (Sample.answering "```json not an object ```") "prompt"
            (fun _ => "error"%string) "sk-key" "aGk=" "image/jpeg")
     = Json.JNull.
Proof.
  destruct C7_response_cleanup as [Hclean Hfail]. split.
  - apply (Hclean "  ```json {} ```  "%string). reflexivity.
  - destruct (Hfail Sample.json_loads
                (Sample.answering "```json not an object ```") "prompt"%string
                "prompt"%string (fun _ => "error"%string) "sk-key"%string
                "aGk="%string "image/jpeg"%string) as [(_ & _ & _ & Hdecode) _].
    refine (proj1 (Hdecode _ _ "```json not an object ```"%string eq_refl eq_refl _ _)
              Analyzer.JSONDecodeError _);
      vm_compute; reflexivity.
Defined.

(** The cleanup does not strip "exactly one" leading fence on every
    answer: on a tagged fence directly followed by a bare one it strips
    both, so that a text which is not valid JSON once a single fence is
    removed is decoded all the same. *)
Lemma C7_counterexample :
  Analyzer.clean_response "```json```{}" = "{}"%string
  /\ Analyzer.strip_one_fence "```json```{}" = "```{}"%string
  /\ Analyzer.clean_response "```json```{}" <> Analyzer.strip_one_fence "```json```{}"
  /\ Json.loads "```{}" = None
  /\ fst (Analyzer.analyze_garment_image Sample.json_loads
            (Sample.answering "```json```{}") "prompt" (fun _ => "error"%string)
            "sk-key" "aGk=" "image/jpeg")
     = Json.JDict [].
Proof.
  split; [ reflexivity | ]. split; [ reflexivity | ].
  split; [ discriminate | ]. split; vm_compute; reflexivity.
Qed.

(** ** The button handlers *)

Module HandlerFacts.

Lemma image_file_not_document (filename : string) : image_file filename <> DATA_FILE.
Proof. discriminate. Qed.

Lemma remove_if_exists_same (path : string) (fs : gmap string string) :
  remove_if_exists path fs !! path = None.
Proof.
  unfold remove_if_exists. destruct (fs !! path) eqn:E;
    [ apply lookup_delete_eq | exact E ].
Qed.

Lemma remove_if_exists_other (path p : string) (fs : gmap string string) :
  p <> path -> remove_if_exists path fs !! p = fs !! p.
Proof.
  intros H. unfold remove_if_exists. destruct (fs !! path);
    [ apply lookup_delete_ne; congruence | reflexivity ].
Qed.

Lemma in_filter_other_id {A : Type} (key : A -> string) (k : string) (l : list A) (x : A) :
  In x (List.filter (fun y => negb (String.eqb (key y) k)) l)
  <-> In x l /\ key x <> k.
Proof.
  rewrite filter_In, negb_true_iff, String.eqb_neq. reflexivity.
Qed.

(** With unique ids, deleting by id removes the one item and keeps the
    order of the others. *)
Lemma filter_unique_id (l1 l2 : list Item) (item : Item) :
  NoDup (map item_id (l1 ++ item :: l2)) ->
  List.filter (fun i => negb (String.eqb (item_id i) (item_id item)))
              (l1 ++ item :: l2)
  = l1 ++ l2.
Proof.
  intros Hn. rewrite map_app in Hn. cbn [map] in Hn.
  apply NoDup_app in Hn as (_ & Hdisj & Hn2).
  apply NoDup_cons in Hn2 as [Hnot _].
  assert (Hkeep : forall l : list Item,
             (forall i, In i l -> item_id i <> item_id item) ->
             List.filter (fun i => negb (String.eqb (item_id i) (item_id item))) l = l).
  { induction l as [ | i l IH ]; intros H; [ reflexivity | ].
    cbn [List.filter].
    assert (E : String.eqb (item_id i) (item_id item) = false)
      by (apply String.eqb_neq, H; left; reflexivity).
    rewrite E. cbn [negb]. rewrite IH; [ reflexivity | ].
    intros j Hj. apply H. right. exact Hj. }
  rewrite List.filter_app. cbn [List.filter]. rewrite String.eqb_refl. cbn [negb].
  rewrite !Hkeep; [ reflexivity | | ].
  - intros i Hi E. apply Hnot. rewrite <- E. apply list_elem_of_In, in_map, Hi.
  - intros i Hi E. apply (Hdisj (item_id i)).
    + apply list_elem_of_In, in_map, Hi.
    + rewrite E. left.
Qed.

(** What deleting an item does: the parts of the claim the code keeps. *)
Lemma delete_item_effects (item : Item) (app : App) :
  let app' := delete_item_button item app in
  (forall i, In i (items (session_wardrobe app'))
             <-> In i (items (session_wardrobe app)) /\ item_id i <> item_id item)
  /\ outfits (session_wardrobe app') = outfits (session_wardrobe app)
  /\ (item_image_path item <> DATA_FILE -> disk app' !! item_image_path item = None)
  /\ (forall p, p <> DATA_FILE -> p <> item_image_path item ->
                disk app' !! p = disk app !! p)
  /\ load_wardrobe (disk app') = Some (session_wardrobe app')
  /\ (forall outfit_data i,
        In i (shown_items (session_wardrobe app') outfit_data)
        <-> In i (items (session_wardrobe app')) /\ In (item_id i) (outfit_items outfit_data)).
Proof.
  cbv zeta. unfold delete_item_button. cbn [session_wardrobe disk items outfits].
  split; [ intros i; apply (in_filter_other_id item_id) | ].
  split; [ reflexivity | ].
  split; [ intros H; rewrite save_other_path by exact H; apply remove_if_exists_same | ].
  split; [ intros p H1 H2; rewrite save_other_path by exact H1;
           apply remove_if_exists_other, H2 | ].
  split; [ apply load_after_save | ].
  intros outfit_data i. unfold shown_items.
  rewrite filter_In, FilterFacts.str_in_In. reflexivity.
Qed.

End HandlerFacts.



(** C9 at the failing input.  The shirt was stored with a garment photo
    and a tag photo.  Deleting it removes it from the items, keeps the
    outfit that refers to it (which then shows no item) and removes the
    garment photo, but the tag photo recorded in the item stays on
    disk. *)
Theorem C9_tag_image_left_behind :
  let app' := delete_item_button Sample.tagged_shirt Sample.shirt_session in
  item_tag_image_path Sample.tagged_shirt = Some (image_file "s_tag.jpg")
  /\ disk Sample.shirt_session !! image_file "s_tag.jpg" = Some "tag photo"%string
  /\ items (session_wardrobe app') = []
  /\ outfits (session_wardrobe app') = outfits (session_wardrobe Sample.shirt_session)
  /\ (forall outfit_data, shown_items (session_wardrobe app') outfit_data = [])
  /\ disk app' !! image_file "s.jpg" = None
  /\ disk app' !! image_file "s_tag.jpg" = Some "tag photo"%string.
Proof.
  cbv zeta. repeat split; vm_compute; reflexivity.
Qed.

(** C10. For every catalog and every saved outfit, the delete button of
    the Saved Outfits page removes exactly the outfits with that id,
    keeping the others in order, and leaves the items list as it is;
    on disk it rewrites the catalog document and nothing else, so every
    file of the image directory is untouched. *)
Theorem C10_delete_outfit (outfit_data : SavedOutfit) (app : App) :
  let app' := delete_outfit_button outfit_data app in
  outfits (session_wardrobe app')
  = List.filter (fun o => negb (String.eqb (outfit_id o) (outfit_id outfit_data)))
                (outfits (session_wardrobe app))
  /\ (forall o, In o (outfits (session_wardrobe app'))
                <-> In o (outfits (session_wardrobe app))
                    /\ outfit_id o <> outfit_id outfit_data)
  /\ items (session_wardrobe app') = items (session_wardrobe app)
  /\ (forall filename, disk app' !! image_file filename = disk app !! image_file filename)
  /\ (forall path, path <> DATA_FILE -> disk app' !! path = disk app !! path)
  /\ load_wardrobe (disk app') = Some (session_wardrobe app')
  /\ current_outfit app' = current_outfit app
  /\ screen app' = screen app.
Proof.
  cbv zeta. unfold delete_outfit_button.
  cbn [session_wardrobe disk items outfits current_outfit screen].
  split; [ reflexivity | ].
  split; [ intros o; apply (HandlerFacts.in_filter_other_id outfit_id) | ].
  split; [ reflexivity | ].
  split; [ intros filename; apply save_other_path, HandlerFacts.image_file_not_document | ].
  split; [ intros path H; apply save_other_path, H | ].
  split; [ apply load_after_save | ].
  split; reflexivity.
Qed.

Lemma C10_delete_outfit_witness :
  let app' :=
    delete_outfit_button
      (mkSavedOutfit "outfit_20240101000000" "Monday" ["s"] "2024-01-01T00:00:00")
      Sample.shirt_session in
  disk app' !! Sample.tagged_shirt.(item_image_path)
  = disk Sample.shirt_session !! Sample.tagged_shirt.(item_image_path).
Proof.
  cbv zeta.
  apply (C10_delete_outfit
           (mkSavedOutfit "outfit_20240101000000" "Monday" ["s"] "2024-01-01T00:00:00")
           Sample.shirt_session).
  discriminate.
Defined.

(** * Further properties *)

(** ** Strings as lists of characters *)

Module StrFacts.

Lemma to_list_inj (s t : string) :
  list_ascii_of_string s = list_ascii_of_string t -> s = t.
Proof.
  intros H. rewrite <- (string_of_list_ascii_of_string s),
              <- (string_of_list_ascii_of_string t), H. reflexivity.
Qed.

Lemma app_cons (c : ascii) (s t : string) : String c s +:+ t = String c (s +:+ t).
Proof. reflexivity. Qed.

Lemma to_list_app (s t : string) :
  list_ascii_of_string (s +:+ t) = list_ascii_of_string s ++ list_ascii_of_string t.
Proof.
  induction s as [ | c s IH ]; [ reflexivity | ].
  rewrite app_cons. cbn [list_ascii_of_string app]. rewrite IH. reflexivity.
Qed.

Lemma to_list_length (s : string) :
  length (list_ascii_of_string s) = String.length s.
Proof.
  induction s as [ | c s IH ]; [ reflexivity | ].
  cbn [list_ascii_of_string length String.length]. rewrite IH. reflexivity.
Qed.

Lemma to_list_substring (s : string) :
  forall n m,
    list_ascii_of_string (String.substring n m s)
    = firstn m (skipn n (list_ascii_of_string s)).
Proof.
  induction s as [ | c s IH ]; intros n m.
  - destruct n, m; reflexivity.
  - destruct n as [ | n ].
    + destruct m as [ | m ]; [ reflexivity | ].
      cbn [String.substring list_ascii_of_string skipn firstn].
      rewrite IH. reflexivity.
    + cbn [String.substring list_ascii_of_string skipn]. apply IH.
Qed.

Lemma length_app (s t : string) :
  String.length (s +:+ t) = String.length s + String.length t.
Proof.
  rewrite <- !to_list_length, to_list_app. apply List.length_app.
Qed.

Lemma app_assoc (s t u : string) : (s +:+ t) +:+ u = s +:+ (t +:+ u).
Proof.
  induction s as [ | c s IH ]; [ reflexivity | ].
  rewrite !app_cons, IH. reflexivity.
Qed.

Lemma app_nil_r (s : string) : s +:+ EmptyString = s.
Proof.
  induction s as [ | c s IH ]; [ reflexivity | ].
  rewrite !app_cons, IH. reflexivity.
Qed.

(** [s.startswith(p)] holds exactly when [s] is [p] followed by
    something. *)
Lemma startswith_app (p t : string) : Str.startswith (p +:+ t) p = true.
Proof.
  unfold Str.startswith. induction p as [ | c p IH ].
  - destruct t; reflexivity.
  - rewrite app_cons. cbn [String.prefix].
    destruct (ascii_dec c c) as [ _ | H ]; [ exact IH | contradiction ].
Qed.

Lemma startswith_inv (s p : string) :
  Str.startswith s p = true -> exists t, s = p +:+ t.
Proof.
  unfold Str.startswith. revert s. induction p as [ | c p IH ]; intros s H.
  - exists s. reflexivity.
  - destruct s as [ | d s ]; [ discriminate H | ].
    cbn [String.prefix] in H. destruct (ascii_dec c d) as [ <- | ];
      [ | discriminate H ].
    destruct (IH s H) as [t ->]. exists t. reflexivity.
Qed.

Lemma from_app (p t : string) : Str.from (String.length p) (p +:+ t) = t.
Proof.
  unfold Str.from. apply to_list_inj.
  rewrite to_list_substring, length_app, to_list_app.
  rewrite List.skipn_app, <- to_list_length, List.skipn_all, Nat.sub_diag. cbn [app skipn].
  replace (length (list_ascii_of_string p) + String.length t
           - length (list_ascii_of_string p)) with (String.length t) by lia.
  rewrite <- to_list_length. apply List.firstn_all.
Qed.

Lemma endswith_app (s p : string) : Str.endswith (s +:+ p) p = true.
Proof.
  unfold Str.endswith. rewrite length_app.
  apply andb_true_iff. split; [ apply Nat.leb_le; lia | ].
  apply String.eqb_eq, to_list_inj.
  rewrite to_list_substring, to_list_app.
  replace (String.length s + String.length p - String.length p)
    with (length (list_ascii_of_string s)) by (rewrite to_list_length; lia).
  rewrite List.skipn_app, List.skipn_all, Nat.sub_diag. cbn [app skipn].
  rewrite <- to_list_length. apply List.firstn_all.
Qed.

Lemma upto_last_app (s p : string) :
  Str.upto_last (String.length p) (s +:+ p) = s.
Proof.
  unfold Str.upto_last. apply to_list_inj.
  rewrite to_list_substring, to_list_app, length_app, List.skipn_O.
  replace (String.length s + String.length p - String.length p)
    with (length (list_ascii_of_string s)) by (rewrite to_list_length; lia).
  rewrite List.firstn_app, List.firstn_all, Nat.sub_diag. cbn [firstn].
  apply List.app_nil_r.
Qed.

End StrFacts.

(** ** Decoded documents *)

Module DecoderFacts.
Import Json.

Lemma nodupb_NoDup (l : list string) : nodupb l = true <-> NoDup l.
Proof.
  induction l as [ | k l IH ]; cbn [nodupb].
  - split; [ intros _; apply NoDup_nil_2 | reflexivity ].
  - rewrite andb_true_iff, negb_true_iff, NoDup_cons, IH, list_elem_of_In.
    rewrite <- JsonFacts.existsb_eqb_In.
    destruct (existsb (String.eqb k) l); intuition congruence.
Qed.

Lemma distinct_keys_set (k : string) (v : json) (d : list (string * json)) :
  distinct_keys (JDict d) = true -> distinct_keys v = true ->
  distinct_keys (JDict (PyDict.set k v d)) = true.
Proof.
  cbn [distinct_keys]. rewrite !andb_true_iff. intros [Hn Hv] Hd. split.
  - apply nodupb_NoDup. apply (PyDictFacts.nodup_keys_set k v d).
    apply nodupb_NoDup, Hn.
  - clear Hn. induction d as [ | [k' v'] d IH ]; cbn [PyDict.set forallb snd] in *.
    + rewrite Hd. reflexivity.
    + apply andb_true_iff in Hv as [H1 H2].
      destruct (String.eqb k k'); cbn [forallb snd].
      * rewrite Hd, H2. reflexivity.
      * rewrite H1, (IH H2). reflexivity.
Qed.

Lemma distinct_keys_of_pairs (ps : list (string * json)) :
  forallb (fun kv => distinct_keys (snd kv)) ps = true ->
  distinct_keys (JDict (PyDict.of_pairs ps)) = true.
Proof.
  unfold PyDict.of_pairs.
  assert (H : forall acc,
             distinct_keys (JDict acc) = true ->
             forallb (fun kv => distinct_keys (snd kv)) ps = true ->
             distinct_keys
               (JDict (fold_left (fun d kv => PyDict.set (fst kv) (snd kv) d) ps acc))
             = true).
  { induction ps as [ | [k v] ps IH ]; intros acc Ha Hp; [ exact Ha | ].
    cbn [fold_left fst snd forallb] in *. apply andb_true_iff in Hp as [Hv Hp].
    apply IH; [ apply distinct_keys_set; assumption | exact Hp ]. }
  apply H. reflexivity.
Qed.

Lemma scan_number_int (s r : text) (v : json) :
  scan_number s = Some (v, r) -> distinct_keys v = true.
Proof.
  unfold scan_number. destruct s as [ | c s ]; [ discriminate | ].
  destruct (Ascii.eqb c "-").
  - destruct (scan_uint s) as [ [d r'] | ]; [ | discriminate ].
    intros H. injection H as <- _. reflexivity.
  - destruct (scan_uint (c :: s)) as [ [d r'] | ]; [ | discriminate ].
    intros H. injection H as <- _. reflexivity.
Qed.

Ltac split_on H :=
  repeat match type of H with
         | context [match ?x with _ => _ end] =>
             let E := fresh "E" in destruct x eqn:E; try discriminate H
         end.

(** Whatever the decoder returns is a Python object: no dict in it has a
    key twice. *)
Lemma scan_distinct (fuel : nat) :
  (forall s v r, scan_once fuel s = Some (v, r) -> distinct_keys v = true)
  /\ (forall s vs r, scan_items fuel s = Some (vs, r) ->
        forallb distinct_keys vs = true)
  /\ (forall s ps r, scan_pairs fuel s = Some (ps, r) ->
        forallb (fun kv => distinct_keys (snd kv)) ps = true).
Proof.
  induction fuel as [ | fuel (IHv & IHi & IHp) ];
    [ repeat split; intros; discriminate | ].
  split; [ | split ].
  - intros s v r H. cbn [scan_once] in H.
    destruct s as [ | c s ]; [ discriminate | ].
    destruct (Ascii.eqb c quote).
    { split_on H. injection H as <- _. reflexivity. }
    destruct (Ascii.eqb c "{").
    { destruct (skip_ws s) as [ | c' r' ]; [ discriminate | ].
      destruct (Ascii.eqb c' "}"); [ injection H as <- _; reflexivity | ].
      destruct (scan_pairs fuel (c' :: r')) as [ [ps r''] | ] eqn:E; [ | discriminate ].
      injection H as <- _. apply distinct_keys_of_pairs, (IHp _ _ _ E). }
    destruct (Ascii.eqb c "[").
    { destruct (skip_ws s) as [ | c' r' ]; [ discriminate | ].
      destruct (Ascii.eqb c' "]"); [ injection H as <- _; reflexivity | ].
      destruct (scan_items fuel (c' :: r')) as [ [vs r''] | ] eqn:E; [ | discriminate ].
      injection H as <- _. exact (IHi _ _ _ E). }
    destruct (Ascii.eqb c "n").
    { split_on H. injection H as <- _. reflexivity. }
    destruct (Ascii.eqb c "t").
    { split_on H. injection H as <- _. reflexivity. }
    destruct (Ascii.eqb c "f").
    { split_on H. injection H as <- _. reflexivity. }
    exact (scan_number_int _ _ _ H).
  - intros s vs r H. cbn [scan_items] in H.
    destruct (scan_once fuel s) as [ [v r0] | ] eqn:Ev; [ | discriminate ].
    destruct (skip_ws r0) as [ | c r' ]; [ discriminate | ].
    destruct (Ascii.eqb c "]").
    { injection H as <- _. cbn [forallb]. rewrite (IHv _ _ _ Ev). reflexivity. }
    destruct (Ascii.eqb c ","); [ | discriminate ].
    destruct (scan_items fuel (skip_ws r')) as [ [vs' r''] | ] eqn:Ei; [ | discriminate ].
    injection H as <- _. cbn [forallb]. rewrite (IHv _ _ _ Ev), (IHi _ _ _ Ei). reflexivity.
  - intros s ps r H. cbn [scan_pairs] in H.
    destruct s as [ | q s ]; [ discriminate | ].
    destruct (Ascii.eqb q quote); [ | discriminate ].
    destruct (scanstring s) as [ [k r1] | ]; [ | discriminate ].
    destruct (skip_ws r1) as [ | c1 r2 ]; [ discriminate | ].
    destruct (Ascii.eqb c1 ":"); [ | discriminate ].
    destruct (scan_once fuel (skip_ws r2)) as [ [v r3] | ] eqn:Ev; [ | discriminate ].
    destruct (skip_ws r3) as [ | c3 r4 ]; [ discriminate | ].
    destruct (Ascii.eqb c3 "}").
    { injection H as <- _. cbn [forallb snd]. rewrite (IHv _ _ _ Ev). reflexivity. }
    destruct (Ascii.eqb c3 ","); [ | discriminate ].
    destruct (scan_pairs fuel (skip_ws r4)) as [ [ps' r5] | ] eqn:Ep; [ | discriminate ].
    injection H as <- _. cbn [forallb snd].
    rewrite (IHv _ _ _ Ev), (IHp _ _ _ Ep). reflexivity.
Qed.

Lemma loads_distinct (s : string) (v : json) :
  loads s = Some v -> distinct_keys v = true.
Proof.
  unfold loads. cbv zeta.
  destruct (scan_once _ _) as [ [v' r] | ] eqn:E; [ | discriminate ].
  destruct (skip_ws r); [ | discriminate ].
  intros H. injection H as <-. exact (proj1 (scan_distinct _) _ _ _ E).
Qed.

(** A decoded document printed again decodes to itself. *)
Lemma loads_stable (s : string) (v : json) :
  loads s = Some v -> loads (dumps v) = Some v.
Proof. intros H. apply JsonFacts.loads_dumps, (loads_distinct s), H. Qed.

End DecoderFacts.

(** ** Configuration and the API key *)

Module ConfigFacts.
Import Json Config.

Lemma load_after_save_config (config : list (string * json)) (fs : gmap string string) :
  distinct_keys (JDict config) = true ->
  load_config (save_config config fs) = Some config.
Proof.
  intros H. unfold load_config, save_config. rewrite lookup_insert_eq.
  rewrite JsonFacts.loads_dumps by exact H. reflexivity.
Qed.


Lemma needs_setup_set (key : string) (config : list (string * json)) :
  key <> EmptyString ->
  needs_setup (PyDict.set "api_key" (JStr key) config) = false.
Proof.
  intros H. unfold needs_setup. rewrite PyDictFacts.get_set_eq. cbn [truthy].
  apply String.eqb_neq in H. rewrite H. reflexivity.
Qed.

Lemma startswith_nonempty (s p : string) :
  p <> EmptyString -> Str.startswith s p = true -> s <> EmptyString.
Proof.
  intros Hp H ->. destruct p; [ congruence | discriminate H ].
Qed.

End ConfigFacts.



(** X2. The two stores are independent: saving the catalog never changes
    what [load_config] returns, and saving the configuration never
    changes what [load_wardrobe] returns. *)
Theorem X2_stores_independent
    (data : Wardrobe) (config : list (string * Json.json)) (fs : gmap string string) :
  Config.load_config (save_wardrobe data fs) = Config.load_config fs
  /\ load_wardrobe (Config.save_config config fs) = load_wardrobe fs.
Proof.
  unfold Config.load_config, load_wardrobe, save_wardrobe, Config.save_config.
  rewrite !lookup_insert_ne by discriminate. split; reflexivity.
Qed.


(** X4. The Setup form and the Settings update form write the key only
    when it starts with "sk-" and the service accepts it: then the key is
    stored under "api_key", the configuration file holds the new
    configuration and the Setup gate is open.  In every other case the
    configuration and the disk are left as they were and an error is
    shown, except that the update form ignores an empty key silently. *)
Theorem X4_key_forms
    (httpx_post : Analyzer.request -> Analyzer.result Analyzer.response)
    (key : string) (f : Config.KeyForm) :
  let accepted := Str.startswith key "sk-"
                  && Config.validate_openai_key httpx_post key in
  let stored := PyDict.set "api_key" (Json.JStr key) (Config.form_config f) in
  let setup := Config.submit_setup httpx_post key f in
  let update := Config.submit_update httpx_post key f in
  (accepted = true ->
     Config.form_config setup = stored /\ Config.form_config update = stored
     /\ Config.form_disk setup = Config.save_config stored (Config.form_disk f)
     /\ Config.form_disk update = Config.save_config stored (Config.form_disk f)
     /\ Config.needs_setup stored = false
     /\ (Json.distinct_keys (Json.JDict (Config.form_config f)) = true ->
         Config.load_config (Config.form_disk setup) = Some stored))
  /\ (accepted = false ->
      Config.form_config setup = Config.form_config f
      /\ Config.form_disk setup = Config.form_disk f
      /\ Config.form_config update = Config.form_config f
      /\ Config.form_disk update = Config.form_disk f
      /\ (exists text, Config.form_screen setup
                       = Config.form_screen f ++ [st_error text])
      /\ (key = EmptyString -> update = f)
      /\ (key <> EmptyString ->
          exists text, Config.form_screen update
                       = Config.form_screen f ++ [st_error text])).
Proof.
  cbv zeta. unfold Config.submit_setup, Config.submit_update. split.
  - intros H. apply andb_true_iff in H as [Hs Hv].
    assert (Hk : key <> EmptyString)
      by (apply (ConfigFacts.startswith_nonempty key "sk-"); [ discriminate | exact Hs ]).
    destruct key as [ | c key ]; [ congruence | ].
    rewrite Hs, Hv. cbn [negb Config.store_key Config.form_config Config.form_disk].
    repeat split.
    + apply ConfigFacts.needs_setup_set, Hk.
    + intros Hd. apply ConfigFacts.load_after_save_config.
      apply DecoderFacts.distinct_keys_set; [ exact Hd | reflexivity ].
  - intros H. destruct key as [ | c key ].
    + cbn [Config.show Config.form_config Config.form_disk Config.form_screen].
      repeat split; try (eexists; reflexivity). congruence.
    + destruct (Str.startswith (String c key) "sk-"); cbn [negb andb] in *.
      * rewrite H.
        cbn [Config.show Config.form_config Config.form_disk Config.form_screen].
        repeat split; try (eexists; reflexivity). discriminate.
      * cbn [Config.show Config.form_config Config.form_disk Config.form_screen].
        repeat split; try (eexists; reflexivity). discriminate.
Qed.

Lemma X4_key_forms_witness :
  Config.load_config
    (Config.form_disk
       (Config.submit_setup (Sample.answering "") "sk-abc" (Config.mkKeyForm [] ∅ [])))
  = Some [("api_key", Json.JStr "sk-abc")]
  /\ Config.form_disk
       (Config.submit_update (fun _ => inl Analyzer.TransportError) "sk-abc"
          (Config.mkKeyForm [] ∅ []))
     = ∅.
Proof.
  split.
  - destruct (X4_key_forms (Sample.answering "") "sk-abc" (Config.mkKeyForm [] ∅ []))
      as [Haccept _].
    destruct (Haccept eq_refl) as (_ & _ & _ & _ & _ & Hload).
    apply Hload. reflexivity.
  - destruct (X4_key_forms (fun _ => inl Analyzer.TransportError) "sk-abc"
                (Config.mkKeyForm [] ∅ [])) as [_ Hreject].
    destruct (Hreject eq_refl) as (_ & _ & _ & Hdisk & _). exact Hdisk.
Defined.

Module MaskFacts.
Import Config.

Lemma upto_list (n : nat) (s : string) :
  list_ascii_of_string (PyStr.upto n s) = firstn n (list_ascii_of_string s).
Proof. unfold PyStr.upto. rewrite StrFacts.to_list_substring, List.skipn_O. reflexivity. Qed.

Lemma last_n_list (n : nat) (s : string) :
  list_ascii_of_string (PyStr.last_n n s)
  = skipn (String.length s - n) (list_ascii_of_string s).
Proof.
  unfold PyStr.last_n. rewrite StrFacts.to_list_substring.
  apply List.firstn_all2. rewrite List.length_skipn, StrFacts.to_list_length. lia.
Qed.

Lemma masked_list (key : string) :
  list_ascii_of_string (masked_key key)
  = firstn 7 (list_ascii_of_string key) ++ list_ascii_of_string "..."
    ++ skipn (String.length key - 4) (list_ascii_of_string key).
Proof.
  unfold masked_key. rewrite !StrFacts.to_list_app, upto_list, last_n_list.
  reflexivity.
Qed.

End MaskFacts.

(** X5. The masked key shown on the Settings page has
    [min 7 n + 3 + min 4 n] characters for a key of [n] characters.  With
    11 characters or more, the first 7 and the last 4 are shown and the
    [n - 11] characters between them are not.  With 11 or fewer nothing is
    hidden: the key is the displayed prefix followed by a tail of the
    displayed suffix; with 4 or fewer the whole key is shown twice. *)
Theorem X5_masked_key (key : string) :
  let n := String.length key in
  String.length (Config.masked_key key) = Nat.min 7 n + 3 + Nat.min 4 n
  /\ (11 <= n ->
      exists hidden,
        key = PyStr.upto 7 key +:+ hidden +:+ PyStr.last_n 4 key
        /\ String.length hidden = n - 11
        /\ String.length (PyStr.upto 7 key) = 7
        /\ String.length (PyStr.last_n 4 key) = 4)
  /\ (n <= 11 ->
      exists overlap tail,
        PyStr.last_n 4 key = overlap +:+ tail
        /\ key = PyStr.upto 7 key +:+ tail)
  /\ (n <= 4 -> Config.masked_key key = key +:+ "..." +:+ key).
Proof.
  cbv zeta.
  pose proof (StrFacts.to_list_length key) as Hlen.
  set (l := list_ascii_of_string key) in *.
  split; [ | split; [ | split ] ].
  - rewrite <- StrFacts.to_list_length, MaskFacts.masked_list. fold l.
    rewrite !List.length_app, List.length_firstn, List.length_skipn.
    cbn [length list_ascii_of_string]. lia.
  - intros Hn. exists (String.substring 7 (String.length key - 11) key).
    split; [ | split; [ | split ] ].
    + apply StrFacts.to_list_inj.
      rewrite !StrFacts.to_list_app, MaskFacts.upto_list, MaskFacts.last_n_list,
        StrFacts.to_list_substring. fold l.
      rewrite <- (List.firstn_skipn 7 l) at 1. f_equal.
      rewrite <- (List.firstn_skipn (String.length key - 11) (skipn 7 l)) at 1.
      f_equal. rewrite List.skipn_skipn. f_equal. lia.
    + rewrite <- StrFacts.to_list_length, StrFacts.to_list_substring. fold l.
      rewrite List.length_firstn, List.length_skipn. lia.
    + rewrite <- StrFacts.to_list_length, MaskFacts.upto_list. fold l.
      rewrite List.length_firstn. lia.
    + rewrite <- StrFacts.to_list_length, MaskFacts.last_n_list. fold l.
      rewrite List.length_skipn. lia.
  - intros Hn.
    exists (string_of_list_ascii
              (firstn (7 - (String.length key - 4)) (skipn (String.length key - 4) l))),
           (string_of_list_ascii (skipn 7 l)).
    split; apply StrFacts.to_list_inj;
      rewrite StrFacts.to_list_app, ?list_ascii_of_string_of_list_ascii.
    + rewrite MaskFacts.last_n_list. fold l.
      rewrite <- (List.firstn_skipn (7 - (String.length key - 4))
                    (skipn (String.length key - 4) l)) at 1.
      f_equal. rewrite List.skipn_skipn. f_equal. lia.
    + rewrite MaskFacts.upto_list. fold l. symmetry. apply List.firstn_skipn.
  - intros Hn. apply StrFacts.to_list_inj.
    rewrite MaskFacts.masked_list, !StrFacts.to_list_app. fold l.
    rewrite List.firstn_all2 by lia.
    replace (String.length key - 4) with 0 by lia. reflexivity.
Qed.

Lemma X5_masked_key_witness :
  Config.masked_key "sk-1" = "sk-1...sk-1"%string
  /\ exists hidden,
       "sk-proj-0123456789abcd"%string
       = PyStr.upto 7 "sk-proj-0123456789abcd" +:+ hidden
         +:+ PyStr.last_n 4 "sk-proj-0123456789abcd"
       /\ String.length hidden = 11.
Proof.
  split.
  - apply (X5_masked_key "sk-1"). cbn. lia.
  - destruct (X5_masked_key "sk-proj-0123456789abcd") as (_ & Hlong & _).
    destruct Hlong as (hidden & Hkey & Hlen & _); [ cbn; lia | ].
    exists hidden. split; [ exact Hkey | exact Hlen ].
Defined.

(** ** [split] and [join] *)

Module SplitFacts.

Lemma split_not_nil (sep : ascii) (s : string) : PyStr.split sep s <> [].
Proof.
  induction s as [ | c s IH ]; [ discriminate | ].
  cbn [PyStr.split]. destruct (Ascii.eqb c sep); [ discriminate | ].
  destruct (PyStr.split sep s); discriminate.
Qed.

(** No piece contains the separator. *)
Lemma split_pieces (sep : ascii) (s : string) :
  Forall (fun piece => PyStr.contains sep piece = false) (PyStr.split sep s).
Proof.
  induction s as [ | c s IH ]; [ repeat constructor | ].
  cbn [PyStr.split]. destruct (Ascii.eqb c sep) eqn:E.
  - constructor; [ reflexivity | exact IH ].
  - destruct (PyStr.split sep s) as [ | piece pieces ].
    + repeat constructor. cbn [PyStr.contains]. rewrite E. reflexivity.
    + apply Forall_cons_iff in IH as [Hp Hps].
      apply Forall_cons_iff. split; [ | exact Hps ].
      cbn [PyStr.contains]. rewrite E, Hp. reflexivity.
Qed.

(** Joining the pieces gives the string back. *)
Lemma join_split (sep : ascii) (s : string) :
  String.concat (String sep EmptyString) (PyStr.split sep s) = s.
Proof.
  induction s as [ | c s IH ]; [ reflexivity | ].
  cbn [PyStr.split]. destruct (Ascii.eqb_spec c sep) as [ -> | Hne ].
  - pose proof (split_not_nil sep s) as Hn.
    destruct (PyStr.split sep s) as [ | piece pieces ]; [ congruence | ].
    cbn [String.concat] in *. rewrite IH. reflexivity.
  - pose proof (split_not_nil sep s) as Hn.
    destruct (PyStr.split sep s) as [ | piece pieces ]; [ congruence | ].
    destruct pieces as [ | piece' pieces ]; cbn [String.concat] in *;
      rewrite <- IH; reflexivity.
Qed.

Lemma split_no_sep (sep : ascii) (s : string) :
  PyStr.contains sep s = false -> PyStr.split sep s = [s].
Proof.
  induction s as [ | c s IH ]; [ reflexivity | ].
  cbn [PyStr.contains PyStr.split]. intros H.
  apply orb_false_iff in H as [Hc Hs]. rewrite Hc, (IH Hs). reflexivity.
Qed.

Lemma split_app (sep : ascii) (s t : string) :
  PyStr.contains sep s = false ->
  PyStr.split sep (s +:+ String sep t) = s :: PyStr.split sep t.
Proof.
  induction s as [ | c s IH ]; intros H.
  - change (EmptyString +:+ String sep t) with (String sep t).
    cbn [PyStr.split]. rewrite Ascii.eqb_refl. reflexivity.
  - cbn [PyStr.contains] in H. apply orb_false_iff in H as [Hc Hs].
    rewrite StrFacts.app_cons. cbn [PyStr.split]. rewrite Hc, (IH Hs). reflexivity.
Qed.

(** Splitting a join gives the pieces back, when there is at least one
    and none contains the separator. *)
Lemma split_join (sep : ascii) (l : list string) :
  l <> [] ->
  Forall (fun piece => PyStr.contains sep piece = false) l ->
  PyStr.split sep (String.concat (String sep EmptyString) l) = l.
Proof.
  induction l as [ | x l IH ]; [ congruence | ].
  intros _ H. apply Forall_cons_iff in H as [Hx Hl].
  destruct l as [ | y l ]; [ apply split_no_sep, Hx | ].
  change (String.concat (String sep EmptyString) (x :: y :: l))
    with (x +:+ String sep (String.concat (String sep EmptyString) (y :: l))).
  rewrite split_app by exact Hx. rewrite IH; [ reflexivity | discriminate | exact Hl ].
Qed.

(** A file name is its extension, or a stem, a dot and its extension; the
    extension has no dot. *)
Lemma extension_spec (name : string) :
  PyStr.contains "."%char (extension_of name) = false
  /\ (PyStr.contains "."%char name = false -> extension_of name = name)
  /\ (PyStr.contains "."%char name = true ->
      exists stem, name = stem +:+ "." +:+ extension_of name).
Proof.
  unfold extension_of.
  pose proof (split_pieces "."%char name) as Hp.
  pose proof (join_split "."%char name) as Hj.
  pose proof (split_not_nil "."%char name) as Hn.
  split; [ | split ].
  - destruct (exists_last Hn) as (init & ext & E). rewrite E in *.
    rewrite last_last. apply Forall_app in Hp as [_ Hp].
    apply Forall_cons_iff in Hp as [Hp _]. exact Hp.
  - intros H. rewrite split_no_sep by exact H. reflexivity.
  - intros H. destruct (exists_last Hn) as (init & ext & E). rewrite E in *.
    rewrite last_last. apply Forall_app in Hp as [_ Hp].
    apply Forall_cons_iff in Hp as [Hext _]. clear E Hn.
    destruct init as [ | piece init ].
    + cbn [app String.concat] in Hj. subst ext. congruence.
    + exists (String.concat "." (piece :: init)). rewrite <- Hj at 1.
      clear Hj H. revert piece. induction init as [ | q init IH ]; intros piece.
      * reflexivity.
      * change (String.concat "." ((piece :: q :: init) ++ [ext]))
          with (piece +:+ "." +:+ String.concat "." ((q :: init) ++ [ext])).
        rewrite IH.
        change (String.concat "." (piece :: q :: init))
          with (piece +:+ "." +:+ String.concat "." (q :: init)).
        rewrite !StrFacts.app_assoc. reflexivity.
Qed.

End SplitFacts.

(** ** Image files *)

Module ImageFacts.

Lemma image_file_eq (filename : string) :
  image_file filename = "clothing_images/" +:+ filename.
Proof. reflexivity. Qed.

Lemma image_file_inj (a b : string) : image_file a = image_file b -> a = b.
Proof.
  rewrite !image_file_eq. intros H. exact (String.app_inj "clothing_images/" _ _ H).
Qed.


Lemma prefix_empty (s : string) : String.prefix EmptyString s = true.
Proof. destruct s; reflexivity. Qed.

Lemma filename_relative (id rest : string) :
  Str.startswith (id +:+ "." +:+ rest) "/" = Str.startswith id "/".
Proof.
  destruct id as [ | c id ]; [ reflexivity | ].
  rewrite StrFacts.app_cons. unfold Str.startswith. cbn [String.prefix].
  destruct (ascii_dec "/" c); [ | reflexivity ].
  rewrite !prefix_empty. reflexivity.
Qed.

Lemma save_image_path (file : UploadedFile) (item_id : string) (fs : gmap string string) :
  Str.startswith item_id "/" = false ->
  fst (save_image file item_id fs)
  = image_file (item_id +:+ "." +:+ extension_of (upload_name file)).
Proof.
  intros H. unfold save_image, path_join. cbv zeta. cbn [fst].
  rewrite filename_relative, H. reflexivity.
Qed.



End ImageFacts.



(** ** The care instructions through the form *)

Module CareFacts.
Import Json Prefill.

Lemma concat_empty (c : ascii) (sep : string) (l : list string) :
  String.concat (String c sep) l = EmptyString -> l = [] \/ l = [EmptyString].
Proof.
  destruct l as [ | x [ | y l ] ]; cbn [String.concat]; intros H.
  - left. reflexivity.
  - right. rewrite H. reflexivity.
  - exfalso. destruct x; discriminate H.
Qed.

Lemma no_newline_pieces (lines : list string) :
  Forall (fun line => PyStr.contains "010"%char line = false) lines ->
  lines <> [EmptyString] ->
  care_list (String.concat newline_string lines) = lines.
Proof.
  intros Hf Hne. unfold care_list.
  destruct (String.concat newline_string lines) as [ | c s ] eqn:E.
  - apply concat_empty in E as [ -> | -> ]; [ reflexivity | congruence ].
  - rewrite <- E. apply SplitFacts.split_join; [ | exact Hf ].
    intros ->. discriminate E.
Qed.

End CareFacts.

(** X7. Care instructions read from the tag survive the form: when the
    tag analysis gives a list of strings, none containing a line break,
    the text area is pre-filled with their join, and submitting that text
    unchanged stores the same list again.  The one exception is the list
    holding a single empty string, which is stored as the empty list. *)
Theorem X7_care_roundtrip (tag : list (string * Json.json)) (lines : list string) :
  PyDict.get "care_instructions" tag = Some (Json.JList (map Json.JStr lines)) ->
  Forall (fun line => PyStr.contains "010"%char line = false) lines ->
  exists care,
    Prefill.care_text tag = Some care
    /\ care = String.concat Prefill.newline_string lines
    /\ (lines <> [EmptyString] -> Prefill.care_list care = lines)
    /\ (lines = [EmptyString] -> Prefill.care_list care = []).
Proof.
  intros Hget Hf. exists (String.concat Prefill.newline_string lines).
  unfold Prefill.care_text. rewrite Hget.
  split; [ | split; [ reflexivity | split ] ].
  - destruct lines as [ | x lines ]; [ reflexivity | ].
    cbn [map Config.truthy Prefill.iterate].
    change (Json.JStr x :: map Json.JStr lines) with (map Json.JStr (x :: lines)).
    rewrite (DocumentFacts.all_of_map Document.as_str Json.JStr) by reflexivity.
    reflexivity.
  - apply CareFacts.no_newline_pieces, Hf.
  - intros ->. reflexivity.
Qed.

Lemma X7_care_roundtrip_witness :
  exists care,
    Prefill.care_text
      [("brand", Json.JNull);
       ("care_instructions",
        Json.JList (map Json.JStr ["Machine wash cold"; "Tumble dry low"]))]
    = Some care
    /\ Prefill.care_list care = ["Machine wash cold"; "Tumble dry low"]%string.
Proof.
  destruct (X7_care_roundtrip
              [("brand", Json.JNull);
               ("care_instructions",
                Json.JList (map Json.JStr ["Machine wash cold"; "Tumble dry low"]))]
              ["Machine wash cold"; "Tumble dry low"]%string)
    as (care & Htext & _ & Hlist & _).
  - reflexivity.
  - repeat constructor.
  - exists care. split; [ exact Htext | apply Hlist; discriminate ].
Defined.

(** ** What the form is pre-filled with *)

Module PrefillFacts.
Import Json Prefill.

Lemma in_members (enum : list string) (l : list json) (s : string) :
  In s (members enum l) <-> In (JStr s) l /\ In s enum.
Proof.
  induction l as [ | v l IH ]; [ cbn; tauto | ].
  assert (Hskip : (forall t, v <> JStr t) ->
                  members enum (v :: l) = members enum l).
  { intros H. destruct v; try reflexivity. exfalso. exact (H s0 eq_refl). }
  destruct v as [ | b | n | t | l0 | d ];
    try (rewrite Hskip by discriminate; rewrite IH; cbn [In];
         intuition discriminate).
  cbn [members In]. destruct (str_in t enum) eqn:E.
  - apply FilterFacts.str_in_In in E. cbn [In]. rewrite IH. split.
    + intros [ -> | H ]; [ split; [ left; reflexivity | exact E ] | ].
      split; [ right; apply H | apply H ].
    + intros [ [ H | H ] Hen ]; [ left; congruence | right; split; assumption ].
  - assert (Hn : ~ In t enum)
      by (intros H; apply FilterFacts.str_in_In in H; congruence).
    rewrite IH. split.
    + intros [H Hen]. split; [ right; exact H | exact Hen ].
    + intros [ [ H | H ] Hen ]; [ | split; assumption ].
      injection H as ->. contradiction.
Qed.

Lemma index_of_lt (s : string) (enum : list string) :
  In s enum -> index_of s enum < length enum.
Proof.
  induction enum as [ | e enum IH ]; [ intros [] | ].
  cbn [index_of length]. intros H. destruct (String.eqb_spec s e); [ lia | ].
  destruct H as [ -> | H ]; [ congruence | ]. specialize (IH H). lia.
Qed.

Lemma nth_index_of (s : string) (enum : list string) (d : string) :
  In s enum -> nth (index_of s enum) enum d = s.
Proof.
  induction enum as [ | e enum IH ]; [ intros [] | ].
  cbn [index_of]. intros H. destruct (String.eqb_spec s e) as [ -> | Hne ];
    [ reflexivity | ].
  destruct H as [ -> | H ]; [ congruence | ]. exact (IH H).
Qed.

End PrefillFacts.

(** X8. The multiselect defaults of the add-item form (style, occasions,
    seasons) are sanitised: whenever [valid_choices] returns, the list is
    not empty and holds only members of the enumeration, namely the
    suggested strings that are members, in the order suggested, or the
    fallback when there is none or the key is missing.  It raises exactly
    when the analysis holds null, a boolean or a number under the key. *)
Theorem X8_prefill_choices
    (enum fallback : list string) (key : string) (ai : list (string * Json.json)) :
  fallback <> [] -> (forall s, In s fallback -> In s enum) ->
  (forall chosen,
     Prefill.valid_choices enum fallback key ai = Some chosen ->
     chosen <> [] /\ (forall s, In s chosen -> In s enum))
  /\ (forall l,
        PyDict.get key ai = Some (Json.JList l) ->
        exists chosen,
          Prefill.valid_choices enum fallback key ai = Some chosen
          /\ ((exists s, In (Json.JStr s) l /\ In s enum) ->
              chosen = Prefill.members enum l
              /\ forall s, In s chosen <-> In (Json.JStr s) l /\ In s enum)
          /\ ((forall s, In (Json.JStr s) l -> ~ In s enum) -> chosen = fallback))
  /\ (PyDict.get key ai = None ->
      Prefill.valid_choices enum fallback key ai = Some fallback)
  /\ (Prefill.valid_choices enum fallback key ai = None
      <-> exists v, PyDict.get key ai = Some v
                    /\ (v = Json.JNull \/ (exists b, v = Json.JBool b)
                        \/ exists n, v = Json.JInt n)).
Proof.
  intros Hfb Hsub.
  assert (Hmem : forall l,
             match Prefill.members enum l with
             | [] => Some fallback
             | s :: valid => Some (s :: valid)
             end
             = Some (match Prefill.members enum l with
                     | [] => fallback
                     | s :: valid => s :: valid
                     end)).
  { intros l. destruct (Prefill.members enum l); reflexivity. }
  assert (Hok : forall l chosen,
             match Prefill.members enum l with
             | [] => Some fallback
             | s :: valid => Some (s :: valid)
             end = Some chosen ->
             chosen <> [] /\ (forall s, In s chosen -> In s enum)).
  { intros l chosen H. destruct (Prefill.members enum l) as [ | s valid ] eqn:E;
      injection H as <-.
    - split; [ exact Hfb | exact Hsub ].
    - split; [ discriminate | ]. intros t Ht. rewrite <- E in Ht.
      apply PrefillFacts.in_members in Ht. tauto. }
  unfold Prefill.valid_choices. cbv zeta.
  split; [ | split; [ | split ] ].
  - intros chosen H. destruct (Prefill.iterate _) as [l | ]; [ | discriminate ].
    exact (Hok l chosen H).
  - intros l Hget. rewrite Hget. cbn [Prefill.iterate]. rewrite Hmem.
    eexists. split; [ reflexivity | ]. split.
    + intros (s & Hin & Hen).
      assert (Hs : In s (Prefill.members enum l))
        by (apply PrefillFacts.in_members; tauto).
      destruct (Prefill.members enum l) as [ | t valid ] eqn:E; [ destruct Hs | ].
      split; [ reflexivity | ]. intros u. rewrite <- E.
      apply PrefillFacts.in_members.
    + intros Hnone. destruct (Prefill.members enum l) as [ | t valid ] eqn:E;
        [ reflexivity | ].
      exfalso. assert (Ht : In t (Prefill.members enum l)) by (rewrite E; left; reflexivity).
      apply PrefillFacts.in_members in Ht as [H1 H2]. exact (Hnone t H1 H2).
  - intros Hget. rewrite Hget. cbn [Prefill.iterate].
    assert (E : Prefill.members enum (map Json.JStr fallback) = fallback).
    { clear - Hsub. induction fallback as [ | s fb IH ]; [ reflexivity | ].
      cbn [map Prefill.members].
      assert (Hs : str_in s enum = true)
        by (apply FilterFacts.str_in_In, Hsub; left; reflexivity).
      rewrite Hs, IH; [ reflexivity | ]. intros t Ht. apply Hsub. right. exact Ht. }
    rewrite E. destruct fallback; [ congruence | reflexivity ].
  - destruct (PyDict.get key ai) as [ v | ].
    + assert (Hraise : forall w : Json.json,
                 w = Json.JNull \/ (exists b, w = Json.JBool b)
                 \/ (exists n, w = Json.JInt n) ->
                 exists v0, Some w = Some v0
                            /\ (v0 = Json.JNull \/ (exists b, v0 = Json.JBool b)
                                \/ exists n, v0 = Json.JInt n)).
      { intros w H. exists w. split; [ reflexivity | exact H ]. }
      assert (Hfine : forall w : Json.json,
                 (exists s, w = Json.JStr s) \/ (exists l, w = Json.JList l)
                 \/ (exists d, w = Json.JDict d) ->
                 ~ exists v0, Some w = Some v0
                              /\ (v0 = Json.JNull \/ (exists b, v0 = Json.JBool b)
                                  \/ exists n, v0 = Json.JInt n)).
      { intros w H (v0 & E & Hv0). injection E as <-.
        destruct H as [ (s & ->) | [ (l & ->) | (d & ->) ] ];
          destruct Hv0 as [ H | [ (b & H) | (n & H) ] ]; discriminate H. }
      destruct v as [ | b | n | s | l | d ]; cbn [Prefill.iterate]; rewrite ?Hmem.
      * split; [ intros _; apply Hraise; left; reflexivity | reflexivity ].
      * split; [ intros _; apply Hraise; right; left; eexists; reflexivity
               | reflexivity ].
      * split; [ intros _; apply Hraise; right; right; eexists; reflexivity
               | reflexivity ].
      * split; [ discriminate | ]. intros H. exfalso.
        apply (Hfine (Json.JStr s)); [ left; eexists; reflexivity | exact H ].
      * split; [ discriminate | ]. intros H. exfalso.
        apply (Hfine (Json.JList l)); [ right; left; eexists; reflexivity | exact H ].
      * split; [ discriminate | ]. intros H. exfalso.
        apply (Hfine (Json.JDict d)); [ right; right; eexists; reflexivity | exact H ].
    + cbn [Prefill.iterate]. rewrite Hmem.
      split; [ discriminate | intros (v & Hv & _); discriminate Hv ].
Qed.

Lemma X8_prefill_choices_witness :
  Prefill.valid_choices Prefill.STYLES ["Casual"] "style"
    [("style", Json.JList [Json.JStr "Formal"; Json.JStr "Grunge"; Json.JStr "Minimalist"])]
  = Some ["Formal"; "Minimalist"]%string
  /\ Prefill.valid_choices Prefill.STYLES ["Casual"] "style" [] = Some ["Casual"]%string.
Proof.
  destruct (X8_prefill_choices Prefill.STYLES ["Casual"]%string "style"
              [("style", Json.JList [Json.JStr "Formal"; Json.JStr "Grunge";
                                     Json.JStr "Minimalist"])])
    as (_ & Hlist & _).
  { discriminate. }
  { intros s [ <- | [] ]. left. reflexivity. }
  destruct (Hlist [Json.JStr "Formal"; Json.JStr "Grunge"; Json.JStr "Minimalist"] eq_refl)
    as (chosen & Hchosen & Hvalid & _).
  split.
  - rewrite Hchosen. f_equal. apply Hvalid.
    exists "Formal"%string. split; [ left; reflexivity | right; left; reflexivity ].
  - apply (X8_prefill_choices Prefill.STYLES ["Casual"]%string "style" []).
    + discriminate.
    + intros s [ <- | [] ]. left. reflexivity.
    + reflexivity.
Defined.

(** X9. The default position of the category and colour select boxes is
    always a valid position of a non-empty enumeration; it is the position
    of the suggested string when that is a member, and 0 (the first
    option) for any other suggestion or none. *)
Theorem X9_prefill_index
    (enum : list string) (key : string) (ai : list (string * Json.json)) :
  (enum <> [] -> Prefill.default_index enum key ai < length enum)
  /\ (forall s, PyDict.get key ai = Some (Json.JStr s) -> In s enum ->
        nth (Prefill.default_index enum key ai) enum EmptyString = s)
  /\ ((forall s, PyDict.get key ai = Some (Json.JStr s) -> ~ In s enum) ->
      Prefill.default_index enum key ai = 0).
Proof.
  unfold Prefill.default_index. split; [ | split ].
  - intros Hne.
    assert (H0 : 0 < length enum) by (destruct enum; [ congruence | cbn; lia ]).
    destruct (PyDict.get key ai) as [ [ | | | s | | ] | ]; try exact H0.
    destruct (str_in s enum) eqn:E; [ | exact H0 ].
    apply PrefillFacts.index_of_lt, FilterFacts.str_in_In, E.
  - intros s -> Hin. apply FilterFacts.str_in_In in Hin as E. rewrite E.
    apply PrefillFacts.nth_index_of, Hin.
  - intros H. destruct (PyDict.get key ai) as [ [ | | | s | | ] | ]; try reflexivity.
    destruct (str_in s enum) eqn:E; [ | reflexivity ].
    apply FilterFacts.str_in_In in E. exfalso. exact (H s eq_refl E).
Qed.

Lemma X9_prefill_index_witness :
  nth (Prefill.default_index CATEGORIES "category" [("category", Json.JStr "Shoes")])
      CATEGORIES EmptyString = "Shoes"%string
  /\ Prefill.default_index CATEGORIES "category" [("category", Json.JStr "Hat")] = 0.
Proof.
  split.
  - apply (X9_prefill_index CATEGORIES "category" [("category", Json.JStr "Shoes")]).
    + reflexivity.
    + right. right. left. reflexivity.
  - apply (X9_prefill_index CATEGORIES "category" [("category", Json.JStr "Hat")]).
    intros s H. injection H as <-. intros Hin. cbn in Hin.
    repeat (destruct Hin as [ Hin | Hin ]; [ discriminate Hin | ]). exact Hin.
Defined.

(** ** Adding an item *)

Module AddFacts.

Lemma digit_not_slash (k : nat) :
  Ascii.eqb (ascii_of_nat (48 + k mod 10)) "/" = false.
Proof.
  pose proof (Nat.mod_upper_bound k 10 ltac:(discriminate)) as H.
  remember (k mod 10) as m eqn:E. clear E.
  do 10 (destruct m as [ | m ]; [ reflexivity | ]). lia.
Qed.

Lemma zfill_head (w : nat) :
  forall n rest, exists k tail,
    zfill (S w) n +:+ rest = String (ascii_of_nat (48 + k mod 10)) tail.
Proof.
  induction w as [ | w IH ]; intros n rest.
  - exists n, rest. reflexivity.
  - change (zfill (S (S w)) n)
      with (zfill (S w) (n / 10) +:+ String (ascii_of_nat (48 + n mod 10)) EmptyString).
    rewrite StrFacts.app_assoc. apply IH.
Qed.

Lemma zfill_length (w : nat) : forall n, String.length (zfill w n) = w.
Proof.
  induction w as [ | w IH ]; intros n; [ reflexivity | ].
  cbn [zfill]. rewrite StrFacts.length_app, IH. cbn [String.length]. lia.
Qed.

Lemma starts_with_digit (k : nat) (tail : string) :
  Str.startswith (String (ascii_of_nat (48 + k mod 10)) tail) "/" = false.
Proof.
  unfold Str.startswith. cbn [String.prefix].
  destruct (ascii_dec "/" (ascii_of_nat (48 + k mod 10))) as [ E | ]; [ | reflexivity ].
  pose proof (digit_not_slash k) as H. rewrite <- E in H. discriminate H.
Qed.

(** A generated item id begins with a digit of the year. *)
Lemma new_item_id_head (now : datetime) (n : nat) (rest : string) :
  exists k tail,
    new_item_id now n +:+ rest = String (ascii_of_nat (48 + k mod 10)) tail.
Proof.
  unfold new_item_id, strftime_compact. rewrite !StrFacts.app_assoc.
  apply zfill_head.
Qed.

Lemma new_item_id_relative (now : datetime) (n : nat) :
  Str.startswith (new_item_id now n) "/" = false
  /\ Str.startswith (new_item_id now n +:+ "_tag") "/" = false.
Proof.
  split.
  - destruct (new_item_id_head now n EmptyString) as (k & tail & E).
    rewrite StrFacts.app_nil_r in E. rewrite E. apply starts_with_digit.
  - destruct (new_item_id_head now n "_tag") as (k & tail & E).
    rewrite E. apply starts_with_digit.
Qed.






Lemma built_item_id form garment_file tag_file now_id now_date pattern g :
  item_id (built_item form garment_file tag_file now_id now_date pattern g)
  = new_item_id now_id (fst (randint 1000 9999 g)).
Proof. reflexivity. Qed.




End AddFacts.





(** ** The outfit generator as a whole *)

Module OutfitFacts.
Import PyDict PyDictFacts Random RandomFacts GeneratorFacts SmartFacts.

(** The three properties every block of the generator keeps: no key
    twice, keys among the categories, every entry an item of the pool
    filed under its own category. *)
Section Tidy.
Variable pool : list Item.

Let tidy (outfit : Outfit) : Prop :=
  NoDup (keys outfit)
  /\ (forall k, In k (keys outfit) -> In k CATEGORIES)
  /\ (forall k item, get k outfit = Some item ->
                     In item pool /\ item_category item = k).

Lemma tidy_nil : tidy [].
Proof.
  split; [ apply NoDup_nil_2 | ].
  split; [ intros k [] | intros k item H; discriminate H ].
Qed.

Lemma tidy_choose_into (c : string) (outfit : Outfit) (g : rng) :
  In c CATEGORIES -> tidy outfit ->
  tidy (fst (choose_into c (of_category c pool) outfit g)).
Proof.
  intros Hc (Hnodup & Hkeys & Hfiled).
  destruct (of_category c pool) as [ | first rest ] eqn:E;
    [ exact (conj Hnodup (conj Hkeys Hfiled)) | ].
  rewrite choose_into_cons. cbn [fst].
  split; [ apply nodup_keys_set, Hnodup | ].
  split.
  - intros k Hk. apply in_keys_set in Hk as [ -> | Hk ]; [ exact Hc | auto ].
  - intros k item Hget. destruct (string_dec c k) as [ <- | Hne ].
    + rewrite get_set_eq in Hget. injection Hget as <-.
      apply in_of_category. rewrite E. apply choice_in.
    + rewrite get_set_ne in Hget by exact Hne. exact (Hfiled k item Hget).
Qed.

Lemma tidy_choose_body (outfit : Outfit) (g : rng) :
  tidy outfit -> tidy (fst (choose_body pool outfit g)).
Proof.
  intros H. rewrite choose_body_eq. cbv zeta.
  destruct (fst (flip _ _ g)).
  - apply tidy_choose_into; [ vm_compute; tauto | exact H ].
  - apply tidy_choose_into; [ vm_compute; tauto | ].
    apply tidy_choose_into; [ vm_compute; tauto | exact H ].
Qed.

Lemma tidy_add_shoes (outfit : Outfit) (g : rng) :
  tidy outfit -> tidy (fst (add_shoes pool outfit g)).
Proof. intros H. apply tidy_choose_into; [ vm_compute; tauto | exact H ]. Qed.

Lemma tidy_add_outerwear (outfit : Outfit) (g : rng) :
  tidy outfit -> tidy (fst (add_outerwear pool outfit g)).
Proof.
  intros H. rewrite add_outerwear_eq.
  destruct (of_category "Outerwear" pool) as [ | first rest ] eqn:E; [ exact H | ].
  destruct (gt _ _); [ | exact H ].
  rewrite <- E. apply tidy_choose_into; [ vm_compute; tauto | exact H ].
Qed.

Lemma tidy_add_accessory (outfit : Outfit) (g : rng) :
  tidy outfit -> tidy (fst (add_accessory pool outfit g)).
Proof.
  intros H. rewrite add_accessory_eq.
  destruct (of_category "Accessory" pool) as [ | first rest ] eqn:E; [ exact H | ].
  destruct (gt _ _); [ | exact H ].
  rewrite <- E. apply tidy_choose_into; [ vm_compute; tauto | exact H ].
Qed.

End Tidy.

Lemma smart_outfit_tidy (w : Wardrobe) (occasion season : option string) (g : rng) :
  let pool := candidate_pool w occasion season in
  let outfit := fst (generate_smart_outfit w occasion season g) in
  NoDup (keys outfit)
  /\ (forall k, In k (keys outfit) -> In k CATEGORIES)
  /\ (forall k item, get k outfit = Some item ->
                     In item pool /\ item_category item = k).
Proof.
  cbv zeta. rewrite stages. cbv zeta.
  apply tidy_add_accessory, tidy_add_outerwear, tidy_add_shoes, tidy_choose_body,
    tidy_nil.
Qed.

(** How many entries a block can add. *)
Lemma length_set {A : Type} (k : string) (v : A) (d : list (string * A)) :
  length (set k v d) <= S (length d).
Proof.
  induction d as [ | [k' v'] d IH ]; cbn [set length]; [ lia | ].
  destruct (String.eqb k k'); cbn [length]; lia.
Qed.

Lemma length_choose_into (key : string) (seq : list Item) (outfit : Outfit) (g : rng) :
  length (fst (choose_into key seq outfit g)) <= S (length outfit).
Proof.
  destruct seq as [ | first rest ]; [ cbn; lia | ].
  rewrite choose_into_cons. cbn [fst]. apply length_set.
Qed.

Lemma length_choose_body (pool : list Item) (outfit : Outfit) (g : rng) :
  length (fst (choose_body pool outfit g)) <= 2 + length outfit.
Proof.
  rewrite choose_body_eq. cbv zeta. destruct (fst (flip _ _ g)).
  - pose proof (length_choose_into "Dress/Jumpsuit"
                  (of_category "Dress/Jumpsuit" pool) outfit
                  (snd (flip (of_category "Dress/Jumpsuit" pool) (1 # 2) g))). lia.
  - set (top := choose_into "Top" _ outfit _).
    pose proof (length_choose_into "Bottom" (of_category "Bottom" pool)
                  (fst top) (snd top)).
    pose proof (length_choose_into "Top" (of_category "Top" pool) outfit
                  (snd (flip (of_category "Dress/Jumpsuit" pool) (1 # 2) g))).
    fold top in H0. lia.
Qed.

Lemma length_add_outerwear (pool : list Item) (outfit : Outfit) (g : rng) :
  length (fst (add_outerwear pool outfit g)) <= S (length outfit).
Proof.
  rewrite add_outerwear_eq. destruct (of_category "Outerwear" pool); [ cbn; lia | ].
  destruct (gt _ _); [ apply length_choose_into | cbn; lia ].
Qed.

Lemma length_add_accessory (pool : list Item) (outfit : Outfit) (g : rng) :
  length (fst (add_accessory pool outfit g)) <= S (length outfit).
Proof.
  rewrite add_accessory_eq. destruct (of_category "Accessory" pool); [ cbn; lia | ].
  destruct (gt _ _); [ apply length_choose_into | cbn; lia ].
Qed.

Lemma length_smart_outfit (w : Wardrobe) (occasion season : option string) (g : rng) :
  length (fst (generate_smart_outfit w occasion season g)) <= 5.
Proof.
  rewrite stages. cbv zeta.
  set (pool := candidate_pool w occasion season).
  set (r1 := choose_body pool [] g).
  set (r2 := add_shoes pool (fst r1) (snd r1)).
  set (r3 := add_outerwear pool (fst r2) (snd r2)).
  pose proof (length_choose_body pool [] g) as H1. fold r1 in H1.
  pose proof (length_choose_into "Shoes" (of_category "Shoes" pool) (fst r1) (snd r1))
    as H2. change (choose_into "Shoes" _ _ _) with r2 in H2.
  pose proof (length_add_outerwear pool (fst r2) (snd r2)) as H3. fold r3 in H3.
  pose proof (length_add_accessory pool (fst r3) (snd r3)) as H4.
  cbn [length] in H1. lia.
Qed.

(** A dress excludes a top and a bottom. *)
Lemma dress_alone (w : Wardrobe) (occasion season : option string) (g : rng) :
  let outfit := fst (generate_smart_outfit w occasion season g) in
  get "Dress/Jumpsuit" outfit <> None ->
  get "Top" outfit = None /\ get "Bottom" outfit = None.
Proof.
  cbv zeta. rewrite !body_key_final by discriminate.
  rewrite choose_body_eq. cbv zeta.
  destruct (fst (flip _ _ g)).
  - intros _. rewrite !choose_into_other by discriminate. split; reflexivity.
  - rewrite !choose_into_other by discriminate. cbn [get]. congruence.
Qed.

(** The pool is part of the catalog. *)
Lemma in_filter_items (all : list Item) (occasion season : option string) (item : Item) :
  In item (filter_items all occasion season) ->
  In item all
  /\ (forall o, occasion = Some o -> o <> EmptyString -> In o (item_occasions item))
  /\ (forall s, season = Some s -> s <> EmptyString ->
        In s (item_seasons item) \/ In "All Season" (item_seasons item)).
Proof.
  unfold filter_items. cbv zeta. intros H.
  assert (Hseason :
            In item (match occasion with
                     | Some (String _ _ as o) =>
                         List.filter (fun item => str_in o (item_occasions item)) all
                     | _ => all
                     end)
            /\ (forall s, season = Some s -> s <> EmptyString ->
                  In s (item_seasons item) \/ In "All Season" (item_seasons item))).
  { destruct season as [ [ | c s ] | ].
    - split; [ exact H | ]. intros s E. injection E as <-. congruence.
    - apply filter_In in H as [H Hs]. split; [ exact H | ].
      intros s' E _. injection E as <-.
      apply orb_true_iff in Hs as [Hs | Hs]; apply FilterFacts.str_in_In in Hs; tauto.
    - split; [ exact H | ]. intros s E. discriminate E. }
  destruct Hseason as [Hocc Hseason].
  destruct occasion as [ [ | c o ] | ].
  - split; [ exact Hocc | ]. split; [ | exact Hseason ].
    intros o E. injection E as <-. congruence.
  - apply filter_In in Hocc as [Hocc Ho]. split; [ exact Hocc | ].
    split; [ | exact Hseason ].
    intros o' E _. injection E as <-. apply FilterFacts.str_in_In, Ho.
  - split; [ exact Hocc | ]. split; [ | exact Hseason ]. intros o E. discriminate E.
Qed.

Lemma in_candidate_pool (w : Wardrobe) (occasion season : option string) (item : Item) :
  In item (candidate_pool w occasion season) -> In item (items w).
Proof.
  unfold candidate_pool. cbv zeta.
  destruct (length (filter_items (items w) occasion season) <? 3); [ tauto | ].
  intros H. apply in_filter_items in H. tauto.
Qed.

(** The values of a dict without repeated keys are what [get] finds. *)
Lemma get_in_keys {A : Type} (d : list (string * A)) (k : string) (v : A) :
  get k d = Some v -> In k (keys d).
Proof.
  intros H. destruct (in_dec string_dec k (keys d)) as [ Hin | Hout ]; [ exact Hin | ].
  apply get_None_iff in Hout. congruence.
Qed.

Lemma in_values_get {A : Type} (d : list (string * A)) (v : A) :
  NoDup (keys d) -> In v (values d) -> exists k, get k d = Some v.
Proof.
  induction d as [ | [k' v'] d IH ]; intros Hn Hin; [ contradiction | ].
  change (keys ((k', v') :: d)) with (k' :: keys d) in Hn.
  apply NoDup_cons in Hn as [Hnot Hn].
  destruct Hin as [ Hv | Hin ].
  - cbn [snd] in Hv. subst v'. exists k'. cbn [get]. rewrite String.eqb_refl.
    reflexivity.
  - destruct (IH Hn Hin) as [k Hk]. exists k. cbn [get].
    destruct (String.eqb k k') eqn:E; [ | exact Hk ].
    apply String.eqb_eq in E. subst k'. exfalso. apply Hnot.
    apply list_elem_of_In. exact (get_in_keys d k v Hk).
Qed.

Lemma get_in_values {A : Type} (d : list (string * A)) (k : string) (v : A) :
  get k d = Some v -> In v (values d).
Proof.
  unfold values. induction d as [ | [k' v'] d IH ]; cbn [get map snd In];
    [ discriminate | ].
  destruct (String.eqb k k'); [ intros H; injection H as ->; left; reflexivity | ].
  intros H. right. exact (IH H).
Qed.

End OutfitFacts.

(** X12. Whatever the catalog, the filters and the random draws,
    [generate_smart_outfit] returns an outfit whose keys are categories
    of [CATEGORIES], none of them twice; every entry is an item of the
    candidate pool, hence of the catalog, filed under its own category;
    an outfit with a dress has neither a top nor a bottom; there are at
    most five entries; and from a catalog without items the outfit is
    empty and no random number is drawn. *)
Theorem X12_smart_outfit_shape
    (wardrobe : Wardrobe) (occasion season : option string) (g : Random.rng) :
  let pool := candidate_pool wardrobe occasion season in
  let outfit := fst (generate_smart_outfit wardrobe occasion season g) in
  NoDup (PyDict.keys outfit)
  /\ (forall k, In k (PyDict.keys outfit) -> In k CATEGORIES)
  /\ (forall k item, PyDict.get k outfit = Some item ->
        In item pool /\ In item (items wardrobe) /\ item_category item = k)
  /\ (PyDict.get "Dress/Jumpsuit" outfit <> None ->
      PyDict.get "Top" outfit = None /\ PyDict.get "Bottom" outfit = None)
  /\ length outfit <= 5
  /\ (items wardrobe = [] ->
      generate_smart_outfit wardrobe occasion season g = ([], g)).
Proof.
  cbv zeta.
  destruct (OutfitFacts.smart_outfit_tidy wardrobe occasion season g)
    as (Hnodup & Hkeys & Hfiled).
  split; [ exact Hnodup | ]. split; [ exact Hkeys | ].
  split.
  { intros k item Hget. destruct (Hfiled k item Hget) as [Hin Hcat].
    split; [ exact Hin | ]. split; [ | exact Hcat ].
    exact (OutfitFacts.in_candidate_pool _ _ _ _ Hin). }
  split; [ apply OutfitFacts.dress_alone | ].
  split; [ apply OutfitFacts.length_smart_outfit | ].
  intros Hnone. rewrite SmartFacts.stages. cbv zeta.
  assert (Hpool : candidate_pool wardrobe occasion season = []).
  { unfold candidate_pool. cbv zeta. rewrite Hnone.
    destruct occasion as [ [ | ? ? ] | ], season as [ [ | ? ? ] | ]; reflexivity. }
  rewrite Hpool. reflexivity.
Qed.

(** X13. When at least three items pass the filters, every item of the
    generated outfit passes them: it has the requested occasion among
    its occasions, and the requested season or "All Season" among its
    seasons. *)
Theorem X13_filters_honoured
    (wardrobe : Wardrobe) (occasion season : option string) (g : Random.rng)
    (k : string) (item : Item) :
  3 <= length (filter_items (items wardrobe) occasion season) ->
  PyDict.get k (fst (generate_smart_outfit wardrobe occasion season g)) = Some item ->
  (forall o, occasion = Some o -> o <> EmptyString -> In o (item_occasions item))
  /\ (forall s, season = Some s -> s <> EmptyString ->
        In s (item_seasons item) \/ In "All Season" (item_seasons item)).
Proof.
  intros Hthree Hget.
  destruct (OutfitFacts.smart_outfit_tidy wardrobe occasion season g)
    as (_ & _ & Hfiled).
  destruct (Hfiled k item Hget) as [Hin _].
  rewrite FilterFacts.pool_filtered in Hin by exact Hthree.
  apply OutfitFacts.in_filter_items in Hin. tauto.
Qed.

Lemma X13_filters_honoured_witness :
  In "Work"%string
     (item_occasions (Sample.garment "s" "Shoes" ["Work"] ["Summer"])).
Proof.
  refine (proj1 (X13_filters_honoured Sample.full_closet (Some "Work"%string)
                   (Some "Summer"%string) Sample.low "Shoes"
                   (Sample.garment "s" "Shoes" ["Work"] ["Summer"]) _ _)
            "Work"%string eq_refl _).
  - vm_compute. lia.
  - vm_compute. reflexivity.
  - discriminate.
Defined.

(** ** Generate Outfit: from the button to the saved outfit *)

Module GenerateFacts.

Lemma generate_button_few (occasion_filter season_filter : string) (app : App)
    (g : Random.rng) :
  length (items (session_wardrobe app)) < 2 ->
  generate_button occasion_filter season_filter app g = (app, g).
Proof.
  intros H. unfold generate_button.
  destruct (Nat.ltb_spec (length (items (session_wardrobe app))) 2); [ reflexivity | lia ].
Qed.

Lemma generate_button_eq (occasion_filter season_filter : string) (app : App)
    (g : Random.rng) :
  2 <= length (items (session_wardrobe app)) ->
  let generated :=
    generate_smart_outfit (session_wardrobe app) (selected occasion_filter)
      (selected season_filter) g in
  generate_button occasion_filter season_filter app g
  = ({| session_wardrobe := session_wardrobe app;
        current_outfit := Some (fst generated);
        disk := disk app;
        screen := screen app |}, snd generated).
Proof.
  intros H. cbv zeta. unfold generate_button.
  destruct (Nat.ltb_spec (length (items (session_wardrobe app))) 2); [ lia | ].
  unfold Random.bind, Random.ret.
  destruct (generate_smart_outfit _ _ _ g) as [outfit g']. reflexivity.
Qed.

(** Two items of a catalog with distinct ids that carry the same id are
    the same item. *)
Lemma same_id_same_item (l : list Item) (a b : Item) :
  NoDup (map item_id l) -> In a l -> In b l -> item_id a = item_id b -> a = b.
Proof.
  induction l as [ | i l IH ]; intros Hn Ha Hb E; [ contradiction | ].
  cbn [map] in Hn. apply NoDup_cons in Hn as [Hnot Hn].
  rewrite list_elem_of_In in Hnot.
  destruct Ha as [ -> | Ha ], Hb as [ -> | Hb ].
  - reflexivity.
  - exfalso. apply Hnot. rewrite E. apply in_map, Hb.
  - exfalso. apply Hnot. rewrite <- E. apply in_map, Ha.
  - exact (IH Hn Ha Hb E).
Qed.

End GenerateFacts.

(** X14. With at least two items in the catalog, pressing Generate and
    then Save with a name, when the generated outfit is not empty,
    appends one saved outfit whose item ids are those of the generated
    items; the catalog on disk is the session's catalog; on the Saved
    Outfits page every generated item is shown for that outfit, and when
    the ids of the catalog are distinct nothing else is shown.  With
    fewer than two items the Generate page changes nothing and draws no
    random number. *)
Theorem X14_generate_save_show
    (occasion_filter season_filter outfit_name : string) (now_id now_date : datetime)
    (app : App) (g : Random.rng) :
  let generated :=
    generate_smart_outfit (session_wardrobe app) (selected occasion_filter)
      (selected season_filter) g in
  let app1 := fst (generate_button occasion_filter season_filter app g) in
  let app2 := save_outfit_button outfit_name now_id now_date app1 in
  (length (items (session_wardrobe app)) < 2 ->
   generate_button occasion_filter season_filter app g = (app, g))
  /\ (2 <= length (items (session_wardrobe app)) ->
      fst generated <> [] -> outfit_name <> EmptyString ->
      exists saved,
        outfits (session_wardrobe app2) = outfits (session_wardrobe app) ++ [saved]
        /\ items (session_wardrobe app2) = items (session_wardrobe app)
        /\ outfit_items saved = map item_id (PyDict.values (fst generated))
        /\ load_wardrobe (disk app2) = Some (session_wardrobe app2)
        /\ (forall item, In item (PyDict.values (fst generated)) ->
              In item (shown_items (session_wardrobe app2) saved))
        /\ (NoDup (map item_id (items (session_wardrobe app))) ->
            forall item, In item (shown_items (session_wardrobe app2) saved)
                         <-> In item (PyDict.values (fst generated)))).
Proof.
  cbv zeta. split; [ apply GenerateFacts.generate_button_few | ].
  intros Htwo Hsome Hname.
  rewrite (GenerateFacts.generate_button_eq occasion_filter season_filter app g Htwo).
  cbn [fst].
  destruct (OutfitFacts.smart_outfit_tidy (session_wardrobe app)
              (selected occasion_filter) (selected season_filter) g)
    as (Hnodup & _ & Hfiled).
  set (outfit := fst (generate_smart_outfit (session_wardrobe app)
                        (selected occasion_filter) (selected season_filter) g)) in *.
  assert (Hin : forall item, In item (PyDict.values outfit) ->
                             In item (items (session_wardrobe app))).
  { intros item Hitem.
    destruct (OutfitFacts.in_values_get outfit item Hnodup Hitem) as [k Hk].
    destruct (Hfiled k item Hk) as [Hpool _].
    exact (OutfitFacts.in_candidate_pool _ _ _ _ Hpool). }
  clearbody outfit.
  destruct outfit as [ | entry more ]; [ congruence | ].
  destruct outfit_name as [ | c name ]; [ congruence | ].
  unfold save_outfit_button. cbn [current_outfit session_wardrobe disk items outfits].
  eexists. split; [ reflexivity | ]. split; [ reflexivity | ].
  cbn [outfit_items]. split; [ reflexivity | ].
  split; [ apply load_after_save | ].
  unfold shown_items. cbn [items outfit_items].
  split.
  - intros item Hitem. apply filter_In. split; [ exact (Hin item Hitem) | ].
    apply FilterFacts.str_in_In, in_map, Hitem.
  - intros Hids item. rewrite filter_In, FilterFacts.str_in_In. split.
    + intros [Hitem Hid]. apply in_map_iff in Hid as (other & Hid & Hother).
      rewrite <- (GenerateFacts.same_id_same_item _ other item Hids
                    (Hin other Hother) Hitem Hid).
      exact Hother.
    + intros Hitem. split; [ exact (Hin item Hitem) | apply in_map, Hitem ].
Qed.

Lemma X14_generate_save_show_witness :
  let app := mkApp Sample.full_closet None ∅ [] in
  let app2 :=
    save_outfit_button "Monday" (mkDatetime 2024 3 5 7 8 9 0)
      (mkDatetime 2024 3 5 7 8 9 0)
      (fst (generate_button "Work" "Any" app Sample.low)) in
  exists saved,
    outfits (session_wardrobe app2) = outfits (session_wardrobe app) ++ [saved]
    /\ items (session_wardrobe app2) = items (session_wardrobe app).
Proof.
  cbv zeta.
  destruct (proj2 (X14_generate_save_show "Work" "Any" "Monday"
                     (mkDatetime 2024 3 5 7 8 9 0) (mkDatetime 2024 3 5 7 8 9 0)
                     (mkApp Sample.full_closet None ∅ []) Sample.low))
    as (saved & Houtfits & Hitems & _).
  - vm_compute. lia.
  - vm_compute. discriminate.
  - discriminate.
  - exists saved. split; [ exact Houtfits | exact Hitems ].
Defined.

(** ** Settings: clearing everything *)

Module ClearFacts.

Lemma lookup_clear_images_kept (fs : gmap string string) (path : string) :
  image_name path = None -> clear_images fs !! path = fs !! path.
Proof.
  intros H. unfold clear_images. destruct (fs !! path) as [ content | ] eqn:E.
  - apply map_lookup_filter_Some. split; [ exact E | exact H ].
  - apply map_lookup_filter_None. left. exact E.
Qed.

Lemma lookup_clear_images_gone (fs : gmap string string) (path name : string) :
  image_name path = Some name -> clear_images fs !! path = None.
Proof.
  intros H. unfold clear_images. apply map_lookup_filter_None. right.
  intros content _ Hkept. cbn [fst] in Hkept. congruence.
Qed.

Lemma image_name_image_file (name : string) :
  name <> EmptyString -> PyStr.contains "/" name = false ->
  image_name (image_file name) = Some name.
Proof.
  intros Hname Hslash. unfold image_name.
  change (image_file name) with ((IMAGES_DIR +:+ "/") +:+ name).
  rewrite StrFacts.startswith_app.
  change 16 with (String.length (IMAGES_DIR +:+ "/")).
  rewrite StrFacts.from_app.
  destruct name as [ | c name ]; [ congruence | ]. rewrite Hslash. reflexivity.
Qed.

End ClearFacts.

(** X15. "Clear All Data" followed by "Yes, delete everything" leaves an
    empty catalog in the session and on disk, removes every file that
    lies directly in the image directory (garment photos and tag photos
    alike), and changes no other file than the catalog document, so the
    stored API key survives; the outfit on display is kept and the
    confirmation flag is reset.  "Cancel" changes nothing, and without
    the first click the confirmation has no effect. *)
Theorem X15_clear_all (app : App) :
  let asked := clear_all_button (mkSettings app false) in
  let cleared := confirm_button asked in
  let app' := settings_app cleared in
  session_wardrobe app' = mkWardrobe [] []
  /\ load_wardrobe (disk app') = Some (mkWardrobe [] [])
  /\ (forall name, name <> EmptyString -> PyStr.contains "/" name = false ->
        disk app' !! image_file name = None)
  /\ (forall path, image_name path = None -> path <> DATA_FILE ->
        disk app' !! path = disk app !! path)
  /\ disk app' !! CONFIG_FILE = disk app !! CONFIG_FILE
  /\ current_outfit app' = current_outfit app
  /\ confirm_delete cleared = false
  /\ cancel_button asked = mkSettings app false
  /\ confirm_button (mkSettings app false) = mkSettings app false.
Proof.
  cbv zeta. unfold clear_all_button, confirm_button, cancel_button.
  cbn [confirm_delete settings_app session_wardrobe disk current_outfit].
  split; [ reflexivity | ].
  assert (Hkept : forall path, image_name path = None -> path <> DATA_FILE ->
            clear_images (save_wardrobe (mkWardrobe [] []) (disk app)) !! path
            = disk app !! path).
  { intros path Hpath Hdoc. rewrite ClearFacts.lookup_clear_images_kept by exact Hpath.
    apply save_other_path, Hdoc. }
  split.
  { unfold load_wardrobe.
    rewrite ClearFacts.lookup_clear_images_kept by reflexivity.
    apply load_after_save. }
  split.
  { intros name Hname Hslash.
    apply (ClearFacts.lookup_clear_images_gone _ _ name).
    apply ClearFacts.image_name_image_file; assumption. }
  split; [ exact Hkept | ].
  split; [ apply Hkept; [ reflexivity | discriminate ] | ].
  repeat split.
Qed.

(** ** A session *)

Module SessionFacts.


Lemma saved_document (w : Wardrobe) (fs : gmap string string) :
  save_wardrobe w fs !! DATA_FILE = Some (Json.dumps (Document.wardrobe_to_json w)).
Proof. apply lookup_insert_eq. Qed.


End SessionFacts.



Module SaveFacts.

Lemma save_outfit_button_named (c : ascii) (name : string) (now_id now_date : datetime)
    (app : App) (entry : string * Item) (more : Outfit) :
  current_outfit app = Some (entry :: more) ->
  save_outfit_button (String c name) now_id now_date app
  = {| session_wardrobe :=
         {| items := items (session_wardrobe app);
            outfits := outfits (session_wardrobe app)
                       ++ [{| outfit_id := "outfit_" +:+ strftime_compact now_id;
                              outfit_name := String c name;
                              outfit_items := map item_id (PyDict.values (entry :: more));
                              outfit_created_date := isoformat now_date |}] |};
       current_outfit := Some (entry :: more);
       disk := save_wardrobe
                 {| items := items (session_wardrobe app);
                    outfits := outfits (session_wardrobe app)
                               ++ [{| outfit_id := "outfit_" +:+ strftime_compact now_id;
                                      outfit_name := String c name;
                                      outfit_items :=
                                        map item_id (PyDict.values (entry :: more));
                                      outfit_created_date := isoformat now_date |}] |}
                 (disk app);
       screen := screen app ++ [st_success ("Saved '" +:+ String c name +:+ "'!")] |}.
Proof. intros H. unfold save_outfit_button. rewrite H. reflexivity. Qed.

End SaveFacts.

(** X17. Two outfits saved within the same second get the same id, and
    the delete button of either removes both: after the two saves and
    one delete the outfits are the earlier ones without those of that
    id. *)
Theorem X17_same_second_outfits
    (name1 name2 : string) (now1 date1 now2 date2 : datetime) (app : App)
    (entry : string * Item) (more : Outfit) :
  current_outfit app = Some (entry :: more) ->
  name1 <> EmptyString -> name2 <> EmptyString ->
  strftime_compact now1 = strftime_compact now2 ->
  let app2 := save_outfit_button name2 now2 date2
                (save_outfit_button name1 now1 date1 app) in
  exists first second,
    outfits (session_wardrobe app2) = outfits (session_wardrobe app) ++ [first; second]
    /\ outfit_name first = name1 /\ outfit_name second = name2
    /\ outfit_id first = outfit_id second
    /\ outfits (session_wardrobe (delete_outfit_button first app2))
       = List.filter (fun o => negb (String.eqb (outfit_id o) (outfit_id first)))
                     (outfits (session_wardrobe app))
    /\ outfits (session_wardrobe (delete_outfit_button second app2))
       = outfits (session_wardrobe (delete_outfit_button first app2)).
Proof.
  intros Houtfit Hname1 Hname2 Hsecond. cbv zeta.
  destruct name1 as [ | c1 name1 ]; [ congruence | ].
  destruct name2 as [ | c2 name2 ]; [ congruence | ].
  rewrite (SaveFacts.save_outfit_button_named c1 name1 now1 date1 app entry more Houtfit).
  erewrite (SaveFacts.save_outfit_button_named c2 name2 now2 date2 _ entry more)
    by reflexivity.
  cbn [session_wardrobe items outfits]. rewrite Hsecond.
  eexists. eexists.
  split; [ rewrite <- List.app_assoc; reflexivity | ].
  cbn [outfit_name outfit_id]. split; [ reflexivity | ]. split; [ reflexivity | ].
  split; [ reflexivity | ].
  unfold delete_outfit_button. cbn [session_wardrobe outfits outfit_id].
  split; [ | reflexivity ].
  rewrite !List.filter_app. cbn [List.filter outfit_id].
  rewrite String.eqb_refl. cbn [negb]. rewrite !List.app_nil_r. reflexivity.
Qed.

Lemma X17_same_second_outfits_witness :
  let app2 :=
    save_outfit_button "Evening" (mkDatetime 2024 3 5 7 8 9 900) (mkDatetime 2024 3 5 7 8 9 901)
      (save_outfit_button "Morning" (mkDatetime 2024 3 5 7 8 9 100)
         (mkDatetime 2024 3 5 7 8 9 101) Sample.shirt_session) in
  exists first second,
    outfits (session_wardrobe app2)
    = outfits (session_wardrobe Sample.shirt_session) ++ [first; second]
    /\ outfit_id first = outfit_id second.
Proof.
  cbv zeta.
  destruct (X17_same_second_outfits "Morning" "Evening"
              (mkDatetime 2024 3 5 7 8 9 100) (mkDatetime 2024 3 5 7 8 9 101)
              (mkDatetime 2024 3 5 7 8 9 900) (mkDatetime 2024 3 5 7 8 9 901)
              Sample.shirt_session ("Top"%string, Sample.tagged_shirt) [])
    as (first & second & Houtfits & _ & _ & Hid & _).
  - reflexivity.
  - discriminate.
  - discriminate.
  - reflexivity.
  - exists first, second. split; [ exact Houtfits | exact Hid ].
Defined.

(** ** The sidebar *)

Module SidebarFacts.

Lemma sum_positive (l : list (string * nat)) :
  list_sum (map snd (List.filter (fun entry => 0 <? snd entry) l))
  = list_sum (map snd l).
Proof.
  induction l as [ | [cat n] l IH ]; [ reflexivity | ].
  cbn [List.filter snd map]. unfold list_sum in *.
  destruct (0 <? n) eqn:E; cbn [map fold_right snd]; rewrite IH; [ reflexivity | ].
  apply Nat.ltb_ge in E. lia.
Qed.

Lemma length_filter_either {A : Type} (p q : A -> bool) (l : list A) :
  (forall x, In x l -> p x = true -> q x = false) ->
  length (List.filter (fun x => p x || q x) l)
  = length (List.filter p l) + length (List.filter q l).
Proof.
  induction l as [ | x l IH ]; intros H; [ reflexivity | ].
  cbn [List.filter].
  assert (IH' := IH (fun y Hy => H y (or_intror Hy))).
  destruct (p x) eqn:Ep; cbn [orb length].
  - rewrite (H x (or_introl eq_refl) Ep). lia.
  - destruct (q x); cbn [length]; lia.
Qed.

Lemma sum_counts (cats : list string) (l : list Item) :
  NoDup cats ->
  list_sum (map (fun cat => length (of_category cat l)) cats)
  = length (List.filter (fun item => str_in (item_category item) cats) l).
Proof.
  induction cats as [ | cat cats IH ]; intros Hn.
  - cbn [map list_sum str_in existsb]. rewrite FilterFacts.filter_nothing; reflexivity.
  - apply NoDup_cons in Hn as [Hnot Hn]. rewrite list_elem_of_In in Hnot.
    cbn [map]. unfold list_sum in *. cbn [fold_right]. rewrite (IH Hn).
    unfold of_category.
    rewrite <- (length_filter_either
                  (fun item => String.eqb (item_category item) cat)
                  (fun item => str_in (item_category item) cats)); [ reflexivity | ].
    intros item _ E. apply String.eqb_eq in E.
    destruct (str_in (item_category item) cats) eqn:Ein; [ | reflexivity ].
    apply FilterFacts.str_in_In in Ein. rewrite E in Ein. contradiction.
Qed.

Lemma length_filter_le {A : Type} (p : A -> bool) (l : list A) :
  length (List.filter p l) <= length l.
Proof.
  induction l as [ | x l IH ]; [ reflexivity | ].
  cbn [List.filter]. destruct (p x); cbn [length]; lia.
Qed.

Lemma length_filter_all {A : Type} (p : A -> bool) (l : list A) :
  length (List.filter p l) = length l <-> forall x, In x l -> p x = true.
Proof.
  induction l as [ | x l IH ]; [ split; [ intros _ y [] | reflexivity ] | ].
  cbn [List.filter]. pose proof (length_filter_le p l) as Hle.
  destruct (p x) eqn:E; cbn [length].
  - split.
    + intros H y [ <- | Hy ]; [ exact E | ]. apply IH; [ lia | exact Hy ].
    + intros H. f_equal. apply IH. intros y Hy. apply H. right. exact Hy.
  - split; [ lia | ]. intros H. rewrite (H x) in E by (left; reflexivity).
    discriminate E.
Qed.

Lemma categories_distinct : NoDup CATEGORIES.
Proof.
  unfold CATEGORIES.
  repeat (apply NoDup_cons; split;
          [ rewrite list_elem_of_In; cbn [In]; intuition discriminate | ]).
  apply NoDup_nil_2.
Qed.

End SidebarFacts.

(** X18. The sidebar lists, in the order of [CATEGORIES], each category
    that has items with the number of its items, never a zero; the
    figures listed add up to the number of items whose category is one
    of [CATEGORIES], hence to at most the total shown above them, and to
    the total exactly when every item has one of these categories. *)
Theorem X18_sidebar_counts (wardrobe : Wardrobe) :
  let listed := category_counts wardrobe in
  let total := length (items wardrobe) in
  (forall cat n, In (cat, n) listed
                 <-> In cat CATEGORIES
                     /\ n = length (of_category cat (items wardrobe)) /\ 0 < n)
  /\ map fst listed
     = List.filter (fun cat => 0 <? length (of_category cat (items wardrobe))) CATEGORIES
  /\ list_sum (map snd listed)
     = length (List.filter (fun item => str_in (item_category item) CATEGORIES)
                           (items wardrobe))
  /\ list_sum (map snd listed) <= total
  /\ (list_sum (map snd listed) = total
      <-> forall item, In item (items wardrobe) -> In (item_category item) CATEGORIES).
Proof.
  cbv zeta.
  assert (Hsum : list_sum (map snd (category_counts wardrobe))
                 = length (List.filter
                             (fun item => str_in (item_category item) CATEGORIES)
                             (items wardrobe))).
  { unfold category_counts. rewrite SidebarFacts.sum_positive, map_map. cbn [snd].
    apply SidebarFacts.sum_counts, SidebarFacts.categories_distinct. }
  split.
  { intros cat n. unfold category_counts. rewrite filter_In, in_map_iff. cbn [snd].
    rewrite Nat.ltb_lt. split.
    - intros [(c & E & Hc) Hpos]. injection E as <- <-. tauto.
    - intros (Hc & -> & Hpos). split; [ | exact Hpos ]. exists cat. tauto. }
  split.
  { unfold category_counts. clear Hsum.
    induction CATEGORIES as [ | cat cats IH ]; [ reflexivity | ].
    cbn [map List.filter snd].
    destruct (0 <? length (of_category cat (items wardrobe)));
      cbn [map fst]; rewrite IH; reflexivity. }
  split; [ exact Hsum | ].
  rewrite Hsum. split; [ apply SidebarFacts.length_filter_le | ].
  rewrite SidebarFacts.length_filter_all.
  split; intros H item Hitem.
  - apply FilterFacts.str_in_In, H, Hitem.
  - apply FilterFacts.str_in_In, H, Hitem.
Qed.

(** ** The analyzers: fenced answers *)

Module StripFacts.
Import Str.

Lemma lstrip_solid (c : ascii) (s : string) :
  is_space c = false -> lstrip (String c s) = String c s.
Proof. intros H. cbn [lstrip]. rewrite H. reflexivity. Qed.

Lemma lstrip_length (s : string) : String.length (lstrip s) <= String.length s.
Proof.
  induction s as [ | c s IH ]; [ reflexivity | ].
  cbn [lstrip]. destruct (is_space c); cbn [String.length]; lia.
Qed.

Lemma lstrip_same_or_shorter (s : string) :
  lstrip s = s \/ String.length (lstrip s) < String.length s.
Proof.
  destruct s as [ | c s ]; [ left; reflexivity | ].
  cbn [lstrip]. destruct (is_space c); [ right | left; reflexivity ].
  pose proof (lstrip_length s). cbn [String.length]. lia.
Qed.

Lemma rstrip_length (s : string) : String.length (rstrip s) <= String.length s.
Proof.
  induction s as [ | c s IH ]; [ reflexivity | ].
  cbn [rstrip]. destruct (rstrip s) as [ | c' r ].
  - destruct (is_space c); cbn [String.length]; lia.
  - cbn [String.length] in *. lia.
Qed.

(** A string that [strip] leaves alone has no white space at either
    end. *)
Lemma strip_fixed (s : string) : strip s = s -> lstrip s = s /\ rstrip s = s.
Proof.
  unfold strip. intros H.
  destruct (lstrip_same_or_shorter s) as [ E | Hshort ].
  - split; [ exact E | ]. rewrite E in H. exact H.
  - exfalso. pose proof (rstrip_length (lstrip s)) as Hle. rewrite H in Hle. lia.
Qed.

Lemma lstrip_fixed_head (c : ascii) (s : string) :
  lstrip (String c s) = String c s -> is_space c = false.
Proof.
  intros H. destruct (is_space c) eqn:E; [ | reflexivity ]. exfalso.
  cbn [lstrip] in H. rewrite E in H.
  pose proof (lstrip_length s) as Hle. rewrite H in Hle. cbn [String.length] in Hle. lia.
Qed.

Lemma rstrip_app_spaces (s t : string) :
  rstrip t = EmptyString -> rstrip (s +:+ t) = rstrip s.
Proof.
  intros H. induction s as [ | c s IH ]; [ exact H | ].
  rewrite StrFacts.app_cons. cbn [rstrip]. rewrite IH. reflexivity.
Qed.

Lemma rstrip_app_solid (s t : string) :
  rstrip t = t -> t <> EmptyString -> rstrip (s +:+ t) = s +:+ t.
Proof.
  intros H Hne. induction s as [ | c s IH ]; [ exact H | ].
  rewrite StrFacts.app_cons. cbn [rstrip]. rewrite IH.
  destruct (s +:+ t) as [ | c' r ] eqn:E; [ | reflexivity ].
  exfalso. destruct s; [ exact (Hne E) | discriminate E ].
Qed.

Lemma startswith_shorter (s p q : string) :
  startswith s (p +:+ q) = true -> startswith s p = true.
Proof.
  intros H. apply StrFacts.startswith_inv in H as [t ->].
  rewrite StrFacts.app_assoc. apply StrFacts.startswith_app.
Qed.

(** White space and line breaks around a stripped text are removed by
    [strip]. *)
Lemma strip_between_newlines (s : string) :
  strip s = s -> strip (String "010" (s +:+ String "010" EmptyString)) = s.
Proof.
  intros H. apply strip_fixed in H as [Hl Hr]. unfold strip.
  change (lstrip (String "010" (s +:+ String "010" EmptyString)))
    with (lstrip (s +:+ String "010" EmptyString)).
  destruct s as [ | c s ]; [ reflexivity | ].
  rewrite StrFacts.app_cons, lstrip_solid by exact (lstrip_fixed_head c s Hl).
  rewrite <- StrFacts.app_cons, rstrip_app_spaces by reflexivity. exact Hr.
Qed.

End StripFacts.

Module FenceFacts.
Import Analyzer.

(** What the cleanup does to a fenced block whose inside begins on a new
    line. *)
Lemma clean_tagged (inside : string) :
  clean_response (fence_json +:+ String "010" inside +:+ fence)
  = Str.strip (String "010" inside).
Proof.
  unfold clean_response. cbv zeta.
  assert (Hstrip : Str.strip (fence_json +:+ String "010" inside +:+ fence)
                   = fence_json +:+ String "010" inside +:+ fence).
  { unfold Str.strip.
    change (fence_json +:+ String "010" inside +:+ fence)
      with (String "`" ("``json" +:+ String "010" inside +:+ fence)) at 1.
    rewrite StripFacts.lstrip_solid by reflexivity.
    change (String "`" ("``json" +:+ String "010" inside +:+ fence))
      with (fence_json +:+ String "010" inside +:+ fence).
    rewrite <- StrFacts.app_assoc.
    apply StripFacts.rstrip_app_solid; [ reflexivity | discriminate ]. }
  rewrite Hstrip, StrFacts.startswith_app.
  rewrite (StrFacts.from_app fence_json (String "010" inside +:+ fence)
           : Str.from 7 _ = _).
  rewrite ?(eq_refl : Str.startswith (String "010" inside +:+ fence) fence = false).
  rewrite StrFacts.endswith_app.
  rewrite (StrFacts.upto_last_app (String "010" inside) fence
           : Str.upto_last 3 _ = _).
  reflexivity.
Qed.

Lemma clean_bare (inside : string) :
  clean_response (fence +:+ String "010" inside +:+ fence)
  = Str.strip (String "010" inside).
Proof.
  unfold clean_response. cbv zeta.
  assert (Hstrip : Str.strip (fence +:+ String "010" inside +:+ fence)
                   = fence +:+ String "010" inside +:+ fence).
  { unfold Str.strip.
    change (fence +:+ String "010" inside +:+ fence)
      with (String "`" ("``" +:+ String "010" inside +:+ fence)) at 1.
    rewrite StripFacts.lstrip_solid by reflexivity.
    change (String "`" ("``" +:+ String "010" inside +:+ fence))
      with (fence +:+ String "010" inside +:+ fence).
    rewrite <- StrFacts.app_assoc.
    apply StripFacts.rstrip_app_solid; [ reflexivity | discriminate ]. }
  rewrite Hstrip.
  rewrite (eq_refl : Str.startswith (fence +:+ String "010" inside +:+ fence)
                       fence_json = false).
  rewrite StrFacts.startswith_app.
  rewrite (StrFacts.from_app fence (String "010" inside +:+ fence)
           : Str.from 3 _ = _).
  rewrite ?(eq_refl : Str.startswith (String "010" inside +:+ fence) fence = false).
  rewrite StrFacts.endswith_app.
  rewrite (StrFacts.upto_last_app (String "010" inside) fence
           : Str.upto_last 3 _ = _).
  reflexivity.
Qed.

Lemma clean_plain (payload : string) :
  Str.strip payload = payload ->
  Str.startswith payload fence = false -> Str.endswith payload fence = false ->
  clean_response payload = payload.
Proof.
  intros Hstrip Hstart Hend. unfold clean_response. cbv zeta. rewrite Hstrip.
  assert (Htag : Str.startswith payload fence_json = false).
  { destruct (Str.startswith payload fence_json) eqn:E; [ | reflexivity ].
    change fence_json with (fence +:+ "json") in E.
    apply StripFacts.startswith_shorter in E. congruence. }
  rewrite Htag, Hstart, Hend. exact Hstrip.
Qed.

End FenceFacts.

(** X19. The cleanup undoes fencing.  For a payload without white space
    at either end that neither begins nor ends with a fence (every JSON
    text is one), the text handed to [json.loads] is the payload itself
    whether the model answered with the bare payload, with the payload
    on its own lines inside a fence tagged [json], or inside a bare fence;
    so the three answers decode alike. *)
Theorem X19_fenced_answer (payload : string) :
  Str.strip payload = payload ->
  Str.startswith payload Analyzer.fence = false ->
  Str.endswith payload Analyzer.fence = false ->
  let newline := String "010" EmptyString in
  Analyzer.clean_response payload = payload
  /\ Analyzer.clean_response
       (Analyzer.fence_json +:+ newline +:+ payload +:+ newline +:+ Analyzer.fence)
     = payload
  /\ Analyzer.clean_response
       (Analyzer.fence +:+ newline +:+ payload +:+ newline +:+ Analyzer.fence)
     = payload.
Proof.
  intros Hstrip Hstart Hend. cbv zeta.
  split; [ apply FenceFacts.clean_plain; assumption | ].
  assert (Hshape : forall opening,
            opening +:+ String "010" EmptyString +:+ payload
              +:+ String "010" EmptyString +:+ Analyzer.fence
            = opening +:+ String "010" (payload +:+ String "010" EmptyString)
                +:+ Analyzer.fence).
  { intros opening. f_equal. rewrite StrFacts.app_cons. f_equal.
    change (EmptyString +:+ payload +:+ String "010" EmptyString +:+ Analyzer.fence)
      with (payload +:+ String "010" EmptyString +:+ Analyzer.fence).
    rewrite <- StrFacts.app_assoc. reflexivity. }
  rewrite !Hshape, FenceFacts.clean_tagged, FenceFacts.clean_bare.
  split; apply StripFacts.strip_between_newlines, Hstrip.
Qed.

Lemma X19_fenced_answer_witness :
  Analyzer.clean_response
    ("```json" +:+ String "010" EmptyString +:+ "{}" +:+ String "010" EmptyString
     +:+ "```")
  = "{}"%string.
Proof.
  apply (X19_fenced_answer "{}"); reflexivity.
Defined.

(** ** Add Clothes: the analyze button *)

Module ButtonFacts.

Lemma last_snoc {A : Type} (l : list A) (x d : A) : List.last (l ++ [x]) d = x.
Proof.
  induction l as [ | y l IH ]; [ reflexivity | ].
  cbn [app]. destruct (l ++ [x]) eqn:E; [ destruct l; discriminate E | exact IH ].
Qed.

Section Service.
Variable json_loads : string -> Analyzer.result Json.json.
Variable httpx_post : Analyzer.request -> Analyzer.result Analyzer.response.
Variable garment_prompt tag_prompt : string.
Variable describe : Analyzer.exn -> string.
Variable b64encode : string -> string.

(** The button with the two analyses named. *)
Lemma analyze_button_eq (api_key : string) (garment_file : UploadedFile)
    (garment_file_type : string) (tag_file : option (UploadedFile * string))
    (page : AddPage) :
  let garment :=
    Analyzer.analyze_garment_image json_loads httpx_post garment_prompt describe
      api_key (b64encode (upload_bytes garment_file)) (mime_type garment_file_type) in
  let tag :=
    match tag_file with
    | Some (file, file_type) =>
        Analyzer.analyze_tag_image json_loads httpx_post tag_prompt describe
          api_key (b64encode (upload_bytes file)) (mime_type file_type)
    | None => (tag_analysis page, [])
    end in
  analyze_button json_loads httpx_post garment_prompt tag_prompt describe b64encode
    api_key garment_file garment_file_type tag_file page
  = {| add_app :=
         {| session_wardrobe := session_wardrobe (add_app page);
            current_outfit := current_outfit (add_app page);
            disk := disk (add_app page);
            screen := screen (add_app page) ++ snd garment ++ snd tag
                      ++ [if Config.truthy (fst garment)
                          then analysis_complete else analysis_failed] |};
       ai_analysis := fst garment;
       tag_analysis := fst tag |}.
Proof.
  cbv zeta. unfold analyze_button, image_to_base64. cbv zeta.
  destruct (Analyzer.analyze_garment_image _ _ _ _ _ _ _) as [ai shown_garment].
  destruct tag_file as [ [file file_type] | ].
  - destruct (Analyzer.analyze_tag_image _ _ _ _ _ _ _) as [tag shown_tag]. reflexivity.
  - reflexivity.
Qed.

End Service.

End ButtonFacts.

(** X20. The analyze button of the Add Clothes page never touches the
    catalog or the disk.  Its closing message depends on the garment
    analysis alone: "Analysis complete" when the value returned for the
    garment is true, "Analysis failed" otherwise, whatever the tag
    analysis gave.  Without a tag photo the tag analysis of an earlier
    press is kept.  A status other than 200 leaves no other trace than
    "Analysis failed"; an exception of the HTTP client is shown, with the
    label of the garment analysis, before it.  And when the model's
    answer decodes to a true value that is not an object (a non-empty
    list or string, a number, [true]), the page reports "Analysis
    complete" but cannot draw the form any more, so nothing can be
    submitted. *)
Theorem X20_analyze_button
    (json_loads : string -> Analyzer.result Json.json)
    (httpx_post : Analyzer.request -> Analyzer.result Analyzer.response)
    (garment_prompt tag_prompt : string) (describe : Analyzer.exn -> string)
    (b64encode : string -> string)
    (api_key : string) (garment_file : UploadedFile) (garment_file_type : string)
    (tag_file : option (UploadedFile * string)) (page : AddPage) :
  let press :=
    analyze_button json_loads httpx_post garment_prompt tag_prompt describe b64encode
      api_key garment_file garment_file_type in
  let page' := press tag_file page in
  let request :=
    Analyzer.chat_request garment_prompt 500 api_key
      (b64encode (upload_bytes garment_file)) (mime_type garment_file_type) in
  (session_wardrobe (add_app page') = session_wardrobe (add_app page)
   /\ disk (add_app page') = disk (add_app page)
   /\ current_outfit (add_app page') = current_outfit (add_app page))
  /\ List.last (screen (add_app page')) analysis_failed
     = (if Config.truthy (ai_analysis page') then analysis_complete else analysis_failed)
  /\ ai_analysis page' = ai_analysis (press None page)
  /\ (tag_file = None -> tag_analysis page' = tag_analysis page)
  /\ (forall r, httpx_post request = inr r -> Analyzer.status_code r <> 200%Z ->
        ai_analysis page' = Json.JNull
        /\ screen (add_app (press None page)) = screen (add_app page) ++ [analysis_failed])
  /\ (forall e, httpx_post request = inl e ->
        ai_analysis page' = Json.JNull
        /\ screen (add_app (press None page))
           = screen (add_app page)
             ++ [st_error ("Error analyzing image: " +:+ describe e); analysis_failed])
  /\ (Config.truthy (ai_analysis page') = true ->
      (forall d, ai_analysis page' <> Json.JDict d) ->
      List.last (screen (add_app page')) analysis_failed = analysis_complete
      /\ forall form garment_upload tag_upload now_id now_date g,
           fst (submit_add_item form garment_upload tag_upload now_id now_date page' g)
           = None).
Proof.
  cbv zeta. rewrite !ButtonFacts.analyze_button_eq.
  cbn [add_app session_wardrobe disk current_outfit screen ai_analysis tag_analysis snd].
  set (garment := Analyzer.analyze_garment_image json_loads httpx_post garment_prompt
                    describe api_key (b64encode (upload_bytes garment_file))
                    (mime_type garment_file_type)).
  assert (Hlast : List.last
                    (screen (add_app page) ++ snd garment
                     ++ snd match tag_file with
                            | Some (file, file_type) =>
                                Analyzer.analyze_tag_image json_loads httpx_post tag_prompt
                                  describe api_key (b64encode (upload_bytes file))
                                  (mime_type file_type)
                            | None => (tag_analysis page, [])
                            end
                     ++ [if Config.truthy (fst garment)
                         then analysis_complete else analysis_failed])
                    analysis_failed
                  = if Config.truthy (fst garment)
                    then analysis_complete else analysis_failed).
  { rewrite !List.app_assoc. apply ButtonFacts.last_snoc. }
  split; [ repeat split | ].
  split; [ exact Hlast | ].
  split; [ reflexivity | ].
  split; [ intros ->; reflexivity | ].
  split.
  { intros r Hr Hstatus.
    assert (Hgarment : garment = (Json.JNull, [])).
    { unfold garment, Analyzer.analyze_garment_image, Analyzer.analyze.
      rewrite (AnalyzerFacts.attempt_status json_loads httpx_post _ r Hr Hstatus).
      reflexivity. }
    rewrite Hgarment. split; reflexivity. }
  split.
  { intros e He.
    assert (Hgarment : garment
                       = (Json.JNull,
                          [st_error ("Error analyzing image: " +:+ describe e)])).
    { unfold garment, Analyzer.analyze_garment_image, Analyzer.analyze.
      rewrite (AnalyzerFacts.attempt_transport json_loads httpx_post _ e He).
      reflexivity. }
    rewrite Hgarment. split; reflexivity. }
  intros Htrue Hdict. split; [ rewrite Hlast, Htrue; reflexivity | ].
  intros form garment_upload tag_upload now_id now_date g.
  unfold submit_add_item. cbn [ai_analysis].
  destruct (fst garment) as [ | b | n | s | l | d ]; cbn [Prefill.analysis_dict];
    try (rewrite Htrue; reflexivity); try discriminate Htrue.
  exfalso. exact (Hdict d eq_refl).
Qed.

Lemma X20_analyze_button_witness :
  fst (submit_add_item
         (mkItemForm "Shirt" "Top" "Blue" "" "M" ["Casual"] ["Work"] ["All Season"] "" "")
         (mkUpload "shirt.jpg" "pixels") None
         (mkDatetime 2024 3 5 7 8 9 0) (mkDatetime 2024 3 5 7 8 9 0)
         (analyze_button Sample.json_loads (Sample.answering "[1]") "garment" "tag"
            (fun _ => "error"%string) (fun bytes => bytes) "sk-key"
            (mkUpload "shirt.jpg" "pixels") "image/jpeg" None
            (mkAddPage Sample.shirt_session Json.JNull Json.JNull)) Sample.low)
  = None.
Proof.
  refine (proj2 (proj2 (proj2 (proj2 (proj2 (proj2 (proj2
            (X20_analyze_button Sample.json_loads (Sample.answering "[1]")
               "garment" "tag" (fun _ => "error"%string) (fun bytes => bytes)
               "sk-key" (mkUpload "shirt.jpg" "pixels") "image/jpeg" None
               (mkAddPage Sample.shirt_session Json.JNull Json.JNull)))))))
            _ _)
            (mkItemForm "Shirt" "Top" "Blue" "" "M" ["Casual"] ["Work"] ["All Season"]
               "" "")
            (mkUpload "shirt.jpg" "pixels") None
            (mkDatetime 2024 3 5 7 8 9 0) (mkDatetime 2024 3 5 7 8 9 0) Sample.low).
  - vm_compute. reflexivity.
  - intros d. vm_compute. discriminate.
Defined.

(** ** Item ids and image paths *)

Module IdFacts.

Lemma contains_app (c : ascii) (s t : string) :
  PyStr.contains c (s +:+ t) = PyStr.contains c s || PyStr.contains c t.
Proof.
  induction s as [ | a s IH ]; [ reflexivity | ].
  rewrite StrFacts.app_cons. cbn [PyStr.contains]. rewrite IH. apply orb_assoc.
Qed.

Lemma decimal_digit (k : nat) : Json.is_digit (ascii_of_nat (48 + k mod 10)) = true.
Proof.
  pose proof (Nat.mod_upper_bound k 10 ltac:(discriminate)) as H.
  remember (k mod 10) as m eqn:E. clear E.
  do 10 (destruct m as [ | m ]; [ reflexivity | ]). lia.
Qed.

Lemma not_a_digit (a c : ascii) :
  Json.is_digit a = true -> Json.is_digit c = false -> Ascii.eqb a c = false.
Proof.
  intros Ha Hc. destruct (Ascii.eqb_spec a c) as [ -> | ]; [ congruence | reflexivity ].
Qed.

Lemma zfill_digits (c : ascii) (w : nat) :
  Json.is_digit c = false -> forall n, PyStr.contains c (zfill w n) = false.
Proof.
  intros Hc. induction w as [ | w IH ]; intros n; [ reflexivity | ].
  cbn [zfill]. rewrite contains_app, IH. cbn [PyStr.contains orb].
  rewrite (not_a_digit _ c (decimal_digit n) Hc). reflexivity.
Qed.

Lemma uint_text_digits (c : ascii) (d : Decimal.uint) :
  Json.is_digit c = false ->
  PyStr.contains c (string_of_list_ascii (Json.uint_text d)) = false.
Proof.
  intros Hc. induction d as [ | d IH | d IH | d IH | d IH | d IH | d IH | d IH | d IH
                            | d IH | d IH ];
    cbn [Json.uint_text string_of_list_ascii PyStr.contains];
    [ reflexivity | .. ];
    rewrite IH, orb_false_r; (apply not_a_digit; [ reflexivity | exact Hc ]).
Qed.

Lemma of_nat_digits (c : ascii) (n : nat) :
  Json.is_digit c = false -> PyStr.contains c (PyStr.of_nat n) = false.
Proof.
  intros Hc. unfold PyStr.of_nat, Json.int_text.
  destruct (Z.of_nat n) as [ | p | p ] eqn:E; cbn [Z.to_int];
    [ apply uint_text_digits, Hc | apply uint_text_digits, Hc | lia ].
Qed.

Lemma of_nat_inj (a b : nat) : PyStr.of_nat a = PyStr.of_nat b -> a = b.
Proof.
  unfold PyStr.of_nat. intros H.
  apply (f_equal list_ascii_of_string) in H.
  rewrite !list_ascii_of_string_of_list_ascii in H.
  pose proof (JsonFacts.scan_number_int_text (Z.of_nat a) [] I) as Ha.
  pose proof (JsonFacts.scan_number_int_text (Z.of_nat b) [] I) as Hb.
  rewrite H, Hb in Ha. injection Ha as Ha. lia.
Qed.

Lemma strftime_compact_length (t : datetime) : String.length (strftime_compact t) = 14.
Proof.
  unfold strftime_compact. rewrite !StrFacts.length_app, !AddFacts.zfill_length.
  reflexivity.
Qed.

Lemma strftime_compact_digits (c : ascii) (t : datetime) :
  Json.is_digit c = false -> PyStr.contains c (strftime_compact t) = false.
Proof.
  intros Hc. unfold strftime_compact.
  rewrite !contains_app, !(zfill_digits c _ Hc). reflexivity.
Qed.

(** Strings of equal length at the head of equal concatenations. *)
Lemma app_inj_length (a1 a2 b1 b2 : string) :
  String.length a1 = String.length a2 -> a1 +:+ b1 = a2 +:+ b2 ->
  a1 = a2 /\ b1 = b2.
Proof.
  revert a2. induction a1 as [ | c a1 IH ]; intros [ | c2 a2 ] Hlen H;
    try discriminate Hlen.
  - split; [ reflexivity | exact H ].
  - rewrite !StrFacts.app_cons in H. injection H as -> H.
    cbn [String.length] in Hlen. destruct (IH a2 ltac:(lia) H) as [-> ->].
    split; reflexivity.
Qed.

(** A generated id holds digits and one underscore. *)
Lemma new_item_id_chars (c : ascii) (now : datetime) (n : nat) :
  Json.is_digit c = false -> c <> "_"%char ->
  PyStr.contains c (new_item_id now n) = false.
Proof.
  intros Hc Hu. unfold new_item_id.
  rewrite !contains_app, strftime_compact_digits, of_nat_digits by exact Hc.
  cbn [PyStr.contains orb]. destruct (Ascii.eqb_spec "_" c) as [ E | ]; [ | reflexivity ].
  congruence.
Qed.

(** A path splits in one way into a dot-free stem and a dot-free
    extension. *)
Lemma stem_and_extension (s1 e1 s2 e2 : string) :
  PyStr.contains "." s1 = false -> PyStr.contains "." e1 = false ->
  PyStr.contains "." s2 = false -> PyStr.contains "." e2 = false ->
  s1 +:+ "." +:+ e1 = s2 +:+ "." +:+ e2 -> s1 = s2 /\ e1 = e2.
Proof.
  intros Hs1 He1 Hs2 He2 H.
  apply (f_equal (PyStr.split ".")) in H.
  change (s1 +:+ "." +:+ e1) with (s1 +:+ String "." e1) in H.
  change (s2 +:+ "." +:+ e2) with (s2 +:+ String "." e2) in H.
  rewrite !SplitFacts.split_app in H by assumption.
  rewrite !SplitFacts.split_no_sep in H by assumption.
  injection H as -> ->. split; reflexivity.
Qed.

End IdFacts.

(** X21. Two ids generated by the add-item form are equal exactly when
    they were generated in the same second with the same random number;
    an item id never equals an outfit id.  The time stamp of an id has 14
    characters. *)
Theorem X21_item_ids (now1 now2 : datetime) (n1 n2 : nat) :
  String.length (strftime_compact now1) = 14
  /\ (new_item_id now1 n1 = new_item_id now2 n2
      <-> strftime_compact now1 = strftime_compact now2 /\ n1 = n2)
  /\ (forall t, new_item_id now1 n1 <> "outfit_" +:+ strftime_compact t).
Proof.
  split; [ apply IdFacts.strftime_compact_length | ].
  split.
  - unfold new_item_id. split.
    + intros H. apply IdFacts.app_inj_length in H as [Htime Hrest];
        [ | rewrite !IdFacts.strftime_compact_length; reflexivity ].
      split; [ exact Htime | ].
      injection Hrest as Hrest. apply IdFacts.of_nat_inj, Hrest.
    + intros [-> ->]. reflexivity.
  - intros t H.
    assert (Hno : PyStr.contains "o" (new_item_id now1 n1) = false)
      by (apply IdFacts.new_item_id_chars; [ reflexivity | discriminate ]).
    rewrite H in Hno. discriminate Hno.
Qed.

(** X22. The photos of the add-item form never overwrite the photo of an
    item with another id: if the path written for one generated id (for
    its garment photo, or with [_tag] for its tag photo) is the path
    written for another, the ids are the same, both are garment photos or
    both tag photos, and the extensions agree. *)
Theorem X22_image_paths_disjoint
    (now1 now2 : datetime) (n1 n2 : nat) (tag1 tag2 : bool)
    (file1 file2 : UploadedFile) (fs1 fs2 : gmap string string) :
  let suffix := fun tag : bool => if tag then "_tag"%string else EmptyString in
  let id1 := new_item_id now1 n1 in
  let id2 := new_item_id now2 n2 in
  fst (save_image file1 (id1 +:+ suffix tag1) fs1)
  = fst (save_image file2 (id2 +:+ suffix tag2) fs2) ->
  id1 = id2 /\ tag1 = tag2
  /\ extension_of (upload_name file1) = extension_of (upload_name file2).
Proof.
  cbv zeta. intros H.
  assert (Hrel : forall now n (tag : bool),
            Str.startswith
              (new_item_id now n +:+ (if tag then "_tag"%string else EmptyString)) "/"
            = false).
  { intros now n [ | ]; [ exact (proj2 (AddFacts.new_item_id_relative now n)) | ].
    rewrite StrFacts.app_nil_r. exact (proj1 (AddFacts.new_item_id_relative now n)). }
  rewrite !ImageFacts.save_image_path in H by apply Hrel.
  apply ImageFacts.image_file_inj in H.
  assert (Hdot : forall now n (tag : bool),
            PyStr.contains "."
              (new_item_id now n +:+ (if tag then "_tag"%string else EmptyString))
            = false).
  { intros now n tag. rewrite IdFacts.contains_app.
    rewrite IdFacts.new_item_id_chars by (reflexivity || discriminate).
    destruct tag; reflexivity. }
  apply IdFacts.stem_and_extension in H as [Hid Hext];
    [ | apply Hdot | apply SplitFacts.extension_spec | apply Hdot
      | apply SplitFacts.extension_spec ].
  assert (Ht : forall now n, PyStr.contains "t" (new_item_id now n) = false)
    by (intros now n; apply IdFacts.new_item_id_chars; [ reflexivity | discriminate ]).
  destruct tag1, tag2.
  - apply (f_equal list_ascii_of_string) in Hid. rewrite !StrFacts.to_list_app in Hid.
    apply List.app_inv_tail in Hid. apply StrFacts.to_list_inj in Hid. tauto.
  - exfalso. rewrite StrFacts.app_nil_r in Hid.
    pose proof (Ht now2 n2) as Hno. rewrite <- Hid, IdFacts.contains_app in Hno.
    apply orb_false_iff in Hno as [_ Hno]. discriminate Hno.
  - exfalso. rewrite StrFacts.app_nil_r in Hid.
    pose proof (Ht now1 n1) as Hno. rewrite Hid, IdFacts.contains_app in Hno.
    apply orb_false_iff in Hno as [_ Hno]. discriminate Hno.
  - rewrite !StrFacts.app_nil_r in Hid. tauto.
Qed.

Lemma X22_image_paths_disjoint_witness :
  extension_of "a.png" = extension_of "b.png".
Proof.
  refine (proj2 (proj2 (X22_image_paths_disjoint
                   (mkDatetime 2024 3 5 7 8 9 0) (mkDatetime 2024 3 5 7 8 9 0)
                   1234 1234 true true (mkUpload "a.png" "one") (mkUpload "b.png" "two")
                   ∅ ∅ _))).
  reflexivity.
Defined.

(** ** Deleting twice, deleting in another order *)

Module DeleteFacts.

Lemma filter_twice {A : Type} (p : A -> bool) (l : list A) :
  List.filter p (List.filter p l) = List.filter p l.
Proof.
  induction l as [ | x l IH ]; [ reflexivity | ].
  cbn [List.filter]. destruct (p x) eqn:E; [ | exact IH ].
  cbn [List.filter]. rewrite E, IH. reflexivity.
Qed.

Lemma filter_swap {A : Type} (p q : A -> bool) (l : list A) :
  List.filter p (List.filter q l) = List.filter q (List.filter p l).
Proof.
  induction l as [ | x l IH ]; [ reflexivity | ].
  cbn [List.filter]. destruct (p x) eqn:Ep, (q x) eqn:Eq; cbn [List.filter];
    rewrite ?Ep, ?Eq, IH; reflexivity.
Qed.

(** What is on disk after the catalog was saved over a disk from which
    files were removed. *)
Lemma lookup_saved_removed (w : Wardrobe) (path : string) (fs : gmap string string)
    (i : string) :
  save_wardrobe w (remove_if_exists path fs) !! i
  = if string_dec i DATA_FILE
    then Some (Json.dumps (Document.wardrobe_to_json w))
    else if string_dec i path then None else fs !! i.
Proof.
  destruct (string_dec i DATA_FILE) as [ -> | Hdoc ];
    [ apply SessionFacts.saved_document | ].
  rewrite save_other_path by exact Hdoc.
  destruct (string_dec i path) as [ -> | Hpath ];
    [ apply HandlerFacts.remove_if_exists_same
    | apply HandlerFacts.remove_if_exists_other, Hpath ].
Qed.

End DeleteFacts.

(** X23. Deleting is idempotent and the order of deletions does not
    matter: pressing the delete button of an item (or of a saved outfit)
    a second time changes nothing, in the session or on disk, and
    deleting two items (or two outfits) in either order ends in the same
    session and the same disk. *)
Theorem X23_delete_twice_or_swapped (app : App) :
  (forall item,
     delete_item_button item (delete_item_button item app)
     = delete_item_button item app)
  /\ (forall a b,
        delete_item_button a (delete_item_button b app)
        = delete_item_button b (delete_item_button a app))
  /\ (forall outfit_data,
        delete_outfit_button outfit_data (delete_outfit_button outfit_data app)
        = delete_outfit_button outfit_data app)
  /\ (forall a b,
        delete_outfit_button a (delete_outfit_button b app)
        = delete_outfit_button b (delete_outfit_button a app)).
Proof.
  split; [ | split; [ | split ] ].
  - intros item. unfold delete_item_button.
    cbn [session_wardrobe current_outfit disk screen items outfits].
    rewrite DeleteFacts.filter_twice. f_equal.
    apply map_eq. intros i.
    rewrite !DeleteFacts.lookup_saved_removed.
    destruct (string_dec i DATA_FILE); [ reflexivity | ].
    destruct (string_dec i (item_image_path item)); reflexivity.
  - intros a b. unfold delete_item_button.
    cbn [session_wardrobe current_outfit disk screen items outfits].
    rewrite (DeleteFacts.filter_swap
               (fun i => negb (String.eqb (item_id i) (item_id a)))). f_equal.
    apply map_eq. intros i.
    rewrite !DeleteFacts.lookup_saved_removed.
    destruct (string_dec i DATA_FILE); [ reflexivity | ].
    destruct (string_dec i (item_image_path a)), (string_dec i (item_image_path b));
      reflexivity.
  - intros outfit_data. unfold delete_outfit_button.
    cbn [session_wardrobe current_outfit disk screen items outfits].
    rewrite DeleteFacts.filter_twice. f_equal.
    unfold save_wardrobe. apply insert_insert_eq.
  - intros a b. unfold delete_outfit_button.
    cbn [session_wardrobe current_outfit disk screen items outfits].
    rewrite (DeleteFacts.filter_swap
               (fun o => negb (String.eqb (outfit_id o) (outfit_id a)))). f_equal.
    unfold save_wardrobe. rewrite !insert_insert_eq. reflexivity.
Qed.
